(** * Word Soul browser client: session delivery layer

    A shallow embedding of [app/static/js/app.js]: the request pipeline
    ([fetchWithAuth]), the refresh protocol ([refreshToken]), logout, the
    global error banner, the turn engine ([handleActionSubmit] and the retry
    button), the game log with its index-addressed narrative edits, the
    suggestion buttons and session start-up ([startGame]).

    Conventions of the embedding.
    - JavaScript values are the values [JSON.parse] can produce, plus
      [undefined]; numbers are integers.
    - Strings are UTF-8 byte strings.
    - An [async] function is run to completion in one piece: the page is
      single threaded and the only suspension points are network calls, so
      a run is a function from the world before to the world after.
    - The remote authority is a stream of replies, one per network call, in
      the order the calls are issued.
    - [fetchWithAuth] calls itself; its embedding takes the number of
      pipeline invocations it may still start (fuel) and reports when that
      number is used up. *)

From stdpp Require Import base gmap strings list pretty.

Set Warnings "-register-all".

Open Scope string_scope.
Open Scope list_scope.
Open Scope Z_scope.

(** ** JavaScript values *)

Inductive JsVal : Type :=
| JUndefined
| JNull
| JBool (b : bool)
| JNum (n : Z)
| JStr (s : string)
| JArr (xs : list JsVal)
| JObj (fields : list (string * JsVal)).

(** Errors a modelled operation can throw. *)
Inductive JsError : Type :=
| TypeError      (* property of null/undefined, call of a non-function *)
| SyntaxError    (* response.json() on a body that is not JSON *)
| NetworkError.  (* fetch rejected: no reply reached the page *)

(** ToBoolean. *)
Definition truthy (v : JsVal) : bool :=
  match v with
  | JUndefined | JNull => false
  | JBool b => b
  | JNum n => negb (n =? 0)
  | JStr s => negb (String.eqb s "")
  | JArr _ | JObj _ => true
  end.

(** [a || b] on values. *)
Definition js_or (a b : JsVal) : JsVal := if truthy a then a else b.

(** [v === s] for a string literal [s]. *)
Definition strict_eq_str (v : JsVal) (s : string) : bool :=
  match v with
  | JStr t => String.eqb t s
  | _ => false
  end.

(** [v === n] for a number literal [n]. *)
Definition strict_eq_num (v : JsVal) (n : Z) : bool :=
  match v with
  | JNum m => m =? n
  | _ => false
  end.

Definition is_undefined (v : JsVal) : bool :=
  match v with JUndefined => true | _ => false end.

Definition is_null (v : JsVal) : bool :=
  match v with JNull => true | _ => false end.

Definition nullish (v : JsVal) : bool := is_null v || is_undefined v.

(** [typeof v === 'object' && v !== null]. *)
Definition is_object (v : JsVal) : bool :=
  match v with JArr _ | JObj _ => true | _ => false end.

(** [Array.isArray(v)]. *)
Definition is_array (v : JsVal) : bool :=
  match v with JArr _ => true | _ => false end.

(** Own property lookup in a parsed object: the first binding of the key. *)
Fixpoint lookup_field (k : string) (fields : list (string * JsVal)) : JsVal :=
  match fields with
  | [] => JUndefined
  | (k', v) :: rest => if String.eqb k' k then v else lookup_field k rest
  end.

(** [s.length]: the number of UTF-16 code units of a string.  A character
    of one to three bytes is one unit, a character of four bytes is two. *)
Fixpoint utf16_length (s : string) : nat :=
  match s with
  | EmptyString => 0%nat
  | String c rest =>
      let n := Ascii.N_of_ascii c in
      ((if (n <? 128)%N then 1
        else if (n <? 192)%N then 0
        else if (n <? 240)%N then 1
        else 2) + utf16_length rest)%nat
  end.

(** [v.k] for a value that is neither null nor undefined.  Arrays and
    strings answer [length]; primitives have no other property the client
    reads. *)
Definition field (v : JsVal) (k : string) : JsVal :=
  match v with
  | JObj fields => lookup_field k fields
  | JArr xs => if String.eqb k "length" then JNum (Z.of_nat (length xs)) else JUndefined
  | JStr s => if String.eqb k "length" then JNum (Z.of_nat (utf16_length s)) else JUndefined
  | _ => JUndefined
  end.

(** [xs.join(sep)] over already converted elements. *)
Definition join_with {A : Type} (f : A -> string) (sep : string) : list A -> string :=
  fix go (l : list A) : string :=
    match l with
    | [] => ""
    | [x] => f x
    | x :: rest => f x +:+ sep +:+ go rest
    end.

(** ToString, as used by template literals and [Array.prototype.join]; an
    array element that is null or undefined joins as the empty string. *)
Fixpoint js_to_string (v : JsVal) : string :=
  match v with
  | JUndefined => "undefined"
  | JNull => "null"
  | JBool true => "true"
  | JBool false => "false"
  | JNum n => pretty n
  | JStr s => s
  | JArr xs =>
      join_with (fun x => match x with
                          | JUndefined | JNull => ""
                          | _ => js_to_string x
                          end) "," xs
  | JObj _ => "[object Object]"
  end.

Definition elem_to_string (v : JsVal) : string :=
  match v with
  | JUndefined | JNull => ""
  | _ => js_to_string v
  end.

(** [xs.join(sep)]. *)
Definition js_join (sep : string) (xs : list JsVal) : string :=
  join_with elem_to_string sep xs.

(** ** String.prototype.trim

    White space and line terminators of ECMAScript, recognised on the UTF-8
    encoding: the six ASCII ones, U+00A0, U+1680, U+2000 to U+200A, U+2028,
    U+2029, U+202F, U+205F, U+3000 and U+FEFF. *)

Definition byte_is (c : Ascii.ascii) (n : N) : bool := (Ascii.N_of_ascii c =? n)%N.

Definition ws1 (c : Ascii.ascii) : bool :=
  let n := Ascii.N_of_ascii c in ((9 <=? n) && (n <=? 13) || (n =? 32))%N.

Definition ws2 (c1 c2 : Ascii.ascii) : bool := byte_is c1 194 && byte_is c2 160.

Definition ws3 (c1 c2 c3 : Ascii.ascii) : bool :=
  let n := Ascii.N_of_ascii c3 in
  byte_is c1 225 && byte_is c2 154 && byte_is c3 128
  || byte_is c1 226 && byte_is c2 128
     && ((128 <=? n) && (n <=? 138) || (n =? 168) || (n =? 169) || (n =? 175))%N
  || byte_is c1 226 && byte_is c2 129 && byte_is c3 159
  || byte_is c1 227 && byte_is c2 128 && byte_is c3 128
  || byte_is c1 239 && byte_is c2 187 && byte_is c3 191.

(** Drop the white space at the front.  [flip] is [false] on a string read
    left to right and [true] on a reversed string, where the bytes of each
    character come last byte first. *)
Fixpoint strip (flip : bool) (s : string) : string :=
  match s with
  | String c1 s1 =>
      if ws1 c1 then strip flip s1
      else match s1 with
           | String c2 s2 =>
               if (if flip then ws2 c2 c1 else ws2 c1 c2) then strip flip s2
               else match s2 with
                    | String c3 s3 =>
                        if (if flip then ws3 c3 c2 c1 else ws3 c1 c2 c3)
                        then strip flip s3 else s
                    | EmptyString => s
                    end
           | EmptyString => s
           end
  | EmptyString => s
  end.

Definition trim (s : string) : string :=
  String.rev (strip true (String.rev (strip false s))).

(** The characters of a string, as the string iterator (spread) yields
    them: a new character starts at every byte that is not a UTF-8
    continuation byte. *)
Definition is_continuation (c : Ascii.ascii) : bool :=
  let n := Ascii.N_of_ascii c in ((128 <=? n) && (n <=? 191))%N.

Fixpoint chars_go (cur : string) (s : string) : list string :=
  match s with
  | EmptyString => [String.rev cur]
  | String c rest =>
      if is_continuation c then chars_go (String c cur) rest
      else String.rev cur :: chars_go (String c "") rest
  end.

Definition chars (s : string) : list string :=
  match s with
  | EmptyString => []
  | String c rest => chars_go (String c "") rest
  end.

(** [[...v]]: arrays and strings are iterable, nothing else the client
    meets is. *)
Definition spread (v : JsVal) : option (list JsVal) :=
  match v with
  | JArr xs => Some xs
  | JStr s => Some (JStr <$> chars s)
  | _ => None
  end.

(** ** The network *)

(** A call as handed to [fetch].  [body] is the value given to
    [JSON.stringify], kept unserialised. *)
Record Request : Type := {
  url : string;
  method : option string;
  headers : gmap string string;
  body : option JsVal
}.

(** The second argument of [fetchWithAuth]. *)
Record Options : Type := {
  o_method : option string;
  o_headers : gmap string string;   (* ∅ when options.headers is undefined *)
  o_body : option JsVal
}.

Definition no_options : Options :=
  {| o_method := None; o_headers := ∅; o_body := None |}.

(** What the network does with a call: nothing arrives ([fetch] rejects),
    or a reply with a status and a body; the body is [None] when it is not
    JSON ([response.json()] rejects). *)
Inductive NetReply : Type :=
| NoReply
| Reply (st : Z) (payload : option JsVal).

Record Response : Type := {
  status : Z;
  payload_of : option JsVal
}.

(** [response.ok]. *)
Definition ok (r : Response) : bool := (200 <=? status r) && (status r <=? 299).

(** ** The page *)

(** [const state = {...}]. *)
Record AppState : Type := {
  accessToken : JsVal;
  currentSessionId : JsVal;
  activeAiConfigId : JsVal;
  currentWorldName : JsVal;
  lastPlayerAction : JsVal;
  aiConfigs : list JsVal
}.

(** The closures the modelled code hands to [handleApiError]. *)
Inductive Callback : Type :=
| CbHandleLogout.

(** [#global-error]: its text, whether it is displayed, the callback of its
    retry button when it has one, and whether it carries the feedback link. *)
Record ErrorBanner : Type := {
  banner_text : string;
  banner_shown : bool;
  banner_retry : option Callback;
  banner_feedback : bool
}.

(** A child of [#game-log].
    - [Entry type text]: a plain entry, [entry.textContent = text].
    - [Narrative content bound historyIndex mark]: an entry of type ['ai']:
      the content div, and the edit button whose handler closes over the
      text [bound] and over [historyIndex]; [mark] is the "(已修改)" span.
    - [Editor content textarea originalText historyIndex]: the same entry
      while its edit box is open; the save and cancel handlers close over
      [originalText] and [historyIndex].
    - [Skeleton]: the placeholder shown while a turn is in flight. *)
Inductive LogNode : Type :=
| Entry (type : JsVal) (text : JsVal)
| Narrative (content : JsVal) (bound : JsVal) (historyIndex : JsVal) (mark : bool)
| Editor (content : JsVal) (textarea : string) (originalText : JsVal) (historyIndex : JsVal)
| Skeleton.

(** A button of [#game-suggestions]: its label, the value its click handler
    passes to [handleActionSubmit], the details array its span shows (when
    it has the span), and its [disabled] flag. *)
Record SuggestionBtn : Type := {
  btn_text : JsVal;
  btn_submit : JsVal;
  btn_details : option (list JsVal);
  btn_disabled : bool
}.

(** The text of the details span: [`(${choice.details.join(', ')})`]. *)
Definition details_text (details : list JsVal) : string :=
  "(" +:+ js_join ", " details +:+ ")".

(** [#retry-ai-btn]. *)
Record RetryBtn : Type := {
  retry_display : string;
  retry_disabled : bool;
  retry_text : string
}.

(** A host for concrete runs: the panel holds nothing, rendering it never
    fails, no string converts to a positive number. *)
Definition plain_render : JsVal -> unit -> unit * option JsError :=
  fun _ panel => (panel, None).

Definition no_numeric : string -> bool := fun _ => false.

Section Client.

(** Two parts of the host stay abstract.
    - The side panel of the game view (attributes, location, inventory,
      quests, cooldowns) and the function that fills it in,
      [renderPlayerStatus]: it reads the state value it is given, writes
      only the five panel elements, and may throw on a malformed state.
    - ToNumber on strings: [numeric_positive s] says whether the number
      that [s] converts to is greater than zero. *)
Context {StatusPanel : Type}.
Variable render_status : JsVal -> StatusPanel -> StatusPanel * option JsError.
Variable numeric_positive : string -> bool.

(** [v > 0]. *)
Definition js_gt_zero (v : JsVal) : bool :=
  match v with
  | JNum n => 0 <? n
  | JBool b => b
  | JStr s => numeric_positive s
  | JArr _ => numeric_positive (js_to_string v)
  | JUndefined | JNull | JObj _ => false
  end.

(** [v.length > 0] for a value that is neither null nor undefined. *)
Definition length_positive (v : JsVal) : bool := js_gt_zero (field v "length").

Record Page : Type := {
  view : string;                       (* id of the view that is displayed *)
  globalError : ErrorBanner;
  gameWorldName : JsVal;               (* textContent *)
  gameLog : list LogNode;
  actionInput_value : string;
  actionInput_disabled : bool;
  retryAiBtn : RetryBtn;
  gameSuggestions : list SuggestionBtn;
  statusPanel : StatusPanel
}.

Record World : Type := {
  state : AppState;
  localStorage : gmap string string;
  page : Page;
  requests : list Request;             (* the calls issued so far, oldest first *)
  net : nat -> NetReply;               (* the reply to the n-th call *)
  alerts : list string                 (* messages shown with alert(), oldest first *)
}.

(** *** Field updates *)

Definition with_state (f : AppState -> AppState) (w : World) : World :=
  {| state := f (state w); localStorage := localStorage w; page := page w;
     requests := requests w; net := net w; alerts := alerts w |}.

Definition with_storage (f : gmap string string -> gmap string string) (w : World) : World :=
  {| state := state w; localStorage := f (localStorage w); page := page w;
     requests := requests w; net := net w; alerts := alerts w |}.

Definition with_page (f : Page -> Page) (w : World) : World :=
  {| state := state w; localStorage := localStorage w; page := f (page w);
     requests := requests w; net := net w; alerts := alerts w |}.

Definition log_request (r : Request) (w : World) : World :=
  {| state := state w; localStorage := localStorage w; page := page w;
     requests := requests w ++ [r]; net := net w; alerts := alerts w |}.

Definition log_alert (msg : string) (w : World) : World :=
  {| state := state w; localStorage := localStorage w; page := page w;
     requests := requests w; net := net w; alerts := alerts w ++ [msg] |}.

Definition set_accessToken (v : JsVal) (s : AppState) : AppState :=
  {| accessToken := v; currentSessionId := currentSessionId s;
     activeAiConfigId := activeAiConfigId s; currentWorldName := currentWorldName s;
     lastPlayerAction := lastPlayerAction s; aiConfigs := aiConfigs s |}.

Definition set_currentSessionId (v : JsVal) (s : AppState) : AppState :=
  {| accessToken := accessToken s; currentSessionId := v;
     activeAiConfigId := activeAiConfigId s; currentWorldName := currentWorldName s;
     lastPlayerAction := lastPlayerAction s; aiConfigs := aiConfigs s |}.

Definition set_currentWorldName (v : JsVal) (s : AppState) : AppState :=
  {| accessToken := accessToken s; currentSessionId := currentSessionId s;
     activeAiConfigId := activeAiConfigId s; currentWorldName := v;
     lastPlayerAction := lastPlayerAction s; aiConfigs := aiConfigs s |}.

Definition set_lastPlayerAction (v : JsVal) (s : AppState) : AppState :=
  {| accessToken := accessToken s; currentSessionId := currentSessionId s;
     activeAiConfigId := activeAiConfigId s; currentWorldName := currentWorldName s;
     lastPlayerAction := v; aiConfigs := aiConfigs s |}.

Definition set_view (v : string) (d : Page) : Page :=
  {| view := v; globalError := globalError d; gameWorldName := gameWorldName d;
     gameLog := gameLog d; actionInput_value := actionInput_value d;
     actionInput_disabled := actionInput_disabled d; retryAiBtn := retryAiBtn d;
     gameSuggestions := gameSuggestions d; statusPanel := statusPanel d |}.

Definition set_globalError (b : ErrorBanner) (d : Page) : Page :=
  {| view := view d; globalError := b; gameWorldName := gameWorldName d;
     gameLog := gameLog d; actionInput_value := actionInput_value d;
     actionInput_disabled := actionInput_disabled d; retryAiBtn := retryAiBtn d;
     gameSuggestions := gameSuggestions d; statusPanel := statusPanel d |}.

Definition set_gameWorldName (v : JsVal) (d : Page) : Page :=
  {| view := view d; globalError := globalError d; gameWorldName := v;
     gameLog := gameLog d; actionInput_value := actionInput_value d;
     actionInput_disabled := actionInput_disabled d; retryAiBtn := retryAiBtn d;
     gameSuggestions := gameSuggestions d; statusPanel := statusPanel d |}.

Definition set_gameLog (l : list LogNode) (d : Page) : Page :=
  {| view := view d; globalError := globalError d; gameWorldName := gameWorldName d;
     gameLog := l; actionInput_value := actionInput_value d;
     actionInput_disabled := actionInput_disabled d; retryAiBtn := retryAiBtn d;
     gameSuggestions := gameSuggestions d; statusPanel := statusPanel d |}.

Definition set_actionInput_value (s : string) (d : Page) : Page :=
  {| view := view d; globalError := globalError d; gameWorldName := gameWorldName d;
     gameLog := gameLog d; actionInput_value := s;
     actionInput_disabled := actionInput_disabled d; retryAiBtn := retryAiBtn d;
     gameSuggestions := gameSuggestions d; statusPanel := statusPanel d |}.

Definition set_actionInput_disabled (b : bool) (d : Page) : Page :=
  {| view := view d; globalError := globalError d; gameWorldName := gameWorldName d;
     gameLog := gameLog d; actionInput_value := actionInput_value d;
     actionInput_disabled := b; retryAiBtn := retryAiBtn d;
     gameSuggestions := gameSuggestions d; statusPanel := statusPanel d |}.

Definition set_retryAiBtn (r : RetryBtn) (d : Page) : Page :=
  {| view := view d; globalError := globalError d; gameWorldName := gameWorldName d;
     gameLog := gameLog d; actionInput_value := actionInput_value d;
     actionInput_disabled := actionInput_disabled d; retryAiBtn := r;
     gameSuggestions := gameSuggestions d; statusPanel := statusPanel d |}.

Definition set_gameSuggestions (l : list SuggestionBtn) (d : Page) : Page :=
  {| view := view d; globalError := globalError d; gameWorldName := gameWorldName d;
     gameLog := gameLog d; actionInput_value := actionInput_value d;
     actionInput_disabled := actionInput_disabled d; retryAiBtn := retryAiBtn d;
     gameSuggestions := l; statusPanel := statusPanel d |}.

Definition set_statusPanel (p : StatusPanel) (d : Page) : Page :=
  {| view := view d; globalError := globalError d; gameWorldName := gameWorldName d;
     gameLog := gameLog d; actionInput_value := actionInput_value d;
     actionInput_disabled := actionInput_disabled d; retryAiBtn := retryAiBtn d;
     gameSuggestions := gameSuggestions d; statusPanel := p |}.

(** *** Runs

    A run of client code from a world ends normally with a value, ends with
    a thrown error (a rejected promise, for an [async] function), or stops
    because [fetchWithAuth] has no invocation left; each outcome carries
    the world reached. *)
Inductive Completion (A : Type) : Type :=
| Normal (a : A) (w : World)
| Thrown (e : JsError) (w : World)
| OutOfFuel (w : World).

Arguments Normal {A} a w.
Arguments Thrown {A} e w.
Arguments OutOfFuel {A} w.

Definition JS (A : Type) : Type := World -> Completion A.

Definition final_world {A : Type} (c : Completion A) : World :=
  match c with
  | Normal _ w | Thrown _ w | OutOfFuel w => w
  end.

#[local] Instance JS_ret : MRet JS := fun A a w => Normal a w.

#[local] Instance JS_bind : MBind JS := fun A B f m w =>
  match m w with
  | Normal a w' => f a w'
  | Thrown e w' => Thrown e w'
  | OutOfFuel w' => OutOfFuel w'
  end.

Definition throw {A : Type} (e : JsError) : JS A := fun w => Thrown e w.

Definition get_world : JS World := fun w => Normal w w.

Definition modify (f : World -> World) : JS unit := fun w => Normal tt (f w).

(** [try { body } catch (error) { handler }]. *)
Definition try_catch {A : Type} (body : JS A) (handler : JsError -> JS A) : JS A :=
  fun w =>
    match body w with
    | Thrown e w' => handler e w'
    | c => c
    end.

(** [try { body } finally { fin }], for a [fin] that neither returns nor
    throws on its own account. *)
Definition try_finally {A : Type} (body : JS A) (fin : JS unit) : JS A :=
  fun w =>
    match body w with
    | Normal a w' => (fin;; mret a) w'
    | Thrown e w' => (fin;; throw e) w'
    | OutOfFuel w' => OutOfFuel w'
    end.

(** [v.k], which throws on null and undefined. *)
Definition prop (v : JsVal) (k : string) : JS JsVal :=
  match v with
  | JUndefined | JNull => throw TypeError
  | _ => mret (field v k)
  end.

(** [f(x)] for each [x] of [xs], in order. *)
Fixpoint for_each {A : Type} (f : A -> JS unit) (xs : list A) : JS unit :=
  match xs with
  | [] => mret tt
  | x :: rest => f x;; for_each f rest
  end.

(** *** Host objects *)

(** [localStorage.getItem(k)]. *)
Definition getItem (k : string) : JS JsVal :=
  w ← get_world;
  mret (match localStorage w !! k with Some s => JStr s | None => JNull end).

(** [localStorage.setItem(k, v)]: the value is stored as a string. *)
Definition setItem (k : string) (v : JsVal) : JS unit :=
  modify (with_storage (insert k (js_to_string v))).

(** [localStorage.removeItem(k)]. *)
Definition removeItem (k : string) : JS unit :=
  modify (with_storage (delete k)).

(** [alert(msg)]. *)
Definition alert (msg : string) : JS unit := modify (log_alert msg).

(** [fetch(url, init)]: the call is issued and the network's reply to it,
    the next of the stream, decides the outcome. *)
Definition fetch (r : Request) : JS Response :=
  fun w =>
    match net w (length (requests w)) with
    | NoReply => Thrown NetworkError (log_request r w)
    | Reply st payload => Normal {| status := st; payload_of := payload |} (log_request r w)
    end.

(** [response.json()]. *)
Definition json (r : Response) : JS JsVal :=
  match payload_of r with
  | Some v => mret v
  | None => throw SyntaxError
  end.

(** ** The client *)

Definition API_URL : string := "/api".

Definition cleared_banner : ErrorBanner :=
  {| banner_text := ""; banner_shown := false; banner_retry := None;
     banner_feedback := false |}.

(** [showView(viewId)]: hides and empties the error banner, hides every
    view and displays the one with the given id (the page has a view for
    each id the client passes). *)
Definition showView (viewId : string) : JS unit :=
  modify (with_page (set_globalError cleared_banner));;
  modify (with_page (set_view viewId)).

(** [handleApiError(message, retryCallback = null, feedback = false)]. *)
Definition handleApiError (message : string) (retryCallback : option Callback)
    (feedback : bool) : JS unit :=
  modify (with_page (set_globalError
    {| banner_text := message; banner_shown := true;
       banner_retry := retryCallback; banner_feedback := feedback |})).

(** [handleLogout()]. *)
Definition handleLogout : JS unit :=
  modify (with_state (set_accessToken JNull));;
  modify (with_state (set_currentSessionId JNull));;
  modify (with_state (set_currentWorldName JNull));;
  removeItem "access_token";;
  removeItem "refresh_token";;
  showView "auth-view".

Definition run_callback (cb : Callback) : JS unit :=
  match cb with
  | CbHandleLogout => handleLogout
  end.

(** [retryBtn.onclick] of the banner's retry button, when there is one. *)
Definition banner_retry_click : JS unit :=
  w ← get_world;
  match banner_retry (globalError (page w)) with
  | Some cb =>
      modify (with_page (set_globalError
        {| banner_text := banner_text (globalError (page w)); banner_shown := false;
           banner_retry := Some cb;
           banner_feedback := banner_feedback (globalError (page w)) |}));;
      run_callback cb
  | None => mret tt
  end.

(** The call of the refresh protocol: a plain [fetch] of [/api/refresh]. *)
Definition refresh_request (refreshToken : JsVal) : Request :=
  {| url := "/api/refresh"; method := Some "POST";
     headers := {[ "Content-Type" := "application/json" ]};
     body := Some (JObj [("refresh_token", refreshToken)]) |}.

(** [refreshToken()]. *)
Definition refreshToken : JS bool :=
  refreshToken ← getItem "refresh_token";
  if negb (truthy refreshToken) then mret false
  else
    response ← fetch (refresh_request refreshToken);
    data ← json response;
    if ok response then
      access_token ← prop data "access_token";
      setItem "access_token" access_token;;
      modify (with_state (set_accessToken access_token));;
      mret true
    else
      _ ← prop data "error";
      mret false.

(** The headers [fetchWithAuth] sends: the two fixed ones, overridden by
    those of the options, and the bearer token when there is one. *)
Definition auth_headers (options : Options) (token : JsVal) : gmap string string :=
  let headers :=
    o_headers options ∪
    {[ "Content-Type" := "application/json"; "credentials" := "include" ]} in
  if truthy token then <["Authorization" := "Bearer " +:+ js_to_string token]> headers
  else headers.

(** [responseData && responseData.error === 'token_expired']. *)
Definition token_expired (responseData : JsVal) : bool :=
  truthy responseData && strict_eq_str (field responseData "error") "token_expired".

Definition login_expired_banner : ErrorBanner :=
  {| banner_text := "登录状态已过期，请重新登录。"; banner_shown := true;
     banner_retry := Some CbHandleLogout; banner_feedback := false |}.

(** The call [fetchWithAuth] issues from a world: [fetch(`${API_URL}${endpoint}`,
    { ...options, headers })]. *)
Definition pipeline_request (endpoint : string) (options : Options) (w : World) : Request :=
  {| url := API_URL +:+ endpoint; method := o_method options;
     headers := auth_headers options (accessToken (state w));
     body := o_body options |}.

(** [fetchWithAuth(endpoint, options = {})]; the result is [None] for
    [null].  [fuel] bounds the invocations: the call itself and the calls
    it makes to itself after a successful refresh. *)
Fixpoint fetchWithAuth (fuel : nat) (endpoint : string) (options : Options)
    : JS (option Response) :=
  match fuel with
  | O => fun w => OutOfFuel w
  | S fuel' =>
      w ← get_world;
      response ← fetch (pipeline_request endpoint options w);
      if status response =? 401 then
        responseData ← json response;
        if token_expired responseData then
          refreshSuccessful ← refreshToken;
          if refreshSuccessful : bool then
            fetchWithAuth fuel' endpoint options
          else
            handleLogout;;
            mret None
        else
          handleApiError "登录状态已过期，请重新登录。" (Some CbHandleLogout) false;;
          mret None
      else mret (Some response)
  end.

(** [appendLog(text, type, historyIndex = null)]. *)
Definition appendLog (text type historyIndex : JsVal) : JS unit :=
  let historyIndex := if is_undefined historyIndex then JNull else historyIndex in
  let entry :=
    if strict_eq_str type "ai" then Narrative text text historyIndex false
    else Entry type text in
  modify (with_page (fun d => set_gameLog (gameLog d ++ [entry]) d)).

(** [renderPlayerStatus(currentState)]. *)
Definition renderPlayerStatus (currentState : JsVal) : JS unit :=
  fun w =>
    let rendered := render_status currentState (statusPanel (page w)) in
    let w' := with_page (set_statusPanel (fst rendered)) w in
    match snd rendered with
    | None => Normal tt w'
    | Some e => Thrown e w'
    end.

(** The button [renderGameSuggestions] builds for one choice. *)
Definition suggestion_button (choice : JsVal) : SuggestionBtn :=
  if is_object choice && truthy (field choice "display_text") then
    let actionCommand :=
      if negb (is_undefined (field choice "action_command"))
      then field choice "action_command"
      else field choice "display_text" in
    {| btn_text := field choice "display_text";
       btn_submit := actionCommand;
       btn_details :=
         match field choice "details" with
         | JArr details => Some details
         | _ => None
         end;
       btn_disabled := false |}
  else
    {| btn_text := choice; btn_submit := choice; btn_details := None;
       btn_disabled := false |}.

(** [renderGameSuggestions(choices)]. *)
Definition renderGameSuggestions (choices : JsVal) : JS unit :=
  modify (with_page (set_gameSuggestions []));;
  if truthy choices && length_positive choices then
    match choices with
    | JArr xs =>
        for_each (fun choice =>
          modify (with_page (fun d =>
            set_gameSuggestions (gameSuggestions d ++ [suggestion_button choice]) d))) xs
    | _ => throw TypeError
    end
  else mret tt.

(** [renderGameTurn(data)]. *)
Definition renderGameTurn (data : JsVal) : JS unit :=
  description ← prop data "description";
  (if truthy description then appendLog description (JStr "ai") (JNum 0) else mret tt);;
  (if truthy (field data "player_message")
   then appendLog (field data "player_message") (JStr "message") JUndefined
   else mret tt);;
  (if truthy (field data "current_state")
   then renderPlayerStatus (field data "current_state")
   else mret tt);;
  renderGameSuggestions (field data "suggested_choices").

(** [try { body } finally { fin }]: [fin] reads the locals the block
    assigned, here the value the block completed with ([None] when it
    threw), and neither returns nor throws on its own account. *)
Definition try_finally_with {A : Type} (body : JS A) (fin : option A -> JS unit) : JS A :=
  fun w =>
    match body w with
    | Normal a w' => (fin (Some a);; mret a) w'
    | Thrown e w' => (fin None;; throw e) w'
    | OutOfFuel w' => OutOfFuel w'
    end.

Definition is_skeleton (n : LogNode) : bool :=
  match n with Skeleton => true | _ => false end.

(** [gameLog.removeChild(skeletonEntry)]; turns are submitted one at a
    time, so the log holds no other placeholder. *)
Definition remove_skeleton (l : list LogNode) : list LogNode :=
  List.filter (fun n => negb (is_skeleton n)) l.

Definition disable_btn (b : SuggestionBtn) (flag : bool) : SuggestionBtn :=
  {| btn_text := btn_text b; btn_submit := btn_submit b;
     btn_details := btn_details b; btn_disabled := flag |}.

(** [gameSuggestions.querySelectorAll('button').forEach(btn => btn.disabled = flag)]. *)
Definition set_suggestions_disabled (flag : bool) : JS unit :=
  modify (with_page (fun d =>
    set_gameSuggestions ((fun b => disable_btn b flag) <$> gameSuggestions d) d)).

(** The request of a turn submission. *)
Definition action_options (action : JsVal) : Options :=
  {| o_method := Some "POST"; o_headers := ∅;
     o_body := Some (JObj [("action", action)]) |}.

(** [const action = actionText || actionInput.value.trim()]. *)
Definition chosen_action (actionText : JsVal) (w : World) : JsVal :=
  js_or actionText (JStr (trim (actionInput_value (page w)))).

(** The [try]/[catch]/[finally] statement of [handleActionSubmit], for the
    action and the retry button text the function has read before it.  The
    value of the [try] block is the local [requestSucceeded]. *)
Definition submit_turn (fuel : nat) (action : JsVal) (originalRetryBtnText : string)
    : JS bool :=
  try_finally_with
    (try_catch
       (w ← get_world;
        response ← fetchWithAuth fuel
          ("/sessions/" +:+ js_to_string (currentSessionId (state w)) +:+ "/action")
          (action_options action);
        modify (with_page (fun d => set_gameLog (remove_skeleton (gameLog d)) d));;
        match response with
        | Some r =>
            if ok r then
              data ← json r;
              renderGameTurn data;;
              mret true
            else
              errorData ← try_catch (json r) (fun _ => mret (JObj []));
              error ← prop errorData "error";
              appendLog
                (JStr ("世界之灵没有回应... (" +:+ js_to_string (js_or error (JStr "请重试")) +:+ ")"))
                (JStr "message") JUndefined;;
              mret false
        | None =>
            appendLog (JStr "世界之灵没有回应... (未知错误)") (JStr "message") JUndefined;;
            mret false
        end)
       (fun error =>
          w ← get_world;
          (if existsb is_skeleton (gameLog (page w))
           then modify (with_page (fun d => set_gameLog (remove_skeleton (gameLog d)) d))
           else mret tt);;
          appendLog (JStr "与世界之灵的连接中断，请检查网络并重试。") (JStr "message") JUndefined;;
          mret false))
    (fun requestSucceeded =>
       modify (with_page (set_retryAiBtn
         {| retry_display := "inline-block"; retry_disabled := false;
            retry_text := originalRetryBtnText |}));;
       modify (with_page (set_actionInput_disabled false));;
       if negb (default false requestSucceeded) then set_suggestions_disabled false
       else mret tt).

(** [handleActionSubmit(e, actionText)].  [e] tells whether an event was
    passed; [e.preventDefault()] does nothing to the modelled page. *)
Definition handleActionSubmit (fuel : nat) (e : bool) (actionText : JsVal) : JS unit :=
  w ← get_world;
  let action := chosen_action actionText w in
  if negb (truthy action) then mret tt
  else
    modify (with_state (set_lastPlayerAction action));;
    (if negb (truthy actionText) then modify (with_page (set_actionInput_value ""))
     else mret tt);;
    appendLog action (JStr "player") JUndefined;;
    w ← get_world;
    let originalRetryBtnText := retry_text (retryAiBtn (page w)) in
    modify (with_page (set_retryAiBtn
      {| retry_display := "none"; retry_disabled := true; retry_text := "重试中..." |}));;
    modify (with_page (set_actionInput_disabled true));;
    set_suggestions_disabled true;;
    modify (with_page (fun d => set_gameLog (gameLog d ++ [Skeleton]) d));;
    submit_turn fuel action originalRetryBtnText;;
    mret tt.


(** A click on the [i]-th suggestion button; a disabled button, or none at
    that place, fires nothing. *)
Definition suggestion_click (fuel : nat) (i : nat) : JS unit :=
  w ← get_world;
  match gameSuggestions (page w) !! i with
  | Some b => if btn_disabled b then mret tt
              else handleActionSubmit fuel false (btn_submit b)
  | None => mret tt
  end.

(** The body of [reversedHistory.forEach((entry, displayIndex) => ...)],
    for a history of [len] entries. *)
Definition restore_entry (len : nat) (displayIndex : nat) (entry : JsVal) : JS unit :=
  let originalIndex := Z.of_nat len - 1 - Z.of_nat displayIndex in
  role ← prop entry "role";
  let historyIndex := if strict_eq_str role "assistant" then JNum originalIndex else JNull in
  appendLog (field entry "content") role historyIndex.

Fixpoint for_each_from {A : Type} (f : nat -> A -> JS unit) (i : nat) (xs : list A) : JS unit :=
  match xs with
  | [] => mret tt
  | x :: rest => f i x;; for_each_from f (S i) rest
  end.

(** [startGame(sessionData)].  The submission it starts for a new game is
    run to its end. *)
Definition startGame (fuel : nat) (sessionData : JsVal) : JS unit :=
  currentState ← prop sessionData "current_state";
  if negb (truthy currentState) then
    handleApiError "加载存档失败：存档数据似乎已损坏或不完整，无法从上次的进度继续。" None false
  else
    modify (with_state (set_currentSessionId (field sessionData "session_id")));;
    modify (with_state (set_currentWorldName (field sessionData "world_name")));;
    modify (with_page (set_gameWorldName (field sessionData "world_name")));;
    modify (with_page (set_gameLog []));;
    modify (with_page (set_actionInput_value ""));;
    renderPlayerStatus currentState;;
    showView "game-view";;
    let recent_history := field currentState "recent_history" in
    if truthy recent_history && length_positive recent_history then
      match spread recent_history with
      | None => throw TypeError
      | Some entries =>
          for_each_from (restore_entry (length entries)) 0 (reverse entries);;
          let lastAiResponse := js_or (field currentState "last_ai_response") (JObj []) in
          renderGameSuggestions (field lastAiResponse "suggested_choices")
      end
    else
      (if truthy (field currentState "current_location")
       then appendLog (field currentState "current_location") (JStr "ai") JUndefined
       else mret tt);;
      handleActionSubmit fuel false (JStr "环顾四周").

(** *** Editing a narrative entry

    An entry element is named by its place in the log. *)

Definition replace_node (entryElement : nat) (n : LogNode) : JS unit :=
  modify (with_page (fun d => set_gameLog (<[entryElement := n]> (gameLog d)) d)).

(** [editNarrative(entryElement, contentDiv, originalText, historyIndex)].
    [originalText.split] exists on strings only. *)
Definition editNarrative (entryElement : nat) (contentDiv originalText historyIndex : JsVal)
    : JS unit :=
  match originalText with
  | JStr text => replace_node entryElement (Editor contentDiv text originalText historyIndex)
  | _ => throw TypeError
  end.

(** The request of a narrative edit. *)
Definition narrative_options (newText : string) (historyIndex : JsVal) : Options :=
  {| o_method := Some "POST";
     o_headers := {[ "Content-Type" := "application/json" ]};
     o_body := Some (JObj [("narrative", JStr newText); ("history_index", historyIndex)]) |}.

(** [saveNarrativeEdit(entryElement, contentDiv, newText, originalText,
    historyIndex)].  The value of the synchronisation step tells whether
    the function goes on to the local update. *)
Definition saveNarrativeEdit (fuel : nat) (entryElement : nat) (contentDiv : JsVal)
    (newText : string) (originalText historyIndex : JsVal) : JS unit :=
  if String.eqb (trim newText) "" then alert "剧情内容不能为空"
  else
    proceed ←
      (if negb (is_null historyIndex) && negb (is_undefined historyIndex) then
         try_catch
           (w ← get_world;
            response ← fetchWithAuth fuel
              ("/sessions/" +:+ js_to_string (currentSessionId (state w)) +:+ "/update_narrative")
              (narrative_options newText historyIndex);
            match response with
            | None => throw TypeError
            | Some r =>
                if negb (ok r) then
                  errorData ← json r;
                  error ← prop errorData "error";
                  alert ("更新失败: " +:+ js_to_string (js_or error (JStr "未知错误")));;
                  mret false
                else mret true
            end)
           (fun error => alert "同步到服务器失败，修改仅在本地生效";; mret true)
       else mret true);
    if proceed : bool then
      replace_node entryElement
        (Narrative (JStr newText) (JStr newText) historyIndex
                   (negb (strict_eq_str originalText newText)))
    else mret tt.

(** [cancelNarrativeEdit(entryElement, contentDiv, originalText, historyIndex)]. *)
Definition cancelNarrativeEdit (entryElement : nat) (contentDiv originalText historyIndex : JsVal)
    : JS unit :=
  replace_node entryElement (Narrative contentDiv originalText historyIndex false).

(** The handlers of the buttons of the entry at place [i]. *)
Definition edit_click (i : nat) : JS unit :=
  w ← get_world;
  match gameLog (page w) !! i with
  | Some (Narrative content bound historyIndex _) => editNarrative i content bound historyIndex
  | _ => mret tt
  end.

(** The user replaces the text of the edit box of the entry at place [i]. *)
Definition type_in_editor (i : nat) (text : string) : JS unit :=
  w ← get_world;
  match gameLog (page w) !! i with
  | Some (Editor content _ originalText historyIndex) =>
      replace_node i (Editor content text originalText historyIndex)
  | _ => mret tt
  end.

Definition save_click (fuel : nat) (i : nat) : JS unit :=
  w ← get_world;
  match gameLog (page w) !! i with
  | Some (Editor content textarea originalText historyIndex) =>
      saveNarrativeEdit fuel i content textarea originalText historyIndex
  | _ => mret tt
  end.

Definition cancel_click (i : nat) : JS unit :=
  w ← get_world;
  match gameLog (page w) !! i with
  | Some (Editor content _ originalText historyIndex) =>
      cancelNarrativeEdit i content originalText historyIndex
  | _ => mret tt
  end.

(** The index an entry submits when it is edited: the [historyIndex] its
    handlers close over. *)
Definition submitted_index (n : LogNode) : option JsVal :=
  match n with
  | Narrative _ _ historyIndex _ | Editor _ _ _ historyIndex => Some historyIndex
  | _ => None
  end.

(** *** Counting the calls of a run *)

(** A call of the pipeline carries the [credentials] header; the call of
    the refresh protocol goes to [/api/refresh] without it. *)
Definition from_pipeline (r : Request) : bool :=
  bool_decide (is_Some (headers r !! "credentials")).

Definition is_refresh_call (r : Request) : bool :=
  String.eqb (url r) "/api/refresh" && negb (from_pipeline r).

Definition count_pipeline (l : list Request) : nat := length (List.filter from_pipeline l).

Definition count_refresh (l : list Request) : nat := length (List.filter is_refresh_call l).

(** The replies from the [n]-th on make [k] rounds of a 401 with
    [token_expired] followed by a successful refresh. *)
Fixpoint expired_rounds (replies : nat -> NetReply) (n k : nat) : bool :=
  match k with
  | O => true
  | S k' =>
      match replies n, replies (S n) with
      | Reply st1 (Some responseData), Reply st2 (Some data) =>
          (st1 =? 401) && token_expired responseData
          && ok {| status := st2; payload_of := Some data |} && negb (nullish data)
          && expired_rounds replies (S (S n)) k'
      | _, _ => false
      end
  end.

(** *** Notions the statements use *)

(** From [w] to [w'] only requests that satisfy [P] were issued. *)
Definition issues (P : Request -> Prop) : relation World :=
  fun w w' => exists l, requests w' = requests w ++ l /\ Forall P l.

(** [state.lastPlayerAction] is the same in [w'] as in [w]. *)
Definition keeps_last : relation World :=
  fun w w' => lastPlayerAction (state w') = lastPlayerAction (state w).

(** The log of [w'] is the log of [w] with nodes added at its end. *)
Definition log_grows : relation World :=
  fun w w' => exists l, gameLog (page w') = gameLog (page w) ++ l.

(** [Q] survives every step that respects [R]. *)
Definition upward (R : relation World) (Q : World -> Prop) : Prop :=
  forall w1 w2, Q w1 -> R w1 w2 -> Q w2.


(** The world in which [handleActionSubmit] starts its [try] statement. *)
Definition submitting (actionText : JsVal) (w : World) : World :=
  let action := chosen_action actionText w in
  let w1 := with_state (set_lastPlayerAction action) w in
  let w2 := if negb (truthy actionText) then with_page (set_actionInput_value "") w1 else w1 in
  let w3 := with_page (fun d => set_gameLog (gameLog d ++ [Entry (JStr "player") action]) d) w2 in
  let w4 := with_page (set_retryAiBtn
              {| retry_display := "none"; retry_disabled := true;
                 retry_text := "重试中..." |}) w3 in
  let w5 := with_page (set_actionInput_disabled true) w4 in
  let w6 := with_page (fun d =>
              set_gameSuggestions ((fun b => disable_btn b true) <$> gameSuggestions d) d) w5 in
  with_page (fun d => set_gameLog (gameLog d ++ [Skeleton]) d) w6.

(** The endpoint of a turn submission from a world. *)
Definition action_endpoint (w : World) : string :=
  "/sessions/" +:+ js_to_string (currentSessionId (state w)) +:+ "/action".

(** The request carries the action [a]: its body is [{action: a}]. *)
Definition sends_action (a : JsVal) (r : Request) : Prop :=
  body r = Some (JObj [("action", a)]).

(** The single-retry property: a run of the pipeline issues at most one
    refresh call and at most two calls of the endpoint, the original one
    and one replay. *)
Definition single_retry (fuel : nat) (endpoint : string) (options : Options) (w : World)
    : Prop :=
  forall l,
    requests (final_world (fetchWithAuth fuel endpoint options w)) = requests w ++ l ->
    (count_refresh l <= 1)%nat /\ (count_pipeline l <= 2)%nat.

(** The normal form of a choice. *)
Record NormalizedChoice : Type := {
  displayText : JsVal;
  actionCommand : JsVal;
  details : option (list JsVal)
}.

(** What a button shows and submits. *)
Definition normalized (b : SuggestionBtn) : NormalizedChoice :=
  {| displayText := btn_text b; actionCommand := btn_submit b; details := btn_details b |}.

(** [a ?? b]. *)
Definition nullish_or (a b : JsVal) : JsVal :=
  match a with
  | JUndefined | JNull => b
  | _ => a
  end.

(** [k in v], for a parsed JSON value: an object has the fields it was
    written with, whatever they hold. *)
Definition has_field (v : JsVal) (k : string) : bool :=
  match v with
  | JObj fields => existsb (fun binding => String.eqb (fst binding) k) fields
  | _ => false
  end.

(** Modelled from the spec: the Suggestion Normalizer of section 4.6.  "If
    it is a structured object with a display-text field, produce
    [{displayText, actionCommand: actionCommand ?? displayText, details}];
    otherwise treat the raw value itself as both display text and action
    command."  The test is the presence of the field, whatever it holds;
    the details are a sequence (section 3) or absent. *)
Definition spec_normalize (choice : JsVal) : NormalizedChoice :=
  if has_field choice "display_text" then
    {| displayText := field choice "display_text";
       actionCommand := nullish_or (field choice "action_command") (field choice "display_text");
       details := match field choice "details" with
                  | JArr d => Some d
                  | _ => None
                  end |}
  else {| displayText := choice; actionCommand := choice; details := None |}.

(** Where the code and the specification give the same normal form: the
    choice has no display-text field, or it has one that is truthy and its
    [action_command] is not JSON null. *)
Definition normalizes_as_specified (choice : JsVal) : Prop :=
  has_field choice "display_text" = false \/
  (truthy (field choice "display_text") = true /\ field choice "action_command" <> JNull).

(** The request is the call of [endpoint] with [options] that the pipeline
    issues: same address, method and body, and sent by the pipeline. *)
Definition same_call (endpoint : string) (options : Options) (r : Request) : Prop :=
  url r = API_URL +:+ endpoint /\ method r = o_method options /\
  body r = o_body options /\ from_pipeline r = true.

(** [l] is [k] rounds of the call followed by the call [refresh] of the
    refresh protocol, and then the call once more. *)
Fixpoint replay_rounds (endpoint : string) (options : Options) (refresh : Request)
    (k : nat) (l : list Request) : Prop :=
  match k with
  | O => exists r, l = [r] /\ same_call endpoint options r
  | S k' =>
      exists r rest,
        l = r :: refresh :: rest /\ same_call endpoint options r /\
        replay_rounds endpoint options refresh k' rest
  end.

(** Modelled from the spec: the History Store kept by the remote authority,
    of which the repository holds only the client side.  In the words of
    section 4.5, [appendAtHead(entry)] shifts all existing indices up by
    one and inserts at index 0. *)
Definition appendAtHead {A : Type} (entry : A) (history : list A) : list A :=
  entry :: history.

(** *** Sample worlds, for concrete runs *)

Definition script (replies : list NetReply) : nat -> NetReply :=
  fun n => nth n replies NoReply.

Definition token_expired_reply : NetReply :=
  Reply 401 (Some (JObj [("error", JStr "token_expired")])).

Definition refreshed_reply (token : string) : NetReply :=
  Reply 200 (Some (JObj [("access_token", JStr token)])).

(** A remote authority that answers every call of an endpoint with an
    expiry and every refresh with a new token. *)
Definition expiring_forever : nat -> NetReply :=
  fun n => if Nat.even n then token_expired_reply else refreshed_reply "again".

Definition sample_state : AppState :=
  {| accessToken := JStr "tok"; currentSessionId := JNum 7; activeAiConfigId := JNull;
     currentWorldName := JStr "Test"; lastPlayerAction := JNull; aiConfigs := [] |}.

Definition sample_page (panel : StatusPanel) : Page :=
  {| view := "game-view"; globalError := cleared_banner; gameWorldName := JStr "Test";
     gameLog := []; actionInput_value := ""; actionInput_disabled := false;
     retryAiBtn := {| retry_display := "none"; retry_disabled := false; retry_text := "重试" |};
     gameSuggestions := []; statusPanel := panel |}.

Definition sample_world (panel : StatusPanel) (storage : gmap string string)
    (replies : list NetReply) : World :=
  {| state := sample_state; localStorage := storage; page := sample_page panel;
     requests := []; net := script replies; alerts := [] |}.

Definition both_tokens : gmap string string :=
  {[ "access_token" := "tok"; "refresh_token" := "rt" ]}.

Definition access_token_only : gmap string string := {[ "access_token" := "tok" ]}.

Definition sessions_reply : NetReply := Reply 200 (Some (JArr [])).

(** One round of expiry and refresh, then the answer. *)
Definition one_round_world (panel : StatusPanel) : World :=
  sample_world panel both_tokens
    [token_expired_reply; refreshed_reply "n1"; sessions_reply].

(** Two rounds of expiry and refresh, then the answer. *)
Definition two_rounds_world (panel : StatusPanel) : World :=
  sample_world panel both_tokens
    [token_expired_reply; refreshed_reply "n1";
     token_expired_reply; refreshed_reply "n2"; sessions_reply].

(** An expired token and no refresh token in the storage. *)
Definition no_refresh_world (panel : StatusPanel) : World :=
  sample_world panel access_token_only [token_expired_reply].

(** The refresh endpoint answers with a new token. *)
Definition refresh_world (panel : StatusPanel) : World :=
  sample_world panel both_tokens [refreshed_reply "n1"].

(** A 401 for another reason than expiry. *)
Definition rejected_world (panel : StatusPanel) : World :=
  sample_world panel both_tokens [Reply 401 (Some (JObj [("error", JStr "invalid_token")]))].

(** The narrator answers, whatever is asked. *)
Definition answering_world (panel : StatusPanel) : World :=
  sample_world panel both_tokens
    [Reply 200 (Some (JObj [("description", JStr "A"); ("suggested_choices", JArr [])]))].

(** The same, with white space typed in the input box. *)
Definition blank_input_world (panel : StatusPanel) : World :=
  with_page (set_actionInput_value "   ") (answering_world panel).

(** The narrator fails on the first turn. *)
Definition failing_world (panel : StatusPanel) : World :=
  sample_world panel both_tokens
    [Reply 500 (Some (JObj [("error", JStr "narrator unavailable")]))].

Definition after_failed_turn (panel : StatusPanel) : World :=
  final_world (handleActionSubmit 1 false (JStr "look around") (failing_world panel)).

(** A choice with an empty action command, its button on the page, and
    text in the input box. *)
Definition wait_choice : JsVal :=
  JObj [("display_text", JStr "等待"); ("action_command", JStr "")].

Definition empty_command_world (panel : StatusPanel) : World :=
  with_page (set_actionInput_value "  go north ")
    (with_page (set_gameSuggestions [suggestion_button wait_choice])
       (answering_world panel)).

(** A choice whose display text is empty, with a command and without. *)
Definition unlabelled_choice : JsVal :=
  JObj [("display_text", JStr ""); ("action_command", JStr "wait")].

Definition blank_choice : JsVal :=
  JObj [("display_text", JStr ""); ("action_command", JStr "")].

Definition blank_choice_world (panel : StatusPanel) : World :=
  with_page (set_actionInput_value "  go north ")
    (with_page (set_gameSuggestions [suggestion_button blank_choice])
       (answering_world panel)).

(** The token has expired and the refresh endpoint refuses the refresh
    token. *)
Definition refresh_refused_world (panel : StatusPanel) : World :=
  sample_world panel both_tokens
    [token_expired_reply; Reply 401 (Some (JObj [("error", JStr "invalid refresh token")]))].


(** A choice whose action command is JSON null. *)
Definition null_command_choice : JsVal :=
  JObj [("display_text", JStr "攻击"); ("action_command", JNull)].

(** The two choices of the specification's example. *)
Definition example_choices : list JsVal :=
  [JStr "look around";
   JObj [("display_text", JStr "攻击"); ("details", JArr [JStr "力量+2"])]].


(** Two turns that succeed, with the narrator's prose "A" and then "B",
    and the edit of the first of the two: its edit button, new text in the
    edit box, its save button. *)
Definition two_turns_world (panel : StatusPanel) : World :=
  sample_world panel both_tokens
    [Reply 200 (Some (JObj [("description", JStr "A"); ("suggested_choices", JArr [])]));
     Reply 200 (Some (JObj [("description", JStr "B"); ("suggested_choices", JArr [])]));
     Reply 200 (Some (JObj []))].

Definition after_two_turns (panel : StatusPanel) : World :=
  final_world
    ((handleActionSubmit 1 false (JStr "look around");;
      handleActionSubmit 1 false (JStr "go north")) (two_turns_world panel)).

Definition after_edit_of_first (panel : StatusPanel) : World :=
  final_world
    ((edit_click 1;; type_in_editor 1 "A, corrected";; save_click 1 1)
       (after_two_turns panel)).

(** *** Reasoning about runs *)

(** [m] keeps [R]: the world a run of [m] reaches is related to the world
    it starts from. *)
Definition stable {A : Type} (R : relation World) (m : JS A) : Prop :=
  forall w, R w (final_world (m w)).

(** A relation between worlds that the steps of the pipeline respect:
    updates of the page, of the storage, of the alerts and of the three
    session fields of [state].  Whether it admits the issue of a request is
    asked where a request is issued. *)
Class Frame (R : relation World) : Prop := {
  frame_preorder :: PreOrder R;
  frame_page : forall f w, R w (with_page f w);
  frame_storage : forall f w, R w (with_storage f w);
  frame_alert : forall msg w, R w (log_alert msg w);
  frame_accessToken : forall v w, R w (with_state (set_accessToken v) w);
  frame_currentSessionId : forall v w, R w (with_state (set_currentSessionId v) w);
  frame_currentWorldName : forall v w, R w (with_state (set_currentWorldName v) w)
}.

(** *** What a run leaves alone *)

(** [w'] agrees with [w] on the part [part] of the world. *)
Definition same_on {B : Type} (part : World -> B) : relation World :=
  fun w w' => part w' = part w.

(** What the game view, the turn engine and the settings own: the log, the
    input box, the retry button, the suggestion buttons, the side panel, the
    title, the last action, the AI configurations and the alerts shown. *)
Definition game_part (w : World) :=
  (gameLog (page w), actionInput_value (page w), actionInput_disabled (page w),
   retryAiBtn (page w), gameSuggestions (page w), statusPanel (page w),
   gameWorldName (page w), lastPlayerAction (state w), activeAiConfigId (state w),
   aiConfigs (state w), alerts w).

(** Every key of the storage but the two token keys holds in [w'] what it
    holds in [w]. *)
Definition others_kept : relation World :=
  fun w w' =>
    forall k, k <> "access_token" -> k <> "refresh_token" ->
              localStorage w' !! k = localStorage w !! k.

(** A stored setting besides the tokens, and a server that reports the
    expiry; there is no refresh token. *)
Definition configured_world (panel : StatusPanel) : World :=
  sample_world panel
    {[ "active_ai_config_id" := "3"; "access_token" := "tok" ]}
    [token_expired_reply].

(** The endpoint answers with a server error. *)
Definition server_error_world (panel : StatusPanel) : World :=
  sample_world panel both_tokens [Reply 500 (Some (JObj [("error", JStr "boom")]))].

(** The log of [w] holds no placeholder. *)
Definition no_skeleton (w : World) : Prop :=
  existsb is_skeleton (gameLog (page w)) = false.

(** [P] holds after whenever it holds before. *)
Definition keeps (P : World -> Prop) : relation World :=
  fun w w' => P w -> P w'.

(** The text of the input box. *)
Definition input_text (w : World) : string := actionInput_value (page w).

(** The log without its placeholders only grows: what is shown in [w] is
    shown in [w'], in the same order, before anything new. *)
Definition shown_grows : relation World :=
  fun w w' =>
    exists l, remove_skeleton (gameLog (page w')) = remove_skeleton (gameLog (page w)) ++ l.

(** The log of [w'] has the length of the log of [w] and the same node at
    every place but [i]. *)
Definition log_kept_but (i : nat) : relation World :=
  fun w w' =>
    length (gameLog (page w')) = length (gameLog (page w)) /\
    forall j, j <> i -> gameLog (page w') !! j = gameLog (page w) !! j.

(** No reply reaches the page. *)
Definition silent_world (panel : StatusPanel) : World :=
  sample_world panel both_tokens [].

(** The token has expired and the refresh endpoint cannot be reached. *)
Definition refresh_unreachable_world (panel : StatusPanel) : World :=
  sample_world panel both_tokens [token_expired_reply].

(** A saved session of two entries, the newest first, with one choice. *)
Definition saved_session : JsVal :=
  JObj [("session_id", JNum 9); ("world_name", JStr "Other");
        ("current_state",
         JObj [("recent_history",
                JArr [JObj [("role", JStr "assistant"); ("content", JStr "A dark room.")];
                      JObj [("role", JStr "user"); ("content", JStr "look around")]]);
               ("last_ai_response", JObj [("suggested_choices", JArr [JStr "go north"])])])].


(** The user opens the edit box of the entry at place [i], types in it,
    and clicks on cancel. *)
Definition edit_then_cancel (i : nat) (typed : string) : JS unit :=
  edit_click i;; type_in_editor i typed;; cancel_click i.

(** After two turns, the first narrative is open for editing, with new
    text in its edit box. *)
Definition editing_first (panel : StatusPanel) : World :=
  final_world ((edit_click 1;; type_in_editor 1 "A, corrected") (after_two_turns panel)).

Lemma final_world_bind {A B : Type} (m : JS A) (f : A -> JS B) (w : World) :
  final_world ((m ≫= f) w) =
  match m w with
  | Normal a w' => final_world (f a w')
  | Thrown _ w' | OutOfFuel w' => w'
  end.
Proof. unfold mbind, JS_bind. destruct (m w); reflexivity. Qed.

Section Stability.

Context (R : relation World) {HP : PreOrder R}.

Lemma stable_ret {A : Type} (a : A) : stable R (mret a).
Proof. intros w. simpl. reflexivity. Qed.

Lemma stable_throw {A : Type} (e : JsError) : stable R (@throw A e).
Proof. intros w. simpl. reflexivity. Qed.

Lemma stable_get_world : stable R get_world.
Proof. intros w. simpl. reflexivity. Qed.

Lemma stable_out_of_fuel {A : Type} : stable R (fun w => @OutOfFuel A w).
Proof. intros w. simpl. reflexivity. Qed.

Lemma stable_modify (f : World -> World) :
  (forall w, R w (f w)) -> stable R (modify f).
Proof. intros Hf w. simpl. apply Hf. Qed.

Lemma stable_bind {A B : Type} (m : JS A) (f : A -> JS B) :
  stable R m -> (forall a, stable R (f a)) -> stable R (m ≫= f).
Proof.
  intros Hm Hf w. rewrite final_world_bind.
  specialize (Hm w). destruct (m w) as [a w'|e w'|w']; simpl in Hm; try exact Hm.
  etransitivity; [exact Hm | apply Hf].
Qed.

Lemma stable_try_catch {A : Type} (body : JS A) (handler : JsError -> JS A) :
  stable R body -> (forall e, stable R (handler e)) -> stable R (try_catch body handler).
Proof.
  intros Hb Hh w. unfold try_catch.
  specialize (Hb w). destruct (body w) as [a w'|e w'|w']; simpl in *; try exact Hb.
  etransitivity; [exact Hb | apply Hh].
Qed.

Lemma stable_try_finally_with {A : Type} (body : JS A) (fin : option A -> JS unit) :
  stable R body -> (forall r, stable R (fin r)) -> stable R (try_finally_with body fin).
Proof.
  intros Hb Hf w. unfold try_finally_with.
  specialize (Hb w). destruct (body w) as [a w'|e w'|w']; simpl in *; try exact Hb.
  - etransitivity; [exact Hb |].
    apply (stable_bind (fin (Some a)) (fun _ => mret a)); [apply Hf | intros; apply stable_ret].
  - etransitivity; [exact Hb |].
    apply (stable_bind (fin None) (fun _ => throw e)); [apply Hf | intros; apply stable_throw].
Qed.

Lemma stable_for_each {A : Type} (f : A -> JS unit) (xs : list A) :
  (forall x, stable R (f x)) -> stable R (for_each f xs).
Proof.
  intros Hf. induction xs as [|x xs IH]; simpl.
  - apply stable_ret.
  - apply stable_bind; [apply Hf | intros; exact IH].
Qed.

Lemma stable_for_each_from {A : Type} (f : nat -> A -> JS unit) (i : nat) (xs : list A) :
  (forall j x, stable R (f j x)) -> stable R (for_each_from f i xs).
Proof.
  intros Hf. revert i. induction xs as [|x xs IH]; intros i; simpl.
  - apply stable_ret.
  - apply stable_bind; [apply Hf | intros; apply IH].
Qed.

Lemma stable_prop (v : JsVal) (k : string) : stable R (prop v k).
Proof. destruct v; simpl; first [apply stable_throw | apply stable_ret]. Qed.

Lemma stable_json (r : Response) : stable R (json r).
Proof. unfold json. destruct (payload_of r); [apply stable_ret | apply stable_throw]. Qed.

Lemma stable_fetch (r : Request) :
  (forall w, R w (log_request r w)) -> stable R (fetch r).
Proof.
  intros Hr w. unfold fetch.
  destruct (net w (length (requests w))); simpl; apply Hr.
Qed.

Lemma stable_getItem (k : string) : stable R (getItem k).
Proof. intros w. simpl. reflexivity. Qed.

End Stability.

Section FrameStability.

Context (R : relation World) {HF : Frame R}.

Lemma stable_setItem (k : string) (v : JsVal) : stable R (setItem k v).
Proof. apply stable_modify. intros w. apply frame_storage. Qed.

Lemma stable_removeItem (k : string) : stable R (removeItem k).
Proof. apply stable_modify. intros w. apply frame_storage. Qed.

Lemma stable_alert (msg : string) : stable R (alert msg).
Proof. apply stable_modify. intros w. apply frame_alert. Qed.

Lemma stable_page (f : Page -> Page) : stable R (modify (with_page f)).
Proof. apply stable_modify. intros w. apply frame_page. Qed.

End FrameStability.

(** One step of a stability proof, by the shape of the code. *)
Ltac stable_step :=
  lazymatch goal with
  | |- stable _ (mret _) => apply stable_ret
  | |- stable _ (throw _) => apply stable_throw
  | |- stable _ get_world => apply stable_get_world
  | |- stable _ (_ ≫= _) => apply stable_bind; try exact _; [| intros ?]
  | |- stable _ (try_catch _ _) => apply stable_try_catch; try exact _; [| intros ?]
  | |- stable _ (try_finally_with _ _) =>
      apply stable_try_finally_with; try exact _; [| intros ?]
  | |- stable _ (for_each _ _) => apply stable_for_each; try exact _; intros ?
  | |- stable _ (for_each_from _ _ _) => apply stable_for_each_from; try exact _; intros ? ?
  | |- stable _ (prop _ _) => apply stable_prop
  | |- stable _ (json _) => apply stable_json
  | |- stable _ (getItem _) => apply stable_getItem
  | |- stable _ (setItem _ _) => apply stable_setItem
  | |- stable _ (removeItem _) => apply stable_removeItem
  | |- stable _ (alert _) => apply stable_alert
  | |- stable _ (modify (with_page _)) => apply stable_page
  | |- stable _ (modify (with_state (set_accessToken _))) =>
      apply stable_modify; try exact _; intros ?; apply frame_accessToken
  | |- stable _ (modify (with_state (set_currentSessionId _))) =>
      apply stable_modify; try exact _; intros ?; apply frame_currentSessionId
  | |- stable _ (modify (with_state (set_currentWorldName _))) =>
      apply stable_modify; try exact _; intros ?; apply frame_currentWorldName
  | |- stable _ (fetch _) => apply stable_fetch; try exact _; intros ?
  | |- stable _ (if ?b then _ else _) => destruct b
  | |- stable _ (match ?x with _ => _ end) => destruct x
  end; try exact _.

Ltac stable_tac := repeat (cbv beta zeta; stable_step).

Section ClientStability.

Context (R : relation World) {HF : Frame R}.

Lemma stable_showView (viewId : string) : stable R (showView viewId).
Proof. unfold showView. stable_tac. Qed.

Lemma stable_handleApiError (message : string) (cb : option Callback) (feedback : bool) :
  stable R (handleApiError message cb feedback).
Proof. unfold handleApiError. stable_tac. Qed.

Lemma stable_handleLogout : stable R handleLogout.
Proof. unfold handleLogout. stable_tac. apply stable_showView; exact _. Qed.

Lemma stable_refreshToken :
  (forall token w, R w (log_request (refresh_request token) w)) -> stable R refreshToken.
Proof. intros Hreq. unfold refreshToken. stable_tac. apply Hreq. Qed.

Lemma stable_fetchWithAuth (fuel : nat) (endpoint : string) (options : Options) :
  (forall token w, R w (log_request (refresh_request token) w)) ->
  (forall w0 w, R w (log_request (pipeline_request endpoint options w0) w)) ->
  stable R (fetchWithAuth fuel endpoint options).
Proof.
  intros Href Hreq. induction fuel as [|fuel IH]; simpl.
  - apply stable_out_of_fuel; exact _.
  - stable_tac;
      first [ apply Hreq | apply stable_refreshToken; solve [exact _ | exact Href] | exact IH
            | apply stable_handleLogout; exact _ | apply stable_handleApiError; exact _ ].
Qed.

Lemma stable_appendLog (text type historyIndex : JsVal) :
  stable R (appendLog text type historyIndex).
Proof. unfold appendLog. stable_tac. Qed.

Lemma stable_renderPlayerStatus (currentState : JsVal) :
  stable R (renderPlayerStatus currentState).
Proof.
  intros w. unfold renderPlayerStatus.
  destruct (snd (render_status currentState (statusPanel (page w)))); simpl;
    apply frame_page.
Qed.

Lemma stable_renderGameSuggestions (choices : JsVal) :
  stable R (renderGameSuggestions choices).
Proof. unfold renderGameSuggestions. stable_tac. Qed.

Lemma stable_renderGameTurn (data : JsVal) : stable R (renderGameTurn data).
Proof.
  unfold renderGameTurn. stable_tac;
    first [apply stable_appendLog | apply stable_renderPlayerStatus
          | apply stable_renderGameSuggestions]; exact _.
Qed.

End ClientStability.

(** *** Two frames *)

Lemma issues_refl (P : Request -> Prop) (w w' : World) :
  requests w' = requests w -> issues P w w'.
Proof. intros H. exists []. rewrite H, app_nil_r. split; [reflexivity | constructor]. Qed.

Lemma issues_request (P : Request -> Prop) (r : Request) (w : World) :
  P r -> issues P w (log_request r w).
Proof. intros H. exists [r]. split; [reflexivity | repeat constructor; exact H]. Qed.

#[local] Instance issues_frame (P : Request -> Prop) : Frame (issues P).
Proof.
  split; try (intros; apply issues_refl; reflexivity).
  split.
  - intros w. apply issues_refl. reflexivity.
  - intros w1 w2 w3 [l1 [H1 F1]] [l2 [H2 F2]]. exists (l1 ++ l2).
    rewrite H2, H1, app_assoc. split; [reflexivity | apply Forall_app; split; assumption].
Qed.

#[local] Instance keeps_last_frame : Frame keeps_last.
Proof.
  split; try (intros; reflexivity).
  split.
  - intros w. reflexivity.
  - intros w1 w2 w3 H1 H2. unfold keeps_last in *. congruence.
Qed.

Lemma keeps_last_request (r : Request) (w : World) : keeps_last w (log_request r w).
Proof. reflexivity. Qed.

(** *** What holds after a run

    A property of the world reached, kept by every further step that
    respects [R], still holds after the code that follows. *)

Lemma after_bind {A B : Type} (R : relation World) (Q : World -> Prop)
    (m : JS A) (f : A -> JS B) (w : World) :
  upward R Q -> Q (final_world (m w)) -> (forall a, stable R (f a)) ->
  Q (final_world ((m ≫= f) w)).
Proof.
  intros Hup Hm Hf. rewrite final_world_bind.
  destruct (m w) as [a w'|e w'|w']; simpl in Hm; try exact Hm.
  eapply Hup; [exact Hm | apply Hf].
Qed.

Lemma after_try_catch {A : Type} (R : relation World) (Q : World -> Prop)
    (body : JS A) (handler : JsError -> JS A) (w : World) :
  upward R Q -> Q (final_world (body w)) -> (forall e, stable R (handler e)) ->
  Q (final_world (try_catch body handler w)).
Proof.
  intros Hup Hm Hh. unfold try_catch.
  destruct (body w) as [a w'|e w'|w']; simpl in Hm; try exact Hm.
  eapply Hup; [exact Hm | apply Hh].
Qed.

Lemma after_try_finally_with {A : Type} (R : relation World) {HP : PreOrder R}
    (Q : World -> Prop) (body : JS A) (fin : option A -> JS unit) (w : World) :
  upward R Q -> Q (final_world (body w)) -> (forall r, stable R (fin r)) ->
  Q (final_world (try_finally_with body fin w)).
Proof.
  intros Hup Hm Hf. unfold try_finally_with.
  destruct (body w) as [a w'|e w'|w']; simpl in Hm; try exact Hm.
  - eapply Hup; [exact Hm |].
    apply (stable_bind R (fin (Some a)) (fun _ => mret a));
      [apply Hf | intros; apply stable_ret; exact _].
  - eapply Hup; [exact Hm |].
    apply (stable_bind R (fin None) (fun _ => throw e));
      [apply Hf | intros; apply stable_throw; exact _].
Qed.

Lemma upward_issues (P : Request -> Prop) (w : World) : upward (issues P) (issues P w).
Proof. intros w1 w2 H1 H2. etransitivity; eassumption. Qed.

Section TurnStability.

Context (R : relation World) {HF : Frame R}.

Lemma stable_set_suggestions_disabled (flag : bool) :
  stable R (set_suggestions_disabled flag).
Proof. unfold set_suggestions_disabled. stable_tac. Qed.

Lemma stable_submit_turn (fuel : nat) (action : JsVal) (text : string) :
  (forall token w, R w (log_request (refresh_request token) w)) ->
  (forall endpoint w0 w,
     R w (log_request (pipeline_request endpoint (action_options action) w0) w)) ->
  stable R (submit_turn fuel action text).
Proof.
  intros Href Hreq. unfold submit_turn. stable_tac;
    first [ apply stable_fetchWithAuth; solve [exact _ | exact Href | apply Hreq]
          | apply stable_renderGameTurn; exact _
          | apply stable_appendLog; exact _
          | apply stable_set_suggestions_disabled ].
Qed.

End TurnStability.

(** ** Session start-up *)


(** ** The refresh protocol *)



(** ** The request pipeline *)

(** The three ways a first reply is handled. *)
Lemma fetchWithAuth_pass (fuel : nat) (endpoint : string) (options : Options) (w : World)
    (st : Z) (payload : option JsVal) :
  net w (length (requests w)) = Reply st payload -> st <> 401 ->
  fetchWithAuth (S fuel) endpoint options w =
    Normal (Some {| status := st; payload_of := payload |})
           (log_request (pipeline_request endpoint options w) w).
Proof.
  intros Hnet Hst. simpl. unfold mbind, JS_bind, get_world, fetch. rewrite Hnet.
  cbn [status]. destruct (Z.eqb_spec st 401); [contradiction | reflexivity].
Qed.

Lemma fetchWithAuth_rejected (fuel : nat) (endpoint : string) (options : Options)
    (w : World) (responseData : JsVal) :
  net w (length (requests w)) = Reply 401 (Some responseData) ->
  token_expired responseData = false ->
  fetchWithAuth (S fuel) endpoint options w =
    Normal None (with_page (set_globalError login_expired_banner)
                           (log_request (pipeline_request endpoint options w) w)).
Proof.
  intros Hnet Hexp. simpl. unfold mbind, JS_bind, get_world, fetch. rewrite Hnet.
  cbn [status Z.eqb Pos.eqb json payload_of mret JS_ret]. rewrite Hexp. reflexivity.
Qed.

Lemma fetchWithAuth_expired (fuel : nat) (endpoint : string) (options : Options)
    (w : World) (responseData : JsVal) :
  net w (length (requests w)) = Reply 401 (Some responseData) ->
  token_expired responseData = true ->
  fetchWithAuth (S fuel) endpoint options w =
    (refreshSuccessful ← refreshToken;
     if refreshSuccessful : bool then fetchWithAuth fuel endpoint options
     else handleLogout;; mret None)
      (log_request (pipeline_request endpoint options w) w).
Proof.
  intros Hnet Hexp. simpl. unfold get_world, fetch.
  unfold mbind at 1 2, JS_bind at 1 2. rewrite Hnet.
  cbn [status Z.eqb Pos.eqb json payload_of mret JS_ret].
  unfold mbind at 1, JS_bind at 1. cbn [mret JS_ret]. rewrite Hexp. reflexivity.
Qed.

(** A refresh that throws has written nothing. *)
Lemma refreshToken_thrown_keeps (w w2 : World) (err : JsError) :
  refreshToken w = Thrown err w2 ->
  state w2 = state w /\ localStorage w2 = localStorage w /\ page w2 = page w.
Proof.
  unfold refreshToken, getItem, fetch, setItem.
  unfold mbind, JS_bind, get_world, mret, JS_ret, modify. cbv zeta.
  destruct (truthy match localStorage w !! "refresh_token" with
                   | Some s => JStr s
                   | None => JNull
                   end); cbn [negb]; cbv beta iota; [| discriminate].
  destruct (net w (length (requests w))) as [|st [data|]]; cbn [json payload_of].
  - intros H. injection H as _ <-. repeat split.
  - destruct (ok {| status := st; payload_of := Some data |});
      destruct data; cbn [prop]; unfold throw, mret, JS_ret; try discriminate;
      intros H; injection H as _ <-; repeat split.
  - unfold throw. intros H. injection H as _ <-. repeat split.
Qed.

(** C2, as the code has it.  When a call is answered 401 with
    [token_expired]:
    - if the refresh that follows returns failure, the caller gets [null],
      the access token in [state] is null, both token keys are gone from
      the storage, and the page shows the login view;
    - if the refresh that follows fails by throwing (no reply, a body that
      cannot be read), the pipeline has no handler for it: the call throws
      the same error, the caller gets no value, and [state], the storage
      with its two tokens and the page are as they were before the call. *)
Theorem fetchWithAuth_refresh_failure (fuel : nat) (endpoint : string) (options : Options)
    (w : World) (responseData : JsVal) :
  net w (length (requests w)) = Reply 401 (Some responseData) ->
  token_expired responseData = true ->
  (forall w2,
     refreshToken (log_request (pipeline_request endpoint options w) w) = Normal false w2 ->
     exists w3,
       fetchWithAuth (S fuel) endpoint options w = Normal None w3 /\
       accessToken (state w3) = JNull /\
       localStorage w3 !! "access_token" = None /\
       localStorage w3 !! "refresh_token" = None /\
       view (page w3) = "auth-view") /\
  (forall err w2,
     refreshToken (log_request (pipeline_request endpoint options w) w) = Thrown err w2 ->
     fetchWithAuth (S fuel) endpoint options w = Thrown err w2 /\
     state w2 = state w /\
     localStorage w2 = localStorage w /\
     page w2 = page w).
Proof.
  intros Hnet Hexp. split.
  - intros w2 Hrefresh.
    rewrite (fetchWithAuth_expired _ _ _ _ _ Hnet Hexp).
    unfold mbind at 1, JS_bind at 1. rewrite Hrefresh.
    eexists. split; [reflexivity |]. simpl. repeat split.
    + rewrite lookup_delete_ne by discriminate. apply lookup_delete_eq.
    + apply lookup_delete_eq.
  - intros err w2 Hrefresh.
    rewrite (fetchWithAuth_expired _ _ _ _ _ Hnet Hexp).
    unfold mbind at 1, JS_bind at 1. rewrite Hrefresh. split; [reflexivity |].
    exact (refreshToken_thrown_keeps _ _ _ Hrefresh).
Qed.

Lemma refreshToken_success (w : World) (token : string) (st : Z) (data : JsVal) :
  localStorage w !! "refresh_token" = Some token -> token <> "" ->
  net w (length (requests w)) = Reply st (Some data) ->
  ok {| status := st; payload_of := Some data |} = true ->
  nullish data = false ->
  refreshToken w =
    Normal true
      (with_state (set_accessToken (field data "access_token"))
         (with_storage (insert "access_token" (js_to_string (field data "access_token")))
            (log_request (refresh_request (JStr token)) w))).
Proof.
  intros Htok Hne Hnet Hok Hdata.
  assert (Htruthy : truthy (JStr token) = true).
  { simpl. destruct (String.eqb_spec token ""); [contradiction | reflexivity]. }
  unfold refreshToken, getItem, fetch.
  unfold mbind, JS_bind, get_world, mret, JS_ret. rewrite Htok.
  cbv zeta. rewrite Htruthy. cbn [negb]. cbv beta iota. rewrite Hnet. cbn [json payload_of].
  rewrite Hok. destruct data; try discriminate Hdata; reflexivity.
Qed.

Lemma from_pipeline_request (endpoint : string) (options : Options) (w : World) :
  from_pipeline (pipeline_request endpoint options w) = true.
Proof.
  unfold from_pipeline, pipeline_request, auth_headers. cbn [headers].
  apply bool_decide_eq_true.
  assert (H : is_Some ((o_headers options ∪
             ({[ "Content-Type" := "application/json"; "credentials" := "include" ]}
                : gmap string string)) !! "credentials")).
  { apply lookup_union_is_Some. right.
    rewrite lookup_insert_ne by discriminate. rewrite lookup_singleton_eq. eauto. }
  destruct (truthy (accessToken (state w))); [| exact H].
  rewrite lookup_insert_ne by discriminate. exact H.
Qed.

Lemma from_pipeline_refresh (token : JsVal) : from_pipeline (refresh_request token) = false.
Proof.
  unfold from_pipeline, refresh_request. cbn [headers].
  apply bool_decide_eq_false. rewrite lookup_singleton_ne by discriminate.
  intros [x Hx]. discriminate Hx.
Qed.

Lemma is_refresh_call_request (endpoint : string) (options : Options) (w : World) :
  is_refresh_call (pipeline_request endpoint options w) = false.
Proof.
  unfold is_refresh_call. rewrite from_pipeline_request. apply andb_false_r.
Qed.

Lemma is_refresh_call_refresh (token : JsVal) : is_refresh_call (refresh_request token) = true.
Proof. unfold is_refresh_call. rewrite from_pipeline_refresh. reflexivity. Qed.

Lemma count_round (endpoint : string) (options : Options) (w : World) (token : JsVal)
    (l : list Request) :
  count_refresh (pipeline_request endpoint options w :: refresh_request token :: l)
    = S (count_refresh l) /\
  count_pipeline (pipeline_request endpoint options w :: refresh_request token :: l)
    = S (count_pipeline l).
Proof.
  unfold count_refresh, count_pipeline. cbn [List.filter].
  rewrite is_refresh_call_request, is_refresh_call_refresh,
    from_pipeline_request, from_pipeline_refresh.
  split; reflexivity.
Qed.

Lemma same_call_request (endpoint : string) (options : Options) (w : World) :
  same_call endpoint options (pipeline_request endpoint options w).
Proof.
  split; [reflexivity |]. split; [reflexivity |]. split; [reflexivity |].
  apply from_pipeline_request.
Qed.

(** C1, as the code has it.  The replay after a successful refresh is a
    full call of the pipeline, so every reply 401 with [token_expired] that
    is followed by a successful refresh costs one refresh call and one
    replay: [k] such rounds and then a reply that is not a 401 give that
    last reply to the caller after exactly [k] refresh calls and [k + 1]
    calls of the endpoint ([k] of them replays).  The calls issued are, in
    order, [k] times the call and the refresh call, and then the call once
    more; every replay is the original call: the same address, method and
    body.  With [k = 1] this is the single transparent retry; nothing
    bounds [k]. *)
Theorem fetchWithAuth_replays_after_each_refresh (k fuel : nat) (endpoint : string)
    (options : Options) (w : World) (token : string) (st : Z) (payload : option JsVal) :
  localStorage w !! "refresh_token" = Some token -> token <> "" ->
  expired_rounds (net w) (length (requests w)) k = true ->
  net w (length (requests w) + 2 * k)%nat = Reply st payload -> st <> 401 ->
  (k < fuel)%nat ->
  exists w' l,
    fetchWithAuth fuel endpoint options w =
      Normal (Some {| status := st; payload_of := payload |}) w' /\
    requests w' = requests w ++ l /\
    count_refresh l = k /\
    count_pipeline l = S k /\
    replay_rounds endpoint options (refresh_request (JStr token)) k l.
Proof.
  revert fuel w. induction k as [|k IH]; intros fuel w Htok Hne Hrounds Hlast Hst Hfuel.
  - destruct fuel as [|fuel]; [lia |].
    rewrite Nat.add_0_r in Hlast.
    exists (log_request (pipeline_request endpoint options w) w),
           [pipeline_request endpoint options w].
    split; [apply fetchWithAuth_pass; assumption |].
    split; [reflexivity |].
    unfold count_refresh, count_pipeline. cbn [List.filter].
    rewrite is_refresh_call_request, from_pipeline_request.
    split; [reflexivity |]. split; [reflexivity |].
    eexists. split; [reflexivity | apply same_call_request].
  - destruct fuel as [|fuel]; [lia |].
    cbn [expired_rounds] in Hrounds.
    destruct (net w (length (requests w))) as [|st1 [responseData|]] eqn:Hnet1;
      try discriminate Hrounds.
    destruct (net w (S (length (requests w)))) as [|st2 [data|]] eqn:Hnet2;
      try discriminate Hrounds.
    repeat (apply andb_prop in Hrounds; destruct Hrounds as [Hrounds ?]).
    apply Z.eqb_eq in Hrounds. subst st1.
    match goal with H : negb (nullish data) = true |- _ => apply negb_true_iff in H end.
    set (w1 := log_request (pipeline_request endpoint options w) w).
    assert (Hlen1 : length (requests w1) = S (length (requests w))).
    { unfold w1. cbn [requests log_request]. rewrite length_app. simpl. lia. }
    rewrite (fetchWithAuth_expired _ _ _ _ _ Hnet1) by assumption. fold w1.
    unfold mbind at 1, JS_bind at 1.
    assert (Hnet2' : net w1 (length (requests w1)) = Reply st2 (Some data)).
    { rewrite Hlen1. exact Hnet2. }
    rewrite (refreshToken_success w1 token st2 data) by assumption.
    set (w2 := with_state _ _).
    assert (Hreq2 : requests w2 =
              requests w ++ [pipeline_request endpoint options w; refresh_request (JStr token)]).
    { unfold w2, w1. cbn [requests with_state with_storage log_request].
      rewrite <- app_assoc. reflexivity. }
    assert (Hlen2 : length (requests w2) = S (S (length (requests w)))).
    { rewrite Hreq2, length_app. simpl. lia. }
    destruct (IH fuel w2) as (w' & l & Hrun & Hreq & Hcr & Hcp & Hshape).
    + unfold w2, w1. cbn [localStorage with_state with_storage log_request].
      rewrite lookup_insert_ne by discriminate. exact Htok.
    + exact Hne.
    + rewrite Hlen2. exact H.
    + rewrite Hlen2. rewrite <- Hlast. unfold w2, w1. cbn [net with_state with_storage log_request].
      f_equal. lia.
    + exact Hst.
    + lia.
    + exists w', (pipeline_request endpoint options w :: refresh_request (JStr token) :: l).
      split; [exact Hrun |].
      split; [rewrite Hreq, Hreq2, <- app_assoc; reflexivity |].
      destruct (count_round endpoint options w (JStr token) l) as [Hr Hp].
      rewrite Hr, Hp, Hcr, Hcp. split; [reflexivity |]. split; [reflexivity |].
      cbn [replay_rounds]. eexists. eexists.
      split; [reflexivity |]. split; [apply same_call_request | exact Hshape].
Qed.

(** Against a remote authority that keeps answering with an expiry and a
    successful refresh, the pipeline never settles: whatever number of
    invocations it is given, it uses them all, with one refresh call for
    each. *)
Lemma fetchWithAuth_never_settles (fuel : nat) (endpoint : string) (options : Options)
    (w : World) (token : string) :
  localStorage w !! "refresh_token" = Some token -> token <> "" ->
  net w = expiring_forever ->
  Nat.even (length (requests w)) = true ->
  exists w' l,
    fetchWithAuth fuel endpoint options w = OutOfFuel w' /\
    requests w' = requests w ++ l /\
    count_refresh l = fuel /\
    count_pipeline l = fuel.
Proof.
  revert w. induction fuel as [|fuel IH]; intros w Htok Hne Hnet Heven.
  - exists w, []. split; [reflexivity |]. split; [rewrite app_nil_r; reflexivity |].
    split; reflexivity.
  - set (w1 := log_request (pipeline_request endpoint options w) w).
    assert (Hlen1 : length (requests w1) = S (length (requests w))).
    { unfold w1. cbn [requests log_request]. rewrite length_app. simpl. lia. }
    assert (Hnet1 : net w (length (requests w)) = token_expired_reply).
    { rewrite Hnet. unfold expiring_forever. rewrite Heven. reflexivity. }
    assert (Hnet2 : net w1 (length (requests w1)) = refreshed_reply "again").
    { rewrite Hlen1. unfold w1. cbn [net log_request]. rewrite Hnet. unfold expiring_forever.
      rewrite Nat.even_succ, <- Nat.negb_even, Heven. reflexivity. }
    rewrite (fetchWithAuth_expired _ _ _ _ _ Hnet1) by reflexivity. fold w1.
    unfold mbind at 1, JS_bind at 1.
    rewrite (refreshToken_success w1 token 200 (JObj [("access_token", JStr "again")]))
      by (assumption || reflexivity).
    set (w2 := with_state _ _).
    assert (Hreq2 : requests w2 =
              requests w ++ [pipeline_request endpoint options w; refresh_request (JStr token)]).
    { unfold w2, w1. cbn [requests with_state with_storage log_request].
      rewrite <- app_assoc. reflexivity. }
    destruct (IH w2) as (w' & l & Hrun & Hreq & Hcr & Hcp).
    + unfold w2, w1. cbn [localStorage with_state with_storage log_request].
      rewrite lookup_insert_ne by discriminate. exact Htok.
    + exact Hne.
    + exact Hnet.
    + rewrite Hreq2, length_app. cbn [length]. rewrite Nat.add_comm. cbn [Nat.add].
      rewrite Nat.even_succ_succ. exact Heven.
    + exists w', (pipeline_request endpoint options w :: refresh_request (JStr token) :: l).
      split; [exact Hrun |].
      split; [rewrite Hreq, Hreq2, <- app_assoc; reflexivity |].
      destruct (count_round endpoint options w (JStr token) l) as [Hr Hp].
      rewrite Hr, Hp, Hcr, Hcp. split; reflexivity.
Qed.

(** C4, the part the code has.  A 401 whose body is not [token_expired]
    puts up the banner with a retry button and gives [null] to the caller;
    [handleLogout] is only handed to the banner as the callback of that
    button, so [state], the storage and the displayed view are as before. *)
Lemma fetchWithAuth_rejected_defers_logout (fuel : nat) (endpoint : string)
    (options : Options) (w : World) (responseData : JsVal) :
  net w (length (requests w)) = Reply 401 (Some responseData) ->
  token_expired responseData = false ->
  exists w',
    fetchWithAuth (S fuel) endpoint options w = Normal None w' /\
    globalError (page w') = login_expired_banner /\
    state w' = state w /\
    localStorage w' = localStorage w /\
    view (page w') = view (page w).
Proof.
  intros Hnet Hexp. eexists. split; [eapply fetchWithAuth_rejected; eassumption |].
  repeat split.
Qed.

(** ** The turn engine *)

Lemma handleActionSubmit_run (fuel : nat) (e : bool) (actionText : JsVal) (w : World) :
  truthy (chosen_action actionText w) = true ->
  handleActionSubmit fuel e actionText w =
    (submit_turn fuel (chosen_action actionText w) (retry_text (retryAiBtn (page w)));;
     mret tt) (submitting actionText w).
Proof.
  intros Haction. unfold handleActionSubmit, submitting.
  unfold mbind at 1, JS_bind at 1, get_world at 1. cbv zeta. rewrite Haction. cbn [negb].
  destruct (truthy actionText); reflexivity.
Qed.

Lemma handleActionSubmit_no_action (fuel : nat) (e : bool) (actionText : JsVal)
    (w : World) :
  truthy (chosen_action actionText w) = false ->
  handleActionSubmit fuel e actionText w = Normal tt w.
Proof.
  intros Haction. unfold handleActionSubmit.
  unfold mbind at 1, JS_bind at 1, get_world at 1. cbv zeta. rewrite Haction. reflexivity.
Qed.

Lemma chosen_action_blank (actionText : JsVal) (w : World) :
  truthy actionText = false ->
  trim (actionInput_value (page w)) = "" ->
  truthy (chosen_action actionText w) = false.
Proof.
  intros Htext Hbox. unfold chosen_action, js_or. rewrite Htext, Hbox. reflexivity.
Qed.

(** C5, as the code has it.  When the action text passed is absent or
    empty and the input box is empty or holds white space only, so that
    [actionText || actionInput.value.trim()] is empty, [handleActionSubmit]
    returns at once: the world, with its requests and its log, is
    unchanged. *)
Theorem handleActionSubmit_rejects_empty (fuel : nat) (e : bool) (actionText : JsVal)
    (w : World) :
  truthy actionText = false ->
  trim (actionInput_value (page w)) = "" ->
  handleActionSubmit fuel e actionText w = Normal tt w /\
  requests (final_world (handleActionSubmit fuel e actionText w)) = requests w /\
  gameLog (page (final_world (handleActionSubmit fuel e actionText w))) = gameLog (page w).
Proof.
  intros Htext Hbox.
  rewrite (handleActionSubmit_no_action fuel e actionText w
             (chosen_action_blank actionText w Htext Hbox)).
  repeat split.
Qed.

Lemma fetchWithAuth_first_request (fuel : nat) (endpoint : string) (options : Options)
    (w : World) :
  issues (fun _ => True) (log_request (pipeline_request endpoint options w) w)
         (final_world (fetchWithAuth (S fuel) endpoint options w)).
Proof.
  cbn [fetchWithAuth]. rewrite final_world_bind. cbn [get_world].
  rewrite final_world_bind. unfold fetch at 1.
  destruct (net w (length (requests w))) as [|st payload].
  - reflexivity.
  - match goal with
    | |- issues ?P ?w1 (final_world (?k ?w1)) =>
        cut (stable (issues P) k); [intros Hk; apply Hk |]
    end.
    stable_tac;
      first [ apply stable_refreshToken; [exact _ | intros; apply issues_request; exact I]
            | apply stable_fetchWithAuth;
              [exact _ | intros; apply issues_request; exact I
                       | intros; apply issues_request; exact I]
            | apply stable_handleLogout; exact _
            | apply stable_handleApiError; exact _ ].
Qed.

Lemma submit_turn_first_request (fuel : nat) (action : JsVal) (text : string) (w : World) :
  issues (fun _ => True)
         (log_request (pipeline_request (action_endpoint w) (action_options action) w) w)
         (final_world (submit_turn (S fuel) action text w)).
Proof.
  unfold submit_turn.
  apply (after_try_finally_with (issues (fun _ => True))); [apply upward_issues | |].
  - apply (after_try_catch (issues (fun _ => True))); [apply upward_issues | |].
    + rewrite final_world_bind. cbn [get_world].
      apply (after_bind (issues (fun _ => True))); [apply upward_issues | |].
      * apply fetchWithAuth_first_request.
      * intros response. stable_tac;
          first [ apply stable_renderGameTurn; exact _ | apply stable_appendLog; exact _ ].
    + intros e. stable_tac. apply stable_appendLog; exact _.
  - intros r. stable_tac. apply stable_set_suggestions_disabled; exact _.
Qed.


Lemma handleActionSubmit_first_request (fuel : nat) (e : bool) (actionText : JsVal)
    (w : World) :
  truthy (chosen_action actionText w) = true ->
  exists r rest,
    requests (final_world (handleActionSubmit (S fuel) e actionText w)) =
      requests w ++ r :: rest /\
    url r = API_URL +:+ action_endpoint w /\
    method r = Some "POST" /\
    sends_action (chosen_action actionText w) r.
Proof.
  intros Haction. rewrite handleActionSubmit_run by exact Haction.
  set (a := chosen_action actionText w).
  set (wp := submitting actionText w).
  assert (H : issues (fun _ => True)
            (log_request (pipeline_request (action_endpoint wp) (action_options a) wp) wp)
            (final_world ((submit_turn (S fuel) a (retry_text (retryAiBtn (page w)));;
                           mret tt) wp))).
  { apply (after_bind (issues (fun _ => True))); [apply upward_issues | |].
    - apply submit_turn_first_request.
    - intros ?. apply stable_ret; exact _. }
  destruct H as [l [Hl _]].
  exists (pipeline_request (action_endpoint wp) (action_options a) wp), l.
  split; [| split; [| split]].
  - rewrite Hl. cbn [requests log_request]. rewrite <- app_assoc.
    unfold wp, submitting. cbv zeta. destruct (negb (truthy actionText)); reflexivity.
  - cbn [url pipeline_request]. unfold wp, submitting, action_endpoint. cbv zeta.
    destruct (negb (truthy actionText)); reflexivity.
  - reflexivity.
  - reflexivity.
Qed.


Lemma handleActionSubmit_issues (P : Request -> Prop) (fuel : nat) (e : bool)
    (actionText : JsVal) (w : World) :
  (forall token, P (refresh_request token)) ->
  (forall endpoint w0,
     P (pipeline_request endpoint (action_options (chosen_action actionText w)) w0)) ->
  issues P w (final_world (handleActionSubmit fuel e actionText w)).
Proof.
  intros Href Hreq.
  destruct (truthy (chosen_action actionText w)) eqn:Haction.
  - rewrite handleActionSubmit_run by exact Haction.
    assert (Hstable : stable (issues P)
              (submit_turn fuel (chosen_action actionText w)
                 (retry_text (retryAiBtn (page w)));; mret tt)).
    { stable_tac. apply stable_submit_turn; [exact _ | |]; intros; apply issues_request; auto. }
    transitivity (submitting actionText w); [| apply Hstable].
    apply issues_refl. unfold submitting. cbv zeta.
    destruct (negb (truthy actionText)); reflexivity.
  - unfold handleActionSubmit. unfold mbind at 1, JS_bind at 1, get_world at 1.
    cbv zeta. rewrite Haction. apply issues_refl. reflexivity.
Qed.

(** C9, as the code has it.  A choice is structured for the code when its
    display text is truthy.  Such a choice whose [action_command] is the
    empty string gives a button that submits the empty string.  A click on
    it does what a submission of the form does: the action is the trimmed
    text of the input box; with an empty box nothing happens at all,
    otherwise the first call posts that trimmed text.  No call of the run
    carries the empty action. *)
Theorem empty_action_command_falls_back (fuel : nat) (i : nat) (choice : JsVal) (w : World) :
  is_object choice = true ->
  truthy (field choice "display_text") = true ->
  field choice "action_command" = JStr "" ->
  gameSuggestions (page w) !! i = Some (suggestion_button choice) ->
  btn_submit (suggestion_button choice) = JStr "" /\
  suggestion_click fuel i w = handleActionSubmit fuel true JUndefined w /\
  (trim (actionInput_value (page w)) = "" -> suggestion_click fuel i w = Normal tt w) /\
  (trim (actionInput_value (page w)) <> "" ->
   exists r rest,
     requests (final_world (suggestion_click (S fuel) i w)) = requests w ++ r :: rest /\
     url r = API_URL +:+ action_endpoint w /\
     sends_action (JStr (trim (actionInput_value (page w)))) r) /\
  issues (fun r => ~ sends_action (JStr "") r) w (final_world (suggestion_click fuel i w)).
Proof.
  intros Hobj Htext Hcmd Hbtn.
  assert (Hsubmit : btn_submit (suggestion_button choice) = JStr "").
  { unfold suggestion_button. rewrite Hobj, Htext, Hcmd. reflexivity. }
  assert (Henabled : btn_disabled (suggestion_button choice) = false).
  { unfold suggestion_button. destruct (is_object choice && truthy (field choice "display_text"));
      reflexivity. }
  assert (Hclick : forall n, suggestion_click n i w = handleActionSubmit n false (JStr "") w).
  { intros n. unfold suggestion_click. unfold mbind at 1, JS_bind at 1, get_world at 1.
    rewrite Hbtn, Henabled, Hsubmit. reflexivity. }
  split; [exact Hsubmit |].
  split; [rewrite Hclick; reflexivity |].
  split; [| split].
  - intros Hbox. rewrite Hclick. apply handleActionSubmit_no_action.
    apply chosen_action_blank; [reflexivity | exact Hbox].
  - intros Hbox. rewrite Hclick.
    assert (Haction : truthy (chosen_action (JStr "") w) = true).
    { unfold chosen_action, js_or. cbn [truthy String.eqb negb].
      destruct (String.eqb_spec (trim (actionInput_value (page w))) ""); [contradiction | reflexivity]. }
    destruct (handleActionSubmit_first_request fuel false (JStr "") w Haction)
      as (r & rest & Hreq & Hurl & _ & Hbody).
    exists r, rest. split; [exact Hreq |]. split; [exact Hurl | exact Hbody].
  - rewrite Hclick.
    destruct (String.eqb_spec (trim (actionInput_value (page w))) "") as [Hbox|Hbox].
    + rewrite handleActionSubmit_no_action
        by (apply chosen_action_blank; [reflexivity | exact Hbox]).
      apply issues_refl. reflexivity.
    + apply handleActionSubmit_issues.
      * intros token Hsend. discriminate Hsend.
      * intros endpoint w0 Hsend. unfold sends_action in Hsend.
        cbn [body pipeline_request action_options o_body] in Hsend.
        unfold chosen_action, js_or in Hsend. cbn [truthy String.eqb negb] in Hsend.
        apply Hbox. congruence.
Qed.

(** ** Suggestions *)

Lemma lookup_field_absent (k : string) (fields : list (string * JsVal)) :
  existsb (fun binding => String.eqb (fst binding) k) fields = false ->
  lookup_field k fields = JUndefined.
Proof.
  induction fields as [|[k' v] fields IH]; [reflexivity |].
  cbn [existsb lookup_field fst]. intros H. apply orb_false_elim in H. destruct H as [Hk Hrest].
  rewrite Hk. apply IH, Hrest.
Qed.

(** Without the field there is no display text; a truthy display text is
    that of an object that has the field. *)
Lemma display_text_absent (choice : JsVal) :
  has_field choice "display_text" = false -> field choice "display_text" = JUndefined.
Proof.
  destruct choice; try reflexivity. cbn [has_field field]. apply lookup_field_absent.
Qed.

Lemma display_text_present (choice : JsVal) :
  truthy (field choice "display_text") = true ->
  has_field choice "display_text" = true /\ is_object choice = true.
Proof.
  intros Htext. destruct (has_field choice "display_text") eqn:Hhas.
  - destruct choice; try discriminate Hhas. split; reflexivity.
  - rewrite (display_text_absent choice Hhas) in Htext. discriminate Htext.
Qed.

(** What the button of a choice shows and submits: the code's rule. *)
Lemma suggestion_button_structured (choice : JsVal) :
  truthy (field choice "display_text") = true ->
  normalized (suggestion_button choice) =
    {| displayText := field choice "display_text";
       actionCommand := if is_undefined (field choice "action_command")
                        then field choice "display_text"
                        else field choice "action_command";
       details := match field choice "details" with
                  | JArr d => Some d
                  | _ => None
                  end |}.
Proof.
  intros Htext. destruct (display_text_present choice Htext) as [_ Hobj].
  unfold suggestion_button, normalized. rewrite Hobj, Htext. cbn [andb].
  cbn [btn_text btn_submit btn_details].
  destruct (is_undefined (field choice "action_command")); reflexivity.
Qed.

Lemma suggestion_button_raw (choice : JsVal) :
  truthy (field choice "display_text") = false ->
  normalized (suggestion_button choice) =
    {| displayText := choice; actionCommand := choice; details := None |}.
Proof.
  intros Htext. unfold suggestion_button, normalized. rewrite Htext, andb_false_r. reflexivity.
Qed.

(** The button of a choice is the normal form of the specification exactly
    when the choice has no display-text field, or has a truthy one and an
    [action_command] that is not JSON null. *)
Lemma suggestion_button_agrees (choice : JsVal) :
  normalized (suggestion_button choice) = spec_normalize choice <->
  normalizes_as_specified choice.
Proof.
  unfold normalizes_as_specified, spec_normalize.
  destruct (has_field choice "display_text") eqn:Hhas.
  - destruct (truthy (field choice "display_text")) eqn:Htext.
    + rewrite (suggestion_button_structured choice Htext). split.
      * intros Heq. right. split; [reflexivity |]. intros Hnull.
        rewrite Hnull in Heq. cbn [is_undefined nullish_or] in Heq.
        injection Heq as Heq. rewrite <- Heq in Htext. discriminate Htext.
      * intros [Hno | [_ Hnull]]; [discriminate Hno |].
        destruct (field choice "action_command"); try reflexivity. contradiction.
    + rewrite (suggestion_button_raw choice Htext). split.
      * intros Heq. injection Heq as Heq _ _. rewrite <- Heq in Htext.
        destruct choice; discriminate.
      * intros [Hno | [Hyes _]]; discriminate.
  - rewrite suggestion_button_raw
      by (rewrite (display_text_absent choice Hhas); reflexivity).
    split; [intros _; left; reflexivity | reflexivity].
Qed.

Lemma lookup_map {A B : Type} (f : A -> B) (l : list A) (i : nat) (x : A) :
  l !! i = Some x -> map f l !! i = Some (f x).
Proof.
  revert i. induction l as [|y l IH]; intros i Hi; [discriminate Hi |].
  destruct i as [|i]; [injection Hi as ->; reflexivity | exact (IH i Hi)].
Qed.

Lemma for_each_buttons (choices : list JsVal) (w : World) :
  exists w',
    for_each (fun choice =>
      modify (with_page (fun d =>
        set_gameSuggestions (gameSuggestions d ++ [suggestion_button choice]) d))) choices w
      = Normal tt w' /\
    gameSuggestions (page w') = gameSuggestions (page w) ++ map suggestion_button choices.
Proof.
  revert w. induction choices as [|choice choices IH]; intros w.
  - exists w. split; [reflexivity |]. cbn [map]. rewrite app_nil_r. reflexivity.
  - cbn [for_each]. unfold mbind at 1, JS_bind at 1, modify at 1.
    destruct (IH (with_page (fun d =>
                set_gameSuggestions (gameSuggestions d ++ [suggestion_button choice]) d) w))
      as (w' & Hrun & Hbtns).
    exists w'. split; [exact Hrun |]. rewrite Hbtns. cbn [page with_page gameSuggestions
      set_gameSuggestions map]. rewrite <- app_assoc. reflexivity.
Qed.

(** C7, as the code has it.  [renderGameSuggestions] replaces the buttons
    by one button per choice, in order.  A choice whose display text is
    truthy is structured: its button shows the display text and submits the
    [action_command] when the choice has that field, the display text when
    it has not, with the details when they are an array.  Any other choice,
    one with an empty display text included, is shown and submitted as it
    is.  The button is the normal form of the specification,
    [{displayText, actionCommand ?? displayText, details}] for an object
    with a display-text field and the raw value otherwise, exactly for the
    choices without a display-text field and for those with a truthy one
    whose [action_command] is not JSON null. *)
Theorem renderGameSuggestions_normalizes (choices : list JsVal) (w : World) :
  exists w',
    renderGameSuggestions (JArr choices) w = Normal tt w' /\
    length (gameSuggestions (page w')) = length choices /\
    forall i choice,
      choices !! i = Some choice ->
      exists b,
        gameSuggestions (page w') !! i = Some b /\
        (normalized b = spec_normalize choice <-> normalizes_as_specified choice) /\
        (truthy (field choice "display_text") = true ->
         normalized b =
           {| displayText := field choice "display_text";
              actionCommand := if is_undefined (field choice "action_command")
                               then field choice "display_text"
                               else field choice "action_command";
              details := match field choice "details" with
                         | JArr d => Some d
                         | _ => None
                         end |}) /\
        (truthy (field choice "display_text") = false ->
         normalized b = {| displayText := choice; actionCommand := choice; details := None |}).
Proof.
  assert (Hrun : exists w',
            renderGameSuggestions (JArr choices) w = Normal tt w' /\
            gameSuggestions (page w') = map suggestion_button choices).
  { unfold renderGameSuggestions.
    unfold mbind at 1, JS_bind at 1, modify at 1.
    set (w0 := with_page (set_gameSuggestions []) w).
    destruct choices as [|choice choices].
    - exists w0. split; reflexivity.
    - assert (Hpos : truthy (JArr (choice :: choices)) &&
                     length_positive (JArr (choice :: choices)) = true).
      { cbn [truthy length_positive field String.eqb Ascii.eqb Bool.eqb andb js_gt_zero length].
        apply Z.ltb_lt. lia. }
      rewrite Hpos.
      destruct (for_each_buttons (choice :: choices) w0) as (w' & Hrun & Hbtns).
      exists w'. split; [exact Hrun |]. rewrite Hbtns. reflexivity. }
  destruct Hrun as (w' & Hrun & Hbtns).
  exists w'. split; [exact Hrun |]. rewrite Hbtns.
  split; [apply length_map |].
  intros i choice Hi. exists (suggestion_button choice).
  split; [apply lookup_map, Hi |].
  split; [apply suggestion_button_agrees |].
  split; [apply suggestion_button_structured | apply suggestion_button_raw].
Qed.

(** ** The history log *)

Lemma appendAtHead_shifts {A : Type} (entry : A) (history : list A) (i : nat) :
  appendAtHead entry history !! S i = history !! i /\
  appendAtHead entry history !! 0%nat = Some entry.
Proof. split; reflexivity. Qed.

#[local] Instance log_grows_preorder : PreOrder log_grows.
Proof.
  split.
  - intros w. exists []. rewrite app_nil_r. reflexivity.
  - intros w1 w2 w3 [l1 H1] [l2 H2]. exists (l1 ++ l2). rewrite H2, H1, app_assoc. reflexivity.
Qed.

Lemma log_grows_same (w w' : World) : gameLog (page w') = gameLog (page w) -> log_grows w w'.
Proof. intros H. exists []. rewrite H, app_nil_r. reflexivity. Qed.

Lemma log_grows_appendLog (text type historyIndex : JsVal) :
  stable log_grows (appendLog text type historyIndex).
Proof. intros w. unfold appendLog. cbv zeta. eexists. reflexivity. Qed.

Lemma log_grows_renderPlayerStatus (currentState : JsVal) :
  stable log_grows (renderPlayerStatus currentState).
Proof.
  intros w. unfold renderPlayerStatus. cbv zeta.
  destruct (snd (render_status currentState (statusPanel (page w))));
    apply log_grows_same; reflexivity.
Qed.

Lemma log_grows_renderGameSuggestions (choices : JsVal) :
  stable log_grows (renderGameSuggestions choices).
Proof.
  unfold renderGameSuggestions.
  apply stable_bind; [exact _ | |].
  - apply stable_modify. intros w. apply log_grows_same. reflexivity.
  - intros _. destruct (truthy choices && length_positive choices);
      [| apply stable_ret; exact _].
    destruct choices; try (apply stable_throw; exact _).
    apply stable_for_each; [exact _ |]. intros choice.
    apply stable_modify. intros w. apply log_grows_same. reflexivity.
Qed.

(** [renderGameTurn] appends the narrator's prose with index 0 and leaves
    the nodes already in the log, with the indices they close over, as they
    are. *)
Lemma renderGameTurn_index_zero (data : JsVal) (w : World) :
  nullish data = false ->
  truthy (field data "description") = true ->
  exists rest,
    gameLog (page (final_world (renderGameTurn data w))) =
      gameLog (page w) ++
      Narrative (field data "description") (field data "description") (JNum 0) false :: rest.
Proof.
  intros Hdata Hdesc. unfold renderGameTurn.
  assert (Hprop : prop data "description" = mret (field data "description")).
  { destruct data; try discriminate Hdata; reflexivity. }
  rewrite Hprop. unfold mbind at 1, JS_bind at 1, mret at 1, JS_ret at 1. rewrite Hdesc.
  set (node := Narrative _ _ _ _).
  apply (after_bind log_grows
           (fun w' => exists rest, gameLog (page w') = gameLog (page w) ++ node :: rest)).
  - intros w1 w2 [rest H1] [l H2]. exists (rest ++ l). rewrite H2, H1, <- app_assoc. reflexivity.
  - exists []. reflexivity.
  - intros _. apply stable_bind; [exact _ | |].
    + destruct (truthy (field data "player_message"));
        [apply log_grows_appendLog | apply stable_ret; exact _].
    + intros _. apply stable_bind; [exact _ | |].
      * destruct (truthy (field data "current_state"));
          [apply log_grows_renderPlayerStatus | apply stable_ret; exact _].
      * intros _. apply log_grows_renderGameSuggestions.
Qed.

(** An entry that [startGame] restores from the history with the role
    ['assistant'] is appended with that role as its type, so it is a plain
    entry: it has no edit button and never submits the index computed for
    it. *)
Lemma restore_entry_assistant (len displayIndex : nat) (entry : JsVal) (w : World) :
  nullish entry = false ->
  strict_eq_str (field entry "role") "assistant" = true ->
  exists w',
    restore_entry len displayIndex entry w = Normal tt w' /\
    gameLog (page w') = gameLog (page w) ++ [Entry (JStr "assistant") (field entry "content")] /\
    submitted_index (Entry (JStr "assistant") (field entry "content")) = None.
Proof.
  intros Hentry Hrole. unfold restore_entry. cbv zeta.
  assert (Hprop : prop entry "role" = mret (field entry "role")).
  { destruct entry; try discriminate Hentry; reflexivity. }
  rewrite Hprop. unfold mbind at 1, JS_bind at 1, mret at 1, JS_ret at 1.
  destruct (field entry "role") as [| | | |role| |]; try discriminate Hrole.
  cbn [strict_eq_str] in Hrole. apply String.eqb_eq in Hrole. subst role.
  eexists. split; [reflexivity |]. split; reflexivity.
Qed.

(** [appendLog] adds one node at the end and touches no other node: the
    index an entry closes over is never recomputed. *)
Lemma appendLog_keeps_nodes (text type historyIndex : JsVal) (w : World) :
  exists node w',
    appendLog text type historyIndex w = Normal tt w' /\
    gameLog (page w') = gameLog (page w) ++ [node] /\
    (strict_eq_str type "ai" = true ->
     submitted_index node = Some (if is_undefined historyIndex then JNull else historyIndex)).
Proof.
  unfold appendLog. cbv zeta. eexists. eexists. split; [reflexivity |].
  split; [reflexivity |]. intros Hai. rewrite Hai. reflexivity.
Qed.

(** ** Further properties of the client *)

#[local] Instance same_on_preorder {B : Type} (part : World -> B) : PreOrder (same_on part).
Proof.
  split.
  - intros w. reflexivity.
  - intros w1 w2 w3 H1 H2. unfold same_on in *. congruence.
Qed.

#[local] Instance others_kept_preorder : PreOrder others_kept.
Proof.
  split.
  - intros w k _ _. reflexivity.
  - intros w1 w2 w3 H1 H2 k Ha Hr. rewrite (H2 k Ha Hr). apply H1; assumption.
Qed.

Lemma keeps_renderPlayerStatus (R : relation World) {HP : PreOrder R} (currentState : JsVal) :
  (forall p w, R w (with_page (set_statusPanel p) w)) ->
  stable R (renderPlayerStatus currentState).
Proof.
  intros Hpanel w. unfold renderPlayerStatus. cbv zeta.
  destruct (snd (render_status currentState (statusPanel (page w)))); apply Hpanel.
Qed.

(** One step of a proof that code keeps a relation; [fin] closes the goal
    left by an update of the world. *)
Ltac keeps_step fin :=
  lazymatch goal with
  | |- stable _ (mret _) => apply stable_ret
  | |- stable _ (throw _) => apply stable_throw
  | |- stable _ get_world => apply stable_get_world
  | |- stable _ (_ ≫= _) => apply stable_bind; try exact _; [| intros ?]
  | |- stable _ (try_catch _ _) => apply stable_try_catch; try exact _; [| intros ?]
  | |- stable _ (try_finally_with _ _) =>
      apply stable_try_finally_with; try exact _; [| intros ?]
  | |- stable _ (for_each _ _) => apply stable_for_each; try exact _; intros ?
  | |- stable _ (for_each_from _ _ _) => apply stable_for_each_from; try exact _; intros ? ?
  | |- stable _ (prop _ _) => apply stable_prop
  | |- stable _ (json _) => apply stable_json
  | |- stable _ (getItem _) => apply stable_getItem
  | |- stable _ (modify _) => apply stable_modify; try exact _; intros ?; fin
  | |- stable _ (fetch _) => apply stable_fetch; try exact _; intros ?; fin
  | |- stable _ (renderPlayerStatus _) =>
      apply keeps_renderPlayerStatus; try exact _; intros ? ?; fin
  | |- stable _ (if ?b then _ else _) => destruct b
  | |- stable _ (match ?x with _ => _ end) => destruct x
  end; try exact _.

Ltac keeps_tac fin := repeat (cbv beta zeta; keeps_step fin).

(** Runs straight-line updates of the world and reads the fields of the
    world reached, leaving the storage operations as they are. *)
Ltac run_world :=
  cbv beta iota zeta delta
    [handleLogout removeItem setItem showView handleApiError modify mbind mret JS_bind JS_ret
     final_world with_state with_storage with_page log_request log_alert
     set_accessToken set_currentSessionId set_currentWorldName set_lastPlayerAction
     set_view set_globalError set_gameWorldName set_gameLog set_actionInput_value
     set_actionInput_disabled set_retryAiBtn set_gameSuggestions set_statusPanel
     state localStorage page requests net alerts
     accessToken currentSessionId activeAiConfigId currentWorldName lastPlayerAction aiConfigs
     view globalError gameWorldName gameLog actionInput_value actionInput_disabled
     retryAiBtn gameSuggestions statusPanel cleared_banner].

Lemma fetchWithAuth_same_game (fuel : nat) (endpoint : string) (options : Options) :
  stable (same_on game_part) (fetchWithAuth fuel endpoint options).
Proof.
  induction fuel as [|fuel IH]; simpl.
  - apply stable_out_of_fuel; exact _.
  - unfold refreshToken, handleLogout, showView, handleApiError, setItem, removeItem.
    keeps_tac ltac:(reflexivity). exact IH.
Qed.

(** X1.  The request pipeline, whatever the server answers and however
    often it refreshes and replays, and also when it forces a logout,
    leaves the game alone: the log, the input box, the retry button, the
    suggestion buttons, the side panel, the title, the last action, the AI
    configurations and the alerts are as before. *)
Theorem fetchWithAuth_leaves_game_alone (fuel : nat) (endpoint : string) (options : Options)
    (w : World) :
  let w' := final_world (fetchWithAuth fuel endpoint options w) in
  gameLog (page w') = gameLog (page w) /\
  actionInput_value (page w') = actionInput_value (page w) /\
  actionInput_disabled (page w') = actionInput_disabled (page w) /\
  retryAiBtn (page w') = retryAiBtn (page w) /\
  gameSuggestions (page w') = gameSuggestions (page w) /\
  statusPanel (page w') = statusPanel (page w) /\
  gameWorldName (page w') = gameWorldName (page w) /\
  lastPlayerAction (state w') = lastPlayerAction (state w) /\
  activeAiConfigId (state w') = activeAiConfigId (state w) /\
  aiConfigs (state w') = aiConfigs (state w) /\
  alerts w' = alerts w.
Proof.
  cbv zeta. pose proof (fetchWithAuth_same_game fuel endpoint options w) as H.
  unfold same_on, game_part in H. injection H as -> -> -> -> -> -> -> -> -> -> ->.
  repeat split.
Qed.

(** X2.  The pipeline writes no key of the storage but the two token
    keys: any other key, such as the stored AI configuration id, holds
    after a run, a forced logout included, what it held before. *)
Theorem fetchWithAuth_keeps_other_keys (fuel : nat) (endpoint : string) (options : Options)
    (w : World) (k : string) :
  k <> "access_token" -> k <> "refresh_token" ->
  localStorage (final_world (fetchWithAuth fuel endpoint options w)) !! k =
    localStorage w !! k.
Proof.
  revert w k.
  change (stable others_kept (fetchWithAuth fuel endpoint options)).
  induction fuel as [|fuel IH]; simpl.
  - apply stable_out_of_fuel; exact _.
  - unfold refreshToken, handleLogout, showView, handleApiError, setItem, removeItem.
    keeps_tac ltac:(intros k Ha Hr; cbn;
                    rewrite ?lookup_insert_ne, ?lookup_delete_ne by congruence;
                    reflexivity).
    exact IH.
Qed.

(** X3.  A refresh is invisible to the caller.  When a call is answered 401
    with [token_expired], the refresh returns a new access token and the
    replay is answered with anything but a 401, the caller gets the reply
    to the replay.  The replay is the same call (address, method, body)
    carrying the new token as its bearer token; the new token is in
    [state] and in the storage, and the refresh token is the one it was. *)
Theorem fetchWithAuth_transparent_refresh (fuel : nat) (endpoint : string)
    (options : Options) (w : World) (token newToken : string)
    (responseData data : JsVal) (st2 st3 : Z) (payload : option JsVal) :
  localStorage w !! "refresh_token" = Some token -> token <> "" ->
  net w (length (requests w)) = Reply 401 (Some responseData) ->
  token_expired responseData = true ->
  net w (S (length (requests w))) = Reply st2 (Some data) ->
  ok {| status := st2; payload_of := Some data |} = true ->
  field data "access_token" = JStr newToken -> newToken <> "" ->
  net w (S (S (length (requests w)))) = Reply st3 payload -> st3 <> 401 ->
  exists w' replay,
    fetchWithAuth (S (S fuel)) endpoint options w =
      Normal (Some {| status := st3; payload_of := payload |}) w' /\
    requests w' =
      requests w ++ [pipeline_request endpoint options w; refresh_request (JStr token); replay] /\
    url replay = API_URL +:+ endpoint /\
    method replay = o_method options /\
    body replay = o_body options /\
    headers replay !! "Authorization" = Some ("Bearer " +:+ newToken) /\
    accessToken (state w') = JStr newToken /\
    localStorage w' !! "access_token" = Some newToken /\
    localStorage w' !! "refresh_token" = Some token.
Proof.
  intros Htok Hne Hnet1 Hexp Hnet2 Hok Hfield Hnew Hnet3 Hst.
  assert (Hdata : nullish data = false).
  { destruct data; try reflexivity; discriminate Hfield. }
  set (w1 := log_request (pipeline_request endpoint options w) w).
  assert (Hlen1 : length (requests w1) = S (length (requests w))).
  { unfold w1. cbn [requests log_request]. rewrite length_app. simpl. lia. }
  assert (Hnet2' : net w1 (length (requests w1)) = Reply st2 (Some data)).
  { rewrite Hlen1. exact Hnet2. }
  rewrite (fetchWithAuth_expired _ _ _ _ _ Hnet1 Hexp). fold w1.
  unfold mbind at 1, JS_bind at 1.
  rewrite (refreshToken_success w1 token st2 data) by assumption.
  rewrite Hfield. cbn [js_to_string].
  set (w2 := with_state _ _).
  assert (Hlen2 : length (requests w2) = S (S (length (requests w)))).
  { unfold w2, w1. cbn [requests with_state with_storage log_request].
    rewrite !length_app. simpl. lia. }
  assert (Hnet3' : net w2 (length (requests w2)) = Reply st3 payload).
  { rewrite Hlen2. exact Hnet3. }
  rewrite (fetchWithAuth_pass fuel endpoint options w2 st3 payload Hnet3' Hst).
  exists (log_request (pipeline_request endpoint options w2) w2),
         (pipeline_request endpoint options w2).
  split; [reflexivity |].
  split.
  { unfold w2, w1. cbn [requests with_state with_storage log_request].
    rewrite <- !app_assoc. reflexivity. }
  split; [reflexivity |]. split; [reflexivity |]. split; [reflexivity |].
  split.
  { unfold pipeline_request, auth_headers, w2. cbn [headers state with_state accessToken
      set_accessToken truthy].
    destruct (String.eqb_spec newToken ""); [contradiction |]. cbn [negb js_to_string].
    apply lookup_insert_eq. }
  split; [reflexivity |].
  split.
  { unfold w2, w1. cbn [localStorage log_request with_state with_storage].
    apply lookup_insert_eq. }
  unfold w2, w1. cbn [localStorage log_request with_state with_storage].
  rewrite lookup_insert_ne by discriminate. exact Htok.
Qed.

(** X4.  Only a 401 makes the pipeline act on the session.  When the
    reply has any other status (a 403 or a 500 as well as a 200) the caller
    gets that reply as it is, and when no reply comes the call throws; in
    both cases one request has been issued and [state], the storage and
    the page are untouched: no logout, no banner. *)
Theorem fetchWithAuth_only_401_touches_session (fuel : nat) (endpoint : string)
    (options : Options) (w : World) :
  match net w (length (requests w)) with
  | Reply st _ => st <> 401
  | NoReply => True
  end ->
  fetchWithAuth (S fuel) endpoint options w =
    match net w (length (requests w)) with
    | Reply st payload =>
        Normal (Some {| status := st; payload_of := payload |})
               (log_request (pipeline_request endpoint options w) w)
    | NoReply => Thrown NetworkError (log_request (pipeline_request endpoint options w) w)
    end /\
  state (final_world (fetchWithAuth (S fuel) endpoint options w)) = state w /\
  localStorage (final_world (fetchWithAuth (S fuel) endpoint options w)) = localStorage w /\
  page (final_world (fetchWithAuth (S fuel) endpoint options w)) = page w /\
  requests (final_world (fetchWithAuth (S fuel) endpoint options w)) =
    requests w ++ [pipeline_request endpoint options w].
Proof.
  intros Hreply.
  assert (Hrun : fetchWithAuth (S fuel) endpoint options w =
    match net w (length (requests w)) with
    | Reply st payload =>
        Normal (Some {| status := st; payload_of := payload |})
               (log_request (pipeline_request endpoint options w) w)
    | NoReply => Thrown NetworkError (log_request (pipeline_request endpoint options w) w)
    end).
  { destruct (net w (length (requests w))) as [|st payload] eqn:Hnet.
    - cbn [fetchWithAuth]. unfold mbind, JS_bind, get_world, fetch. rewrite Hnet. reflexivity.
    - apply fetchWithAuth_pass; assumption. }
  rewrite Hrun. split; [reflexivity |].
  destruct (net w (length (requests w))); repeat split.
Qed.

(** X5.  The refresh protocol never rotates or drops the refresh token:
    whatever the reply, the only key of the storage a run of
    [refreshToken] can change is [access_token]. *)
Theorem refreshToken_keeps_refresh_token (w : World) (k : string) :
  k <> "access_token" ->
  localStorage (final_world (refreshToken w)) !! k = localStorage w !! k.
Proof.
  intros Hk. revert w.
  change (stable (same_on (fun w => localStorage w !! k)) refreshToken).
  unfold refreshToken, setItem.
  keeps_tac ltac:(unfold same_on; cbn;
                  rewrite ?lookup_insert_ne by congruence; reflexivity).
Qed.

(** X6.  [handleLogout] is idempotent, and what it clears is the session
    only: the access token, the session id and the world name are null, the
    two token keys are gone, the login view is displayed and the banner is
    empty; the last action, the AI configurations, the game log, the
    suggestion buttons and the requests issued stay as they are. *)
Theorem handleLogout_idempotent (w : World) :
  exists w1,
    handleLogout w = Normal tt w1 /\
    handleLogout w1 = Normal tt w1 /\
    accessToken (state w1) = JNull /\
    currentSessionId (state w1) = JNull /\
    currentWorldName (state w1) = JNull /\
    localStorage w1 !! "access_token" = None /\
    localStorage w1 !! "refresh_token" = None /\
    view (page w1) = "auth-view" /\
    globalError (page w1) = cleared_banner /\
    lastPlayerAction (state w1) = lastPlayerAction (state w) /\
    aiConfigs (state w1) = aiConfigs (state w) /\
    gameLog (page w1) = gameLog (page w) /\
    gameSuggestions (page w1) = gameSuggestions (page w) /\
    requests w1 = requests w.
Proof.
  exists (final_world (handleLogout w)).
  split; [reflexivity |]. split.
  - run_world. f_equal. f_equal.
    rewrite (delete_delete _ "access_token" "refresh_token").
    rewrite !delete_delete_eq. reflexivity.
  - run_world. repeat split.
    + rewrite lookup_delete_ne by discriminate. apply lookup_delete_eq.
    + apply lookup_delete_eq.
Qed.

(** X7.  The bearer token of a pipeline call is the access token of
    [state] at the time of the call.  With a token the [Authorization]
    header is [Bearer <token>], whatever header of that name the caller
    passed; without one the pipeline adds none.  Any other header the
    caller passes is sent as passed, the content type included, and a call
    without a content type of its own is sent as JSON. *)
Theorem pipeline_request_headers (endpoint : string) (options : Options) (w : World) :
  (truthy (accessToken (state w)) = true ->
   headers (pipeline_request endpoint options w) !! "Authorization" =
     Some ("Bearer " +:+ js_to_string (accessToken (state w)))) /\
  (truthy (accessToken (state w)) = false ->
   headers (pipeline_request endpoint options w) !! "Authorization" =
     o_headers options !! "Authorization") /\
  (forall k v, k <> "Authorization" -> o_headers options !! k = Some v ->
   headers (pipeline_request endpoint options w) !! k = Some v) /\
  (o_headers options !! "Content-Type" = None ->
   headers (pipeline_request endpoint options w) !! "Content-Type" =
     Some "application/json").
Proof.
  unfold pipeline_request, auth_headers. cbn [headers].
  split; [| split; [| split]].
  - intros Htok. rewrite Htok. apply lookup_insert_eq.
  - intros Htok. rewrite Htok.
    destruct (o_headers options !! "Authorization") as [v|] eqn:Hopt.
    + apply lookup_union_Some_l. exact Hopt.
    + apply lookup_union_None. split; [exact Hopt |].
      rewrite lookup_insert_ne by discriminate. apply lookup_singleton_ne. discriminate.
  - intros k v Hk Hopt.
    assert (H : (o_headers options ∪
                ({[ "Content-Type" := "application/json"; "credentials" := "include" ]}
                   : gmap string string)) !! k = Some v).
    { apply lookup_union_Some_l. exact Hopt. }
    destruct (truthy (accessToken (state w))); [| exact H].
    rewrite lookup_insert_ne by congruence. exact H.
  - intros Hnone.
    assert (H : (o_headers options ∪
                ({[ "Content-Type" := "application/json"; "credentials" := "include" ]}
                   : gmap string string)) !! "Content-Type" = Some "application/json").
    { rewrite lookup_union_r by exact Hnone. apply lookup_insert_eq. }
    destruct (truthy (accessToken (state w))); [| exact H].
    rewrite lookup_insert_ne by discriminate. exact H.
Qed.

(** X8.  The logout that a 401 without [token_expired] calls for happens
    when the button of the banner is clicked: after the call and the click
    the access token is null, the two token keys are gone, the login view
    is displayed and the banner is empty. *)
Theorem rejected_then_banner_click_logs_out (fuel : nat) (endpoint : string)
    (options : Options) (w : World) (responseData : JsVal) :
  net w (length (requests w)) = Reply 401 (Some responseData) ->
  token_expired responseData = false ->
  exists w1 w2,
    fetchWithAuth (S fuel) endpoint options w = Normal None w1 /\
    banner_retry (globalError (page w1)) = Some CbHandleLogout /\
    banner_retry_click w1 = Normal tt w2 /\
    accessToken (state w2) = JNull /\
    localStorage w2 !! "access_token" = None /\
    localStorage w2 !! "refresh_token" = None /\
    view (page w2) = "auth-view" /\
    globalError (page w2) = cleared_banner.
Proof.
  intros Hnet Hexp.
  rewrite (fetchWithAuth_rejected _ _ _ _ _ Hnet Hexp).
  eexists. eexists. split; [reflexivity |]. split; [reflexivity |].
  split; [reflexivity |]. run_world. repeat split.
  - rewrite lookup_delete_ne by discriminate. apply lookup_delete_eq.
  - apply lookup_delete_eq.
Qed.

#[local] Instance keeps_preorder (P : World -> Prop) : PreOrder (keeps P).
Proof.
  split.
  - intros w H. exact H.
  - intros w1 w2 w3 H1 H2 H. apply H2, H1, H.
Qed.

Lemma remove_skeleton_clean (l : list LogNode) :
  existsb is_skeleton (remove_skeleton l) = false.
Proof.
  induction l as [|n l IH]; [reflexivity |].
  unfold remove_skeleton in *. cbn [List.filter].
  destruct (is_skeleton n) eqn:Hn; cbn [negb]; [exact IH |].
  cbn [existsb]. rewrite Hn, IH. reflexivity.
Qed.

Lemma remove_skeleton_id (l : list LogNode) :
  existsb is_skeleton l = false -> remove_skeleton l = l.
Proof.
  induction l as [|n l IH]; [reflexivity |].
  cbn [existsb]. intros H. apply orb_false_elim in H. destruct H as [Hn Hl].
  unfold remove_skeleton in *. cbn [List.filter]. rewrite Hn. cbn [negb].
  rewrite (IH Hl). reflexivity.
Qed.

Lemma appendLog_keeps_no_skeleton (text type historyIndex : JsVal) :
  stable (keeps no_skeleton) (appendLog text type historyIndex).
Proof.
  intros w H. unfold appendLog, no_skeleton in *. cbv zeta.
  cbn [final_world modify page with_page gameLog set_gameLog].
  rewrite existsb_app, H. destruct (strict_eq_str type "ai"); reflexivity.
Qed.

Lemma appendLog_same_input (text type historyIndex : JsVal) :
  stable (same_on input_text) (appendLog text type historyIndex).
Proof. intros w. reflexivity. Qed.

Lemma fetchWithAuth_same_input (fuel : nat) (endpoint : string) (options : Options) :
  stable (same_on input_text) (fetchWithAuth fuel endpoint options).
Proof.
  intros w. pose proof (fetchWithAuth_same_game fuel endpoint options w) as H.
  unfold same_on, game_part, input_text in *. congruence.
Qed.

Lemma renderGameTurn_keeps_no_skeleton (data : JsVal) :
  stable (keeps no_skeleton) (renderGameTurn data).
Proof.
  unfold renderGameTurn, renderGameSuggestions.
  keeps_tac ltac:(intros H; exact H); apply appendLog_keeps_no_skeleton.
Qed.

Lemma renderGameTurn_same_input (data : JsVal) :
  stable (same_on input_text) (renderGameTurn data).
Proof.
  unfold renderGameTurn, renderGameSuggestions.
  keeps_tac ltac:(reflexivity); apply appendLog_same_input.
Qed.

(** The [try] statement of a turn keeps the text of the input box. *)
Lemma submit_turn_same_input (fuel : nat) (action : JsVal) (text : string) :
  stable (same_on input_text) (submit_turn fuel action text).
Proof.
  unfold submit_turn, set_suggestions_disabled.
  keeps_tac ltac:(reflexivity);
    first [ apply fetchWithAuth_same_input | apply renderGameTurn_same_input
          | apply appendLog_same_input ].
Qed.

(** When the [try] statement of a turn has come to its end, the controls
    are back and the placeholder is gone. *)
Lemma submit_turn_settles (fuel : nat) (action : JsVal) (text : string) (w w1 : World)
    (b : bool) :
  submit_turn fuel action text w = Normal b w1 ->
  actionInput_disabled (page w1) = false /\
  retryAiBtn (page w1) =
    {| retry_display := "inline-block"; retry_disabled := false; retry_text := text |} /\
  no_skeleton w1.
Proof.
  unfold submit_turn, try_finally_with.
  match goal with
  | |- context [try_catch ?B ?H w] => set (body := B); set (handler := H)
  end.
  assert (Hhandler : forall e w0 b0 w',
            handler e w0 = Normal b0 w' -> no_skeleton w').
  { intros e w0 b0 w'. unfold handler, no_skeleton.
    unfold mbind, JS_bind, get_world, appendLog, modify, mret, JS_ret. cbv zeta.
    destruct (existsb is_skeleton (gameLog (page w0))) eqn:Hsk;
      intros H; injection H as _ <-;
      cbn [page with_page gameLog set_gameLog strict_eq_str String.eqb Ascii.eqb Bool.eqb];
      rewrite existsb_app.
    - rewrite remove_skeleton_clean. reflexivity.
    - rewrite Hsk. reflexivity. }
  assert (Hbody : forall b0 w', body w = Normal b0 w' -> no_skeleton w').
  { intros b0 w'. unfold body.
    unfold mbind at 1, JS_bind at 1, get_world at 1.
    unfold mbind at 1, JS_bind at 1.
    destruct (fetchWithAuth fuel _ _ w) as [response w2|e w2|w2]; try discriminate.
    unfold mbind at 1, JS_bind at 1, modify at 1.
    match goal with
    | |- ?K ?w3 = _ -> _ =>
        assert (Hk : stable (keeps no_skeleton) K);
        [| intros Hrun; specialize (Hk w3); rewrite Hrun in Hk; apply Hk;
           unfold no_skeleton; cbn [page with_page gameLog set_gameLog];
           apply remove_skeleton_clean ]
    end.
    keeps_tac ltac:(intros H; exact H);
      first [ apply renderGameTurn_keeps_no_skeleton | apply appendLog_keeps_no_skeleton ]. }
  destruct (try_catch body handler w) as [b0 w'|e w'|w'] eqn:Htry; try discriminate.
  assert (Hclean : no_skeleton w').
  { unfold try_catch in Htry. destruct (body w) as [b1 w2|e w2|w2] eqn:Hb.
    + injection Htry as -> ->. eapply Hbody. reflexivity.
    + eapply Hhandler. exact Htry.
    + discriminate Htry. }
  unfold mbind, JS_bind, modify, set_suggestions_disabled, mret, JS_ret.
  destruct b0; cbn [default negb]; intros H; injection H as _ <-;
    (split; [reflexivity | split; [reflexivity | exact Hclean]]).
Qed.

(** X9.  Whenever a turn submission has come to its end, whichever way the
    call went (an answer, a server error, a rejected session, no reply, a
    body that cannot be used), the input box is enabled again, the retry
    button is displayed and enabled with the text it had, no placeholder is
    left in the log, and the input box holds what it held, or nothing when
    the action was read from it. *)
Theorem handleActionSubmit_settles (fuel : nat) (e : bool) (actionText : JsVal)
    (w w1 : World) :
  truthy (chosen_action actionText w) = true ->
  handleActionSubmit fuel e actionText w = Normal tt w1 ->
  actionInput_disabled (page w1) = false /\
  retryAiBtn (page w1) =
    {| retry_display := "inline-block"; retry_disabled := false;
       retry_text := retry_text (retryAiBtn (page w)) |} /\
  existsb is_skeleton (gameLog (page w1)) = false /\
  actionInput_value (page w1) =
    (if truthy actionText then actionInput_value (page w) else "").
Proof.
  intros Haction Hrun. rewrite handleActionSubmit_run in Hrun by exact Haction.
  unfold mbind at 1, JS_bind at 1 in Hrun.
  destruct (submit_turn fuel (chosen_action actionText w) (retry_text (retryAiBtn (page w)))
              (submitting actionText w)) as [b w'|e' w'|w'] eqn:Hturn; try discriminate Hrun.
  injection Hrun as <-.
  destruct (submit_turn_settles _ _ _ _ _ _ Hturn) as (Hdis & Hretry & Hclean).
  split; [exact Hdis |]. split; [exact Hretry |]. split; [exact Hclean |].
  pose proof (submit_turn_same_input fuel (chosen_action actionText w)
                (retry_text (retryAiBtn (page w))) (submitting actionText w)) as Hinput.
  rewrite Hturn in Hinput. unfold same_on, input_text in Hinput. cbn [final_world] in Hinput.
  rewrite Hinput. unfold submitting. cbv zeta.
  destruct (truthy actionText); reflexivity.
Qed.

Lemma submit_turn_never_throws (fuel : nat) (action : JsVal) (text : string) (w w' : World)
    (err : JsError) :
  submit_turn fuel action text w <> Thrown err w'.
Proof.
  unfold submit_turn, try_finally_with.
  match goal with
  | |- context [try_catch ?B ?H w] => set (body := B); set (handler := H)
  end.
  unfold try_catch. destruct (body w) as [b w2|e w2|w2].
  - unfold mbind, JS_bind, modify, mret, JS_ret, set_suggestions_disabled.
    destruct b; cbn [default negb]; discriminate.
  - unfold handler, mbind, JS_bind, get_world, appendLog, modify, mret, JS_ret,
      set_suggestions_disabled. cbv zeta.
    destruct (existsb is_skeleton (gameLog (page w2))); cbn [default negb]; discriminate.
  - discriminate.
Qed.

(** X10.  [handleActionSubmit] never rejects.  Whatever the server does (no
    reply, a body that is not JSON, a reply of the wrong shape, a panel
    that cannot be rendered, a rejected session), the error is caught
    inside the function and a run never ends with a thrown error. *)
Theorem handleActionSubmit_never_throws (fuel : nat) (e : bool) (actionText : JsVal)
    (w w' : World) (err : JsError) :
  handleActionSubmit fuel e actionText w <> Thrown err w'.
Proof.
  destruct (truthy (chosen_action actionText w)) eqn:Haction.
  - rewrite handleActionSubmit_run by exact Haction.
    unfold mbind at 1, JS_bind at 1.
    destruct (submit_turn fuel _ _ (submitting actionText w)) as [b w2|e2 w2|w2] eqn:Hturn;
      try discriminate.
    exfalso. exact (submit_turn_never_throws _ _ _ _ _ _ Hturn).
  - rewrite handleActionSubmit_no_action by exact Haction. discriminate.
Qed.

(** X11.  [saveNarrativeEdit] never rejects either: a failure of the
    synchronisation, of whatever kind, is caught and reported with
    [alert]. *)
Theorem saveNarrativeEdit_never_throws (fuel : nat) (entryElement : nat)
    (contentDiv : JsVal) (newText : string) (originalText historyIndex : JsVal)
    (w w' : World) (err : JsError) :
  saveNarrativeEdit fuel entryElement contentDiv newText originalText historyIndex w <>
    Thrown err w'.
Proof.
  unfold saveNarrativeEdit.
  destruct (String.eqb (trim newText) ""); [discriminate |].
  unfold mbind at 1, JS_bind at 1.
  destruct (negb (is_null historyIndex) && negb (is_undefined historyIndex)).
  - match goal with
    | |- context [try_catch ?B ?H w] => set (body := B); set (handler := H)
    end.
    unfold try_catch. destruct (body w) as [b w2|e w2|w2].
    + destruct b; discriminate.
    + unfold handler, mbind, JS_bind, alert, modify, mret, JS_ret. discriminate.
    + discriminate.
  - discriminate.
Qed.

#[local] Instance shown_grows_preorder : PreOrder shown_grows.
Proof.
  split.
  - intros w. exists []. rewrite app_nil_r. reflexivity.
  - intros w1 w2 w3 [l1 H1] [l2 H2]. exists (l1 ++ l2). rewrite H2, H1, app_assoc. reflexivity.
Qed.

Lemma shown_grows_same (w w' : World) :
  gameLog (page w') = gameLog (page w) -> shown_grows w w'.
Proof. intros H. exists []. rewrite H, app_nil_r. reflexivity. Qed.

Lemma remove_skeleton_app (l1 l2 : list LogNode) :
  remove_skeleton (l1 ++ l2) = remove_skeleton l1 ++ remove_skeleton l2.
Proof. unfold remove_skeleton. apply List.filter_app. Qed.

Lemma remove_skeleton_twice (l : list LogNode) :
  remove_skeleton (remove_skeleton l) = remove_skeleton l.
Proof. apply remove_skeleton_id, remove_skeleton_clean. Qed.

Lemma shown_grows_appendLog (text type historyIndex : JsVal) :
  stable shown_grows (appendLog text type historyIndex).
Proof.
  intros w. unfold appendLog, shown_grows. cbv zeta.
  cbn [final_world modify page with_page gameLog set_gameLog].
  rewrite remove_skeleton_app. eexists. reflexivity.
Qed.

Lemma shown_grows_fetchWithAuth (fuel : nat) (endpoint : string) (options : Options) :
  stable shown_grows (fetchWithAuth fuel endpoint options).
Proof.
  intros w. apply shown_grows_same.
  pose proof (fetchWithAuth_same_game fuel endpoint options w) as H.
  unfold same_on, game_part in H. congruence.
Qed.

Ltac shown_fin :=
  first [ apply shown_grows_same; reflexivity
        | exists []; rewrite app_nil_r; cbn [page with_page gameLog set_gameLog];
          first [ apply remove_skeleton_twice
                | rewrite remove_skeleton_app, app_nil_r; reflexivity ] ].

Lemma shown_grows_renderGameTurn (data : JsVal) :
  stable shown_grows (renderGameTurn data).
Proof.
  unfold renderGameTurn, renderGameSuggestions.
  keeps_tac shown_fin; apply shown_grows_appendLog.
Qed.

Lemma shown_grows_submit_turn (fuel : nat) (action : JsVal) (text : string) :
  stable shown_grows (submit_turn fuel action text).
Proof.
  unfold submit_turn, set_suggestions_disabled.
  keeps_tac shown_fin;
    first [ apply shown_grows_fetchWithAuth | apply shown_grows_renderGameTurn
          | apply shown_grows_appendLog ].
Qed.

(** What a turn that has come to its end shows: what was shown when its
    [try] statement started, and then what it added. *)
Lemma submit_turn_appends (fuel : nat) (action : JsVal) (text : string) (w w1 : World)
    (b : bool) :
  submit_turn fuel action text w = Normal b w1 ->
  exists added, gameLog (page w1) = remove_skeleton (gameLog (page w)) ++ added.
Proof.
  intros Hturn.
  destruct (submit_turn_settles _ _ _ _ _ _ Hturn) as (_ & _ & Hclean).
  destruct (shown_grows_submit_turn fuel action text w) as [l Hl].
  rewrite Hturn in Hl. cbn [final_world] in Hl.
  rewrite (remove_skeleton_id _ Hclean) in Hl. exists l. exact Hl.
Qed.

(** X12.  A turn never rewrites what the log shows.  When a submission has
    come to its end, however the call went, the log is the log before it,
    then the player's action, then what the turn added: no entry that was
    shown is removed, changed or moved. *)
Theorem handleActionSubmit_appends (fuel : nat) (e : bool) (actionText : JsVal)
    (w w1 : World) :
  truthy (chosen_action actionText w) = true ->
  existsb is_skeleton (gameLog (page w)) = false ->
  handleActionSubmit fuel e actionText w = Normal tt w1 ->
  exists added,
    gameLog (page w1) =
      gameLog (page w) ++ Entry (JStr "player") (chosen_action actionText w) :: added.
Proof.
  intros Haction Hclean Hrun. rewrite handleActionSubmit_run in Hrun by exact Haction.
  unfold mbind at 1, JS_bind at 1 in Hrun.
  destruct (submit_turn fuel (chosen_action actionText w) (retry_text (retryAiBtn (page w)))
              (submitting actionText w)) as [b w'|e' w'|w'] eqn:Hturn; try discriminate Hrun.
  injection Hrun as <-.
  destruct (submit_turn_appends _ _ _ _ _ _ Hturn) as [l Hl].
  exists l. rewrite Hl. unfold submitting. cbv zeta.
  destruct (negb (truthy actionText));
    cbn [page with_page with_state gameLog set_gameLog set_retryAiBtn set_actionInput_disabled
         set_gameSuggestions set_actionInput_value];
    rewrite !remove_skeleton_app, (remove_skeleton_id _ Hclean), <- !app_assoc; reflexivity.
Qed.

#[local] Instance log_kept_but_preorder (i : nat) : PreOrder (log_kept_but i).
Proof.
  split.
  - intros w. split; [reflexivity | intros; reflexivity].
  - intros w1 w2 w3 [L1 H1] [L2 H2]. split; [congruence |].
    intros j Hj. rewrite (H2 j Hj). apply H1, Hj.
Qed.

Lemma log_kept_but_same (i : nat) (w w' : World) :
  gameLog (page w') = gameLog (page w) -> log_kept_but i w w'.
Proof. intros H. unfold log_kept_but. rewrite H. split; [reflexivity | intros; reflexivity]. Qed.

Lemma log_kept_but_replace_node (i : nat) (n : LogNode) :
  stable (log_kept_but i) (replace_node i n).
Proof.
  intros w. unfold replace_node. cbn [final_world modify page with_page gameLog set_gameLog].
  split.
  - apply length_insert.
  - intros j Hj. apply list_lookup_insert_ne. congruence.
Qed.

Lemma log_kept_but_fetchWithAuth (i fuel : nat) (endpoint : string) (options : Options) :
  stable (log_kept_but i) (fetchWithAuth fuel endpoint options).
Proof.
  intros w. apply log_kept_but_same.
  pose proof (fetchWithAuth_same_game fuel endpoint options w) as H.
  unfold same_on, game_part in H. congruence.
Qed.

(** X13.  Saving an edit touches the entry edited and no other: whatever
    the server answers, the log has as many nodes as before and every other
    node is the one it was; the suggestion buttons, the input box and the
    last action are untouched as well. *)
Theorem saveNarrativeEdit_only_its_entry (fuel : nat) (entryElement : nat)
    (contentDiv : JsVal) (newText : string) (originalText historyIndex : JsVal) (w : World) :
  let w' := final_world
              (saveNarrativeEdit fuel entryElement contentDiv newText originalText
                 historyIndex w) in
  length (gameLog (page w')) = length (gameLog (page w)) /\
  (forall j, j <> entryElement -> gameLog (page w') !! j = gameLog (page w) !! j) /\
  gameSuggestions (page w') = gameSuggestions (page w) /\
  actionInput_value (page w') = actionInput_value (page w) /\
  lastPlayerAction (state w') = lastPlayerAction (state w).
Proof.
  cbv zeta.
  assert (Hlog : stable (log_kept_but entryElement)
            (saveNarrativeEdit fuel entryElement contentDiv newText originalText historyIndex)).
  { unfold saveNarrativeEdit, alert.
    keeps_tac ltac:(apply log_kept_but_same; reflexivity);
      first [ apply log_kept_but_fetchWithAuth | apply log_kept_but_replace_node ]. }
  assert (Hrest : stable (same_on (fun w0 => (gameSuggestions (page w0),
                                               actionInput_value (page w0),
                                               lastPlayerAction (state w0))))
            (saveNarrativeEdit fuel entryElement contentDiv newText originalText historyIndex)).
  { unfold saveNarrativeEdit, alert, replace_node.
    keeps_tac ltac:(reflexivity).
    match goal with
    | |- stable _ (fetchWithAuth ?f ?endpoint ?options) =>
        intros w0; pose proof (fetchWithAuth_same_game f endpoint options w0) as H
    end.
    unfold same_on, game_part in *. congruence. }
  destruct (Hlog w) as [Hlen Hother]. specialize (Hrest w). unfold same_on in Hrest.
  injection Hrest as -> -> ->. repeat split; assumption.
Qed.

(** Runs the monadic steps of straight-line code. *)
Ltac run_js :=
  cbv beta iota zeta delta
    [mbind mret JS_bind JS_ret get_world modify throw try_catch try_finally_with
     json prop appendLog alert replace_node set_suggestions_disabled
     handleLogout removeItem setItem showView handleApiError
     payload_of status default negb final_world].


Lemma submitting_net (actionText : JsVal) (w : World) :
  net (submitting actionText w) = net w /\
  requests (submitting actionText w) = requests w /\
  alerts (submitting actionText w) = alerts w /\
  localStorage (submitting actionText w) = localStorage w.
Proof.
  unfold submitting. cbv zeta. destruct (negb (truthy actionText)); repeat split.
Qed.

Lemma submitting_page (actionText : JsVal) (w : World) :
  gameLog (page (submitting actionText w)) =
    gameLog (page w) ++ [Entry (JStr "player") (chosen_action actionText w); Skeleton] /\
  gameSuggestions (page (submitting actionText w)) =
    (fun b => disable_btn b true) <$> gameSuggestions (page w) /\
  statusPanel (page (submitting actionText w)) = statusPanel (page w) /\
  lastPlayerAction (state (submitting actionText w)) = chosen_action actionText w /\
  currentSessionId (state (submitting actionText w)) = currentSessionId (state w).
Proof.
  unfold submitting. cbv zeta.
  destruct (negb (truthy actionText));
    cbn [page state with_page with_state gameLog gameSuggestions statusPanel lastPlayerAction
         currentSessionId set_gameLog set_retryAiBtn set_actionInput_disabled
         set_gameSuggestions set_actionInput_value set_lastPlayerAction];
    rewrite <- app_assoc; repeat split.
Qed.

Lemma enable_disabled (l : list SuggestionBtn) :
  (fun b => disable_btn b false) <$> ((fun b => disable_btn b true) <$> l) =
  (fun b => disable_btn b false) <$> l.
Proof. rewrite <- list_fmap_compose. reflexivity. Qed.

Lemma remove_skeleton_submitting (l : list LogNode) (n : LogNode) :
  existsb is_skeleton l = false -> is_skeleton n = false ->
  remove_skeleton (l ++ [n; Skeleton]) = l ++ [n].
Proof.
  intros Hl Hn. rewrite remove_skeleton_app, (remove_skeleton_id _ Hl).
  unfold remove_skeleton. cbn [List.filter is_skeleton negb]. rewrite Hn. reflexivity.
Qed.

(** X14.  A turn the server refuses.  When the call of a turn is answered
    with a status that is neither a success nor 401, the run ends normally
    and the log is the log before, the player's action and one message,
    [世界之灵没有回应... (reason)]: the reason is the [error] of the body,
    or [请重试] when the body has none or is not JSON.  The last action is
    the one submitted, one request has been issued, and the suggestion
    buttons that were on the page are all enabled again. *)
Theorem handleActionSubmit_server_error (fuel : nat) (e : bool) (actionText : JsVal)
    (w : World) (st : Z) (payload : option JsVal) :
  truthy (chosen_action actionText w) = true ->
  existsb is_skeleton (gameLog (page w)) = false ->
  net w (length (requests w)) = Reply st payload ->
  st <> 401 ->
  ok {| status := st; payload_of := payload |} = false ->
  nullish (default (JObj []) payload) = false ->
  exists w1,
    handleActionSubmit (S fuel) e actionText w = Normal tt w1 /\
    gameLog (page w1) =
      gameLog (page w) ++
      [Entry (JStr "player") (chosen_action actionText w);
       Entry (JStr "message")
         (JStr ("世界之灵没有回应... (" +:+
                js_to_string (js_or (field (default (JObj []) payload) "error")
                                    (JStr "请重试")) +:+ ")"))] /\
    gameSuggestions (page w1) = (fun b => disable_btn b false) <$> gameSuggestions (page w) /\
    lastPlayerAction (state w1) = chosen_action actionText w /\
    length (requests w1) = S (length (requests w)).
Proof.
  intros Haction Hclean Hnet Hst Hok Hbody.
  rewrite handleActionSubmit_run by exact Haction.
  destruct (submitting_net actionText w) as (Hn & Hr & _ & _).
  destruct (submitting_page actionText w) as (Hlog & Hbtn & _ & Hlast & _).
  set (ws := submitting actionText w) in *.
  assert (Hnet' : net ws (length (requests ws)) = Reply st payload).
  { rewrite Hn, Hr. exact Hnet. }
  unfold submit_turn. run_js.
  rewrite (fetchWithAuth_pass fuel _ _ ws st payload Hnet' Hst).
  run_js. rewrite Hok.
  change (strict_eq_str (JStr "message") "ai") with false. cbv beta iota.
  assert (Hshown : remove_skeleton (gameLog (page ws)) =
                   gameLog (page w) ++ [Entry (JStr "player") (chosen_action actionText w)]).
  { rewrite Hlog. apply remove_skeleton_submitting; [exact Hclean | reflexivity]. }
  destruct payload as [d|]; cbn [default] in *;
    [destruct d; try discriminate Hbody |];
    (eexists; split; [reflexivity |];
     cbn [page state requests with_page with_state log_request gameLog gameSuggestions
          lastPlayerAction set_gameLog set_retryAiBtn set_actionInput_disabled
          set_gameSuggestions];
     rewrite Hshown, Hbtn, enable_disabled, Hlast, <- app_assoc, length_app, Hr;
     repeat split; cbn [length]; lia).
Qed.

Lemma fetchWithAuth_no_reply (fuel : nat) (endpoint : string) (options : Options)
    (w : World) :
  net w (length (requests w)) = NoReply ->
  fetchWithAuth (S fuel) endpoint options w =
    Thrown NetworkError (log_request (pipeline_request endpoint options w) w).
Proof.
  intros Hnet. cbn [fetchWithAuth]. unfold mbind, JS_bind, get_world, fetch.
  rewrite Hnet. reflexivity.
Qed.

Lemma fetchWithAuth_unreadable_401 (fuel : nat) (endpoint : string) (options : Options)
    (w : World) :
  net w (length (requests w)) = Reply 401 None ->
  fetchWithAuth (S fuel) endpoint options w =
    Thrown SyntaxError (log_request (pipeline_request endpoint options w) w).
Proof.
  intros Hnet. cbn [fetchWithAuth]. unfold mbind, JS_bind, get_world, fetch.
  rewrite Hnet. reflexivity.
Qed.

Lemma skeleton_pending (l : list LogNode) (n : LogNode) :
  existsb is_skeleton (l ++ [n; Skeleton]) = true.
Proof.
  rewrite existsb_app. cbn [existsb is_skeleton]. rewrite !orb_true_r. reflexivity.
Qed.

(** X15.  A turn that breaks.  When no reply arrives, when a success or a
    401 comes with a body that is not JSON, or when the body of a reply
    other than a 401 is JSON [null], the error is caught: the run ends
    normally and the log is the log before, the player's action and the
    message that the connection was lost; the placeholder is gone and the
    suggestion buttons are enabled again. *)
Theorem handleActionSubmit_connection_lost (fuel : nat) (e : bool) (actionText : JsVal)
    (w : World) :
  truthy (chosen_action actionText w) = true ->
  existsb is_skeleton (gameLog (page w)) = false ->
  match net w (length (requests w)) with
  | NoReply => True
  | Reply st None => st = 401 \/ ok {| status := st; payload_of := None |} = true
  | Reply st (Some d) => st <> 401 /\ nullish d = true
  end ->
  exists w1,
    handleActionSubmit (S fuel) e actionText w = Normal tt w1 /\
    gameLog (page w1) =
      gameLog (page w) ++
      [Entry (JStr "player") (chosen_action actionText w);
       Entry (JStr "message") (JStr "与世界之灵的连接中断，请检查网络并重试。")] /\
    gameSuggestions (page w1) = (fun b => disable_btn b false) <$> gameSuggestions (page w) /\
    lastPlayerAction (state w1) = chosen_action actionText w /\
    length (requests w1) = S (length (requests w)).
Proof.
  intros Haction Hclean Hreply.
  rewrite handleActionSubmit_run by exact Haction.
  destruct (submitting_net actionText w) as (Hn & Hr & _ & _).
  destruct (submitting_page actionText w) as (Hlog & Hbtn & _ & Hlast & _).
  set (ws := submitting actionText w) in *.
  assert (Hshown : remove_skeleton (gameLog (page ws)) =
                   gameLog (page w) ++ [Entry (JStr "player") (chosen_action actionText w)]).
  { rewrite Hlog. apply remove_skeleton_submitting; [exact Hclean | reflexivity]. }
  assert (Hpending : existsb is_skeleton (gameLog (page ws)) = true).
  { rewrite Hlog. apply skeleton_pending. }
  assert (Hgone : existsb is_skeleton (remove_skeleton (gameLog (page ws))) = false).
  { apply remove_skeleton_clean. }
  assert (Hnet' : net ws (length (requests ws)) = net w (length (requests w))).
  { rewrite Hn, Hr. reflexivity. }
  unfold submit_turn. run_js.
  change (strict_eq_str (JStr "message") "ai") with false. cbv beta iota.
  assert (Hend : forall w2 : World,
            gameLog (page w2) = remove_skeleton (gameLog (page ws)) ->
            gameSuggestions (page w2) = gameSuggestions (page ws) ->
            state w2 = state ws ->
            requests w2 = requests ws ++
              [pipeline_request (action_endpoint ws)
                 (action_options (chosen_action actionText w)) ws] ->
            let w1 :=
              with_page (fun d => set_gameSuggestions
                           ((fun b => disable_btn b false) <$> gameSuggestions d) d)
                (with_page (set_actionInput_disabled false)
                   (with_page (set_retryAiBtn
                      {| retry_display := "inline-block"; retry_disabled := false;
                         retry_text := retry_text (retryAiBtn (page w)) |})
                      (with_page (fun d => set_gameLog
                         (gameLog d ++
                          [Entry (JStr "message")
                             (JStr "与世界之灵的连接中断，请检查网络并重试。")]) d) w2))) in
            gameLog (page w1) =
              gameLog (page w) ++
              [Entry (JStr "player") (chosen_action actionText w);
               Entry (JStr "message") (JStr "与世界之灵的连接中断，请检查网络并重试。")] /\
            gameSuggestions (page w1) =
              (fun b => disable_btn b false) <$> gameSuggestions (page w) /\
            lastPlayerAction (state w1) = chosen_action actionText w /\
            length (requests w1) = S (length (requests w))).
  { intros w2 H1 H2 H3 H4. cbv zeta.
    cbn [page state requests with_page gameLog gameSuggestions
         set_gameLog set_retryAiBtn set_actionInput_disabled set_gameSuggestions].
    rewrite H1, H2, H3, H4, Hshown, Hbtn, enable_disabled, Hlast, <- app_assoc, length_app, Hr.
    repeat split. cbn [length]. lia. }
  destruct (net w (length (requests w))) as [|st [d|]] eqn:Hnet.
  - rewrite (fetchWithAuth_no_reply fuel _ _ ws Hnet').
    cbn [page log_request]. rewrite Hpending.
    eexists; split; [reflexivity |]. apply Hend; reflexivity.
  - destruct Hreply as [Hst Hnull].
    rewrite (fetchWithAuth_pass fuel _ _ ws st (Some d) Hnet' Hst).
    destruct (ok {| status := st; payload_of := Some d |});
      destruct d; try discriminate Hnull; unfold renderGameTurn; run_js;
      cbn [page with_page log_request gameLog set_gameLog]; rewrite Hgone;
      (eexists; split; [reflexivity |]; apply Hend; reflexivity).
  - destruct Hreply as [-> | Hok].
    + rewrite (fetchWithAuth_unreadable_401 fuel _ _ ws Hnet').
      cbn [page log_request]. rewrite Hpending.
      eexists; split; [reflexivity |]. apply Hend; reflexivity.
    + assert (Hst : st <> 401).
      { intros ->. discriminate Hok. }
      rewrite (fetchWithAuth_pass fuel _ _ ws st None Hnet' Hst). rewrite Hok. run_js.
      cbn [page with_page log_request gameLog set_gameLog]. rewrite Hgone.
      eexists; split; [reflexivity |]. apply Hend; reflexivity.
Qed.

Lemma with_page_id (w : World) (f : Page -> Page) :
  (forall d, f d = d) -> with_page f w = w.
Proof. intros Hf. destruct w. unfold with_page. cbn. rewrite Hf. reflexivity. Qed.

Lemma set_gameSuggestions_id (d : Page) : set_gameSuggestions (gameSuggestions d) d = d.
Proof. destruct d. reflexivity. Qed.

Lemma for_each_buttons_world (choices : list JsVal) (w : World) :
  for_each (fun choice =>
    modify (with_page (fun d =>
      set_gameSuggestions (gameSuggestions d ++ [suggestion_button choice]) d))) choices w =
  Normal tt (with_page (fun d =>
    set_gameSuggestions (gameSuggestions d ++ (suggestion_button <$> choices)) d) w).
Proof.
  revert w. induction choices as [|choice choices IH]; intros w.
  - cbn [for_each fmap list_fmap mret JS_ret]. f_equal. symmetry. apply with_page_id.
    intros d. rewrite app_nil_r. apply set_gameSuggestions_id.
  - cbn [for_each]. unfold mbind at 1, JS_bind at 1, modify at 1. rewrite IH.
    f_equal. unfold with_page.
    cbn [state localStorage page requests net alerts gameSuggestions set_gameSuggestions
         view globalError gameWorldName gameLog actionInput_value actionInput_disabled
         retryAiBtn statusPanel].
    rewrite <- app_assoc. reflexivity.
Qed.

Lemma renderGameSuggestions_array (choices : list JsVal) (w : World) :
  renderGameSuggestions (JArr choices) w =
    Normal tt (with_page (set_gameSuggestions (suggestion_button <$> choices)) w).
Proof.
  unfold renderGameSuggestions. unfold mbind at 1, JS_bind at 1, modify at 1.
  destruct choices as [|choice choices].
  - reflexivity.
  - assert (Hpos : truthy (JArr (choice :: choices)) &&
                   length_positive (JArr (choice :: choices)) = true).
    { cbn [truthy length_positive field String.eqb Ascii.eqb Bool.eqb andb js_gt_zero length].
      apply Z.ltb_lt. lia. }
    rewrite Hpos, for_each_buttons_world. reflexivity.
Qed.

(** X16.  [renderGameSuggestions] replaces the buttons and touches nothing
    else.  For an array the buttons after the call are one per choice, in
    order, whatever buttons were there; for anything else there are none.
    The call throws, after it has removed the old buttons, exactly when the
    value is no array and yet truthy with a positive [length], such as a
    string that is not empty. *)
Theorem renderGameSuggestions_replaces (choices : JsVal) (w : World) :
  let buttons := match choices with
                 | JArr xs => suggestion_button <$> xs
                 | _ => []
                 end in
  renderGameSuggestions choices w =
    (if negb (is_array choices) && truthy choices && length_positive choices
     then Thrown TypeError (with_page (set_gameSuggestions buttons) w)
     else Normal tt (with_page (set_gameSuggestions buttons) w)).
Proof.
  cbv zeta. destruct choices as [| | b | n | s | xs | fields];
    try (rewrite renderGameSuggestions_array; reflexivity);
    unfold renderGameSuggestions; unfold mbind at 1, JS_bind at 1, modify at 1;
    cbn [is_array negb andb];
    match goal with
    | |- context [truthy ?c && length_positive ?c] =>
        destruct (truthy c && length_positive c)
    end; reflexivity.
Qed.

(** What [renderGameTurn] adds to the log for a reply. *)
Lemma renderGameTurn_run (data : JsVal) (choices : list JsVal) (w : World) :
  nullish data = false ->
  (truthy (field data "current_state") = true ->
   snd (render_status (field data "current_state") (statusPanel (page w))) = None) ->
  field data "suggested_choices" = JArr choices ->
  exists w',
    renderGameTurn data w = Normal tt w' /\
    gameLog (page w') =
      gameLog (page w) ++
      (if truthy (field data "description")
       then [Narrative (field data "description") (field data "description") (JNum 0) false]
       else []) ++
      (if truthy (field data "player_message")
       then [Entry (JStr "message") (field data "player_message")]
       else []) /\
    gameSuggestions (page w') = suggestion_button <$> choices /\
    statusPanel (page w') =
      (if truthy (field data "current_state")
       then fst (render_status (field data "current_state") (statusPanel (page w)))
       else statusPanel (page w)) /\
    retryAiBtn (page w') = retryAiBtn (page w) /\
    state w' = state w /\
    requests w' = requests w.
Proof.
  intros Hdata Hrender Hchoices. unfold renderGameTurn.
  assert (Hprop : prop data "description" = mret (field data "description")).
  { destruct data; try discriminate Hdata; reflexivity. }
  rewrite Hprop, Hchoices. unfold renderPlayerStatus. run_js.
  change (strict_eq_str (JStr "ai") "ai") with true.
  change (strict_eq_str (JStr "message") "ai") with false.
  change (is_undefined (JNum 0)) with false. cbv beta iota.
  destruct (truthy (field data "description"));
    destruct (truthy (field data "player_message"));
    destruct (truthy (field data "current_state"));
    cbn [page with_page statusPanel set_gameLog];
    rewrite ?(Hrender eq_refl); rewrite renderGameSuggestions_array;
    (eexists; split; [reflexivity |]);
    cbn [page state requests with_page gameLog gameSuggestions statusPanel retryAiBtn
         set_gameLog set_gameSuggestions set_statusPanel];
    rewrite <- ?app_assoc, ?app_nil_r; repeat split.
Qed.

(** X17.  A turn that succeeds.  When the call is answered with a success
    whose body is a JSON object with an array of choices, the log is the
    log before, the player's action, the narrative (if the reply has one),
    bound to history index 0, and then the message to the player (if it has
    one); the buttons are those of the reply's choices and none of the old
    ones; the side panel is rendered from the reply's state if it has
    one. *)
Theorem handleActionSubmit_success (fuel : nat) (e : bool) (actionText : JsVal)
    (w : World) (st : Z) (data : JsVal) (choices : list JsVal) :
  truthy (chosen_action actionText w) = true ->
  existsb is_skeleton (gameLog (page w)) = false ->
  net w (length (requests w)) = Reply st (Some data) ->
  ok {| status := st; payload_of := Some data |} = true ->
  nullish data = false ->
  (truthy (field data "current_state") = true ->
   snd (render_status (field data "current_state") (statusPanel (page w))) = None) ->
  field data "suggested_choices" = JArr choices ->
  exists w1,
    handleActionSubmit (S fuel) e actionText w = Normal tt w1 /\
    gameLog (page w1) =
      gameLog (page w) ++
      Entry (JStr "player") (chosen_action actionText w) ::
      (if truthy (field data "description")
       then [Narrative (field data "description") (field data "description") (JNum 0) false]
       else []) ++
      (if truthy (field data "player_message")
       then [Entry (JStr "message") (field data "player_message")]
       else []) /\
    gameSuggestions (page w1) = suggestion_button <$> choices /\
    statusPanel (page w1) =
      (if truthy (field data "current_state")
       then fst (render_status (field data "current_state") (statusPanel (page w)))
       else statusPanel (page w)) /\
    retryAiBtn (page w1) =
      {| retry_display := "inline-block"; retry_disabled := false;
         retry_text := retry_text (retryAiBtn (page w)) |} /\
    lastPlayerAction (state w1) = chosen_action actionText w /\
    length (requests w1) = S (length (requests w)).
Proof.
  intros Haction Hclean Hnet Hok Hdata Hrender Hchoices.
  assert (Hst : st <> 401).
  { intros ->. discriminate Hok. }
  rewrite handleActionSubmit_run by exact Haction.
  destruct (submitting_net actionText w) as (Hn & Hr & _ & _).
  destruct (submitting_page actionText w) as (Hlog & Hbtn & Hpanel & Hlast & _).
  set (ws := submitting actionText w) in *.
  assert (Hshown : remove_skeleton (gameLog (page ws)) =
                   gameLog (page w) ++ [Entry (JStr "player") (chosen_action actionText w)]).
  { rewrite Hlog. apply remove_skeleton_submitting; [exact Hclean | reflexivity]. }
  assert (Hnet' : net ws (length (requests ws)) = Reply st (Some data)).
  { rewrite Hn, Hr. exact Hnet. }
  unfold submit_turn. run_js.
  rewrite (fetchWithAuth_pass fuel _ _ ws st (Some data) Hnet' Hst). rewrite Hok.
  match goal with
  | |- context [renderGameTurn data ?w2] =>
      destruct (renderGameTurn_run data choices w2 Hdata) as
        (w3 & Hrun & Hlog3 & Hbtn3 & Hpanel3 & Hretry3 & Hstate3 & Hreq3);
      [cbn [page with_page statusPanel set_gameLog log_request]; rewrite Hpanel;
       exact Hrender | exact Hchoices |];
      rewrite Hrun
  end.
  eexists. split; [reflexivity |].
  cbn [page state requests with_page gameLog gameSuggestions statusPanel retryAiBtn
       set_retryAiBtn set_actionInput_disabled] in *.
  cbn [page state requests with_page log_request gameLog set_gameLog statusPanel] in Hlog3,
    Hpanel3, Hstate3, Hreq3.
  rewrite Hlog3, Hbtn3, Hpanel3, Hstate3, Hreq3, Hshown, Hpanel, Hlast, <- app_assoc,
    length_app, Hr.
  repeat split. cbn [length]. lia.
Qed.

(** X18.  A turn on a rejected session.  When the call of a turn is
    answered 401 without [token_expired], the pipeline hands [null] to the
    turn: the log is the log before, the player's action and the message
    [世界之灵没有回应... (未知错误)], the banner asks to log in again and
    offers the logout, the user is still on the view they were on with
    their tokens, and the suggestion buttons are enabled again. *)
Theorem handleActionSubmit_session_rejected (fuel : nat) (e : bool) (actionText : JsVal)
    (w : World) (responseData : JsVal) :
  truthy (chosen_action actionText w) = true ->
  existsb is_skeleton (gameLog (page w)) = false ->
  net w (length (requests w)) = Reply 401 (Some responseData) ->
  token_expired responseData = false ->
  exists w1,
    handleActionSubmit (S fuel) e actionText w = Normal tt w1 /\
    gameLog (page w1) =
      gameLog (page w) ++
      [Entry (JStr "player") (chosen_action actionText w);
       Entry (JStr "message") (JStr "世界之灵没有回应... (未知错误)")] /\
    globalError (page w1) = login_expired_banner /\
    view (page w1) = view (page w) /\
    accessToken (state w1) = accessToken (state w) /\
    localStorage w1 = localStorage w /\
    gameSuggestions (page w1) = (fun b => disable_btn b false) <$> gameSuggestions (page w) /\
    length (requests w1) = S (length (requests w)).
Proof.
  intros Haction Hclean Hnet Hexp.
  rewrite handleActionSubmit_run by exact Haction.
  destruct (submitting_net actionText w) as (Hn & Hr & _ & Hstore).
  destruct (submitting_page actionText w) as (Hlog & Hbtn & _ & _ & _).
  assert (Hview : view (page (submitting actionText w)) = view (page w) /\
                  accessToken (state (submitting actionText w)) = accessToken (state w)).
  { unfold submitting. cbv zeta. destruct (negb (truthy actionText)); split; reflexivity. }
  destruct Hview as [Hview Htoken].
  set (ws := submitting actionText w) in *.
  assert (Hnet' : net ws (length (requests ws)) = Reply 401 (Some responseData)).
  { rewrite Hn, Hr. exact Hnet. }
  unfold submit_turn. run_js.
  rewrite (fetchWithAuth_rejected fuel _ _ ws responseData Hnet' Hexp).
  change (strict_eq_str (JStr "message") "ai") with false. cbv beta iota.
  assert (Hshown : remove_skeleton (gameLog (page ws)) =
                   gameLog (page w) ++ [Entry (JStr "player") (chosen_action actionText w)]).
  { rewrite Hlog. apply remove_skeleton_submitting; [exact Hclean | reflexivity]. }
  eexists. split; [reflexivity |].
  cbn [page state requests localStorage with_page log_request gameLog gameSuggestions
       globalError view set_gameLog set_retryAiBtn set_actionInput_disabled
       set_gameSuggestions set_globalError].
  rewrite Hshown, Hbtn, enable_disabled, Hview, Htoken, Hstore, <- app_assoc, length_app, Hr.
  repeat split. cbn [length]. lia.
Qed.

Lemma has_index (historyIndex : JsVal) :
  negb (is_null historyIndex) && negb (is_undefined historyIndex) = negb (nullish historyIndex).
Proof. destruct historyIndex; reflexivity. Qed.

(** X19.  An edit the server refuses stays open.  When the update of a
    narrative with a history index is answered with a status that is
    neither a success nor 401 and a JSON body, the user is told
    [更新失败: reason] and the page is as it was, the edit box with what
    was typed included: nothing is applied locally.  The one request sent
    is the POST of the new text and the index to the [update_narrative]
    endpoint of the session. *)
Theorem saveNarrativeEdit_refused (fuel : nat) (entryElement : nat) (contentDiv : JsVal)
    (newText : string) (originalText historyIndex : JsVal) (w : World) (st : Z) (d : JsVal) :
  trim newText <> "" ->
  nullish historyIndex = false ->
  net w (length (requests w)) = Reply st (Some d) ->
  st <> 401 ->
  ok {| status := st; payload_of := Some d |} = false ->
  nullish d = false ->
  exists w1 r,
    saveNarrativeEdit (S fuel) entryElement contentDiv newText originalText historyIndex w =
      Normal tt w1 /\
    page w1 = page w /\
    alerts w1 =
      alerts w ++ ["更新失败: " +:+ js_to_string (js_or (field d "error") (JStr "未知错误"))] /\
    requests w1 = requests w ++ [r] /\
    url r = "/api/sessions/" +:+ js_to_string (currentSessionId (state w)) +:+
            "/update_narrative" /\
    method r = Some "POST" /\
    body r = Some (JObj [("narrative", JStr newText); ("history_index", historyIndex)]).
Proof.
  intros Htext Hindex Hnet Hst Hok Hd.
  unfold saveNarrativeEdit. apply String.eqb_neq in Htext. rewrite Htext.
  rewrite has_index, Hindex. run_js.
  rewrite (fetchWithAuth_pass fuel _ _ w st (Some d) Hnet Hst). rewrite Hok. cbv beta iota.
  destruct d; try discriminate Hd; (eexists; eexists; split; [reflexivity |]; repeat split).
Qed.

(** X20.  An edit that cannot be synchronised is applied locally.  When no
    reply arrives, when the session is rejected (the pipeline returns
    [null], whose [ok] cannot be read), or when an error reply has a body
    that is not JSON or is JSON [null], the error is caught: the user is
    told that the change holds locally only, and the entry shows the new
    text, bound to the index it had. *)
Theorem saveNarrativeEdit_local_on_failure (fuel : nat) (entryElement : nat)
    (contentDiv : JsVal) (newText : string) (originalText historyIndex : JsVal) (w : World) :
  trim newText <> "" ->
  nullish historyIndex = false ->
  match net w (length (requests w)) with
  | NoReply => True
  | Reply st None => ok {| status := st; payload_of := None |} = false
  | Reply st (Some d) =>
      (st = 401 /\ token_expired d = false) \/
      (st <> 401 /\ ok {| status := st; payload_of := Some d |} = false /\ nullish d = true)
  end ->
  exists w1,
    saveNarrativeEdit (S fuel) entryElement contentDiv newText originalText historyIndex w =
      Normal tt w1 /\
    gameLog (page w1) =
      <[entryElement := Narrative (JStr newText) (JStr newText) historyIndex
                          (negb (strict_eq_str originalText newText))]> (gameLog (page w)) /\
    alerts w1 = alerts w ++ ["同步到服务器失败，修改仅在本地生效"] /\
    length (requests w1) = S (length (requests w)).
Proof.
  intros Htext Hindex Hreply.
  unfold saveNarrativeEdit. apply String.eqb_neq in Htext. rewrite Htext.
  rewrite has_index, Hindex. run_js.
  destruct (net w (length (requests w))) as [|st [d|]] eqn:Hnet.
  - rewrite (fetchWithAuth_no_reply fuel _ _ w Hnet).
    eexists. split; [reflexivity |].
    cbn [page alerts requests with_page log_alert log_request gameLog set_gameLog].
    rewrite length_app. repeat split. cbn [length]. lia.
  - destruct Hreply as [[-> Hexp] | (Hst & Hok & Hd)].
    + rewrite (fetchWithAuth_rejected fuel _ _ w d Hnet Hexp).
      eexists. split; [reflexivity |].
      cbn [page alerts requests with_page log_alert log_request gameLog set_gameLog
           set_globalError].
      rewrite length_app. repeat split. cbn [length]. lia.
    + rewrite (fetchWithAuth_pass fuel _ _ w st (Some d) Hnet Hst). rewrite Hok.
      cbv beta iota.
      destruct d; try discriminate Hd;
        (eexists; split; [reflexivity |];
         cbn [page alerts requests with_page log_alert log_request gameLog set_gameLog];
         rewrite length_app; repeat split; cbn [length]; lia).
  - destruct (Z.eq_dec st 401) as [-> | Hst].
    + rewrite (fetchWithAuth_unreadable_401 fuel _ _ w Hnet).
      eexists. split; [reflexivity |].
      cbn [page alerts requests with_page log_alert log_request gameLog set_gameLog].
      rewrite length_app. repeat split. cbn [length]. lia.
    + rewrite (fetchWithAuth_pass fuel _ _ w st None Hnet Hst). rewrite Hreply.
      cbv beta iota.
      eexists. split; [reflexivity |].
      cbn [page alerts requests with_page log_alert log_request gameLog set_gameLog].
      rewrite length_app. repeat split. cbn [length]. lia.
Qed.

(** X21.  An edit that is applied.  For an entry without a history index
    nothing is sent; for one with an index the update is sent and, when the
    server accepts it, the body of the reply is not read.  In both cases
    nothing is shown with [alert] and the entry shows the new text, bound
    for the next edit to the new text and to the index it had, with the
    mark exactly when the new text differs from the text edited. *)
Theorem saveNarrativeEdit_applies (fuel : nat) (entryElement : nat) (contentDiv : JsVal)
    (newText : string) (originalText historyIndex : JsVal) (w : World) :
  trim newText <> "" ->
  (nullish historyIndex = false ->
   exists st payload,
     net w (length (requests w)) = Reply st payload /\
     ok {| status := st; payload_of := payload |} = true) ->
  exists w1,
    saveNarrativeEdit (S fuel) entryElement contentDiv newText originalText historyIndex w =
      Normal tt w1 /\
    gameLog (page w1) =
      <[entryElement := Narrative (JStr newText) (JStr newText) historyIndex
                          (negb (strict_eq_str originalText newText))]> (gameLog (page w)) /\
    alerts w1 = alerts w /\
    requests w1 =
      (if nullish historyIndex then requests w
       else requests w ++
            [pipeline_request
               ("/sessions/" +:+ js_to_string (currentSessionId (state w)) +:+
                "/update_narrative")
               (narrative_options newText historyIndex) w]).
Proof.
  intros Htext Hreply.
  unfold saveNarrativeEdit. apply String.eqb_neq in Htext. rewrite Htext.
  rewrite has_index. destruct (nullish historyIndex) eqn:Hindex; run_js.
  - eexists. split; [reflexivity |]. repeat split.
  - destruct (Hreply eq_refl) as (st & payload & Hnet & Hok).
    assert (Hst : st <> 401).
    { intros ->. discriminate Hok. }
    rewrite (fetchWithAuth_pass fuel _ _ w st payload Hnet Hst). rewrite Hok.
    eexists. split; [reflexivity |]. repeat split.
Qed.

(** X22.  Cancelling an edit discards what was typed.  After a click on the
    edit button of a narrative entry, any typing in the edit box and a
    click on cancel, the entry shows its content again, bound to the text
    and the index it was bound to; the "(已修改)" mark it may have had is
    not put back.  Nothing is sent and nothing else on the page changes. *)
Theorem edit_cancel_restores (i : nat) (typed : string) (w : World) (content : JsVal)
    (text : string) (historyIndex : JsVal) (mark : bool) :
  gameLog (page w) !! i = Some (Narrative content (JStr text) historyIndex mark) ->
  edit_then_cancel i typed w =
    Normal tt (with_page (fun d =>
      set_gameLog (<[i := Narrative content (JStr text) historyIndex false]> (gameLog d)) d) w).
Proof.
  intros Hnode.
  assert (Hi : (i < length (gameLog (page w)))%nat).
  { apply lookup_lt_is_Some. eexists. exact Hnode. }
  unfold edit_then_cancel, edit_click, type_in_editor, cancel_click, editNarrative,
    cancelNarrativeEdit.
  run_js. rewrite Hnode. cbv beta iota.
  cbn [page with_page gameLog set_gameLog].
  rewrite list_lookup_insert_eq by exact Hi. cbv beta iota.
  cbn [page with_page gameLog set_gameLog].
  rewrite list_lookup_insert_eq by (rewrite length_insert; exact Hi). cbv beta iota.
  f_equal. unfold with_page.
  cbn [state localStorage page requests net alerts gameLog set_gameLog
       view globalError gameWorldName actionInput_value actionInput_disabled
       retryAiBtn gameSuggestions statusPanel].
  rewrite !list_insert_insert_eq. reflexivity.
Qed.

(** X23.  A narrative that is not a string cannot be edited.  When
    [appendLog] has shown, as an entry of type [ai], a text that is not a
    string (a number, an object), a click on its edit button throws a
    TypeError before it changes anything: the page stays as it is. *)
Theorem edit_of_non_string_throws (text historyIndex : JsVal) (w w1 : World) :
  (forall s, text <> JStr s) ->
  appendLog text (JStr "ai") historyIndex w = Normal tt w1 ->
  edit_click (length (gameLog (page w))) w1 = Thrown TypeError w1.
Proof.
  intros Htext Hrun. unfold appendLog in Hrun. cbv zeta in Hrun.
  change (strict_eq_str (JStr "ai") "ai") with true in Hrun. cbv iota in Hrun.
  unfold modify in Hrun. injection Hrun as <-.
  unfold edit_click, editNarrative. run_js.
  cbn [page with_page gameLog set_gameLog].
  rewrite list_lookup_middle by reflexivity.
  destruct text; try reflexivity. exfalso. eapply Htext. reflexivity.
Qed.

Lemma set_gameLog_id (d : Page) : set_gameLog (gameLog d) d = d.
Proof. destruct d. reflexivity. Qed.

(** The loop of [startGame] over a history whose entries are objects: each
    entry is appended, typed by its role, and none with an index. *)
Lemma restore_entries_run (len : nat) (entries : list JsVal) (i : nat) (w : World) :
  Forall (fun entry => nullish entry = false) entries ->
  for_each_from (restore_entry len) i entries w =
    Normal tt (with_page (fun d =>
      set_gameLog
        (gameLog d ++
         ((fun entry =>
             if strict_eq_str (field entry "role") "ai"
             then Narrative (field entry "content") (field entry "content") JNull false
             else Entry (field entry "role") (field entry "content")) <$> entries)) d) w).
Proof.
  intros Hall. revert i w. induction Hall as [|entry entries Hentry _ IH]; intros i w.
  - cbn [for_each_from fmap list_fmap mret JS_ret]. f_equal. symmetry. apply with_page_id.
    intros d. rewrite app_nil_r. apply set_gameLog_id.
  - cbn [for_each_from]. unfold mbind at 1, JS_bind at 1.
    assert (Hstep : restore_entry len i entry w =
              Normal tt (with_page (fun d =>
                set_gameLog
                  (gameLog d ++
                   [if strict_eq_str (field entry "role") "ai"
                    then Narrative (field entry "content") (field entry "content") JNull false
                    else Entry (field entry "role") (field entry "content")]) d) w)).
    { unfold restore_entry. cbv zeta.
      assert (Hprop : prop entry "role" = mret (field entry "role")).
      { destruct entry; try discriminate Hentry; reflexivity. }
      rewrite Hprop. run_js.
      destruct (field entry "role") as [| | | |role| |]; try reflexivity.
      cbn [strict_eq_str].
      destruct (String.eqb_spec role "ai") as [-> | Hai]; [reflexivity |].
      destruct (role =? "assistant")%string; reflexivity. }
    rewrite Hstep, IH. f_equal. unfold with_page.
    cbn [state localStorage page requests net alerts gameLog set_gameLog
         view globalError gameWorldName actionInput_value actionInput_disabled
         retryAiBtn gameSuggestions statusPanel fmap list_fmap].
    rewrite <- app_assoc. reflexivity.
Qed.

(** X24.  Loading a game that has a history.  When the session data has a
    state that renders, a history that is an array of objects, not empty,
    and choices that are an array or absent, [startGame] sends nothing: it
    shows the game view for the session and fills the log, emptied first,
    with the entries of the history in reverse order, the oldest first.
    An entry whose role is [ai] becomes a narrative and every other entry,
    those of role [assistant] included, a plain entry without an edit
    button; no restored entry is bound to a history index. *)
Theorem startGame_restores_history (fuel : nat) (sessionData : JsVal) (w : World)
    (entries : list JsVal) :
  nullish sessionData = false ->
  truthy (field sessionData "current_state") = true ->
  snd (render_status (field sessionData "current_state") (statusPanel (page w))) = None ->
  field (field sessionData "current_state") "recent_history" = JArr entries ->
  entries <> [] ->
  Forall (fun entry => nullish entry = false) entries ->
  (let choices :=
     field (js_or (field (field sessionData "current_state") "last_ai_response") (JObj []))
           "suggested_choices" in
   is_array choices = true \/ truthy choices = false) ->
  exists w1,
    startGame fuel sessionData w = Normal tt w1 /\
    requests w1 = requests w /\
    view (page w1) = "game-view" /\
    currentSessionId (state w1) = field sessionData "session_id" /\
    gameLog (page w1) =
      (fun entry =>
         if strict_eq_str (field entry "role") "ai"
         then Narrative (field entry "content") (field entry "content") JNull false
         else Entry (field entry "role") (field entry "content")) <$> reverse entries /\
    Forall (fun node => submitted_index node = None \/ submitted_index node = Some JNull)
           (gameLog (page w1)).
Proof.
  intros Hdata Hstate Hrender Hhistory Hentries Hall Hchoices. cbv zeta in Hchoices.
  assert (Hlog : forall l : list JsVal,
            Forall (fun node => submitted_index node = None \/ submitted_index node = Some JNull)
              ((fun entry =>
                  if strict_eq_str (field entry "role") "ai"
                  then Narrative (field entry "content") (field entry "content") JNull false
                  else Entry (field entry "role") (field entry "content")) <$> l)).
  { intros l. apply Forall_fmap, Forall_true. intros entry. cbn.
    destruct (strict_eq_str (field entry "role") "ai"); [right | left]; reflexivity. }
  unfold startGame.
  assert (Hprop : prop sessionData "current_state" = mret (field sessionData "current_state")).
  { destruct sessionData; try discriminate Hdata; reflexivity. }
  rewrite Hprop. unfold renderPlayerStatus. run_js. rewrite Hstate. cbv beta iota.
  cbn [page with_page with_state statusPanel set_gameLog set_gameWorldName
       set_actionInput_value].
  rewrite Hrender, Hhistory.
  assert (Hpos : truthy (JArr entries) && length_positive (JArr entries) = true).
  { destruct entries as [|entry entries]; [contradiction |].
    cbn [truthy length_positive field String.eqb Ascii.eqb Bool.eqb andb js_gt_zero length].
    apply Z.ltb_lt. lia. }
  rewrite Hpos. cbn [spread].
  rewrite restore_entries_run by (apply Forall_reverse; exact Hall).
  destruct (field (js_or (field (field sessionData "current_state") "last_ai_response")
                         (JObj [])) "suggested_choices") as [| | b | n | s | xs | fields] eqn:Hc;
    destruct Hchoices as [Harr | Hfalsy]; try discriminate Harr;
    try (rewrite renderGameSuggestions_array);
    try (unfold renderGameSuggestions; run_js; rewrite Hfalsy; cbn [andb]);
    (eexists; split; [reflexivity |]; repeat split; apply Hlog).
Qed.


(** X26.  A refresh that cannot be made.  When a call is answered 401 with
    [token_expired] and the call of the refresh protocol gets no reply, or
    a reply whose body is not JSON, the pipeline throws: the caller gets no
    result, nothing is replayed, and the session is not torn down: [state],
    the storage with its two tokens and the page are as before. *)
Theorem fetchWithAuth_refresh_unreachable (fuel : nat) (endpoint : string)
    (options : Options) (w : World) (token : string) (responseData : JsVal) :
  net w (length (requests w)) = Reply 401 (Some responseData) ->
  token_expired responseData = true ->
  localStorage w !! "refresh_token" = Some token -> token <> "" ->
  (forall st data, net w (S (length (requests w))) <> Reply st (Some data)) ->
  exists err w',
    fetchWithAuth (S fuel) endpoint options w = Thrown err w' /\
    (err = NetworkError \/ err = SyntaxError) /\
    state w' = state w /\
    localStorage w' = localStorage w /\
    page w' = page w /\
    requests w' =
      requests w ++ [pipeline_request endpoint options w; refresh_request (JStr token)].
Proof.
  intros Hnet Hexp Htok Hne Hnone.
  assert (Htruthy : truthy (JStr token) = true).
  { simpl. destruct (String.eqb_spec token ""); [contradiction | reflexivity]. }
  rewrite (fetchWithAuth_expired _ _ _ _ _ Hnet Hexp).
  unfold mbind at 1, JS_bind at 1.
  unfold refreshToken, getItem, fetch. run_js.
  cbn [localStorage requests net log_request]. rewrite Htok, Htruthy. cbv beta iota.
  change (net (log_request (pipeline_request endpoint options w) w)) with (net w).
  change (requests (log_request (pipeline_request endpoint options w) w))
    with (requests w ++ [pipeline_request endpoint options w]).
  rewrite length_app. cbn [length]. rewrite Nat.add_1_r.
  destruct (net w (S (length (requests w)))) as [|st [data|]] eqn:Hnet2.
  - exists NetworkError. eexists. split; [reflexivity |].
    split; [left; reflexivity |].
    cbn [state localStorage page requests log_request]. rewrite <- app_assoc. repeat split.
  - exfalso. exact (Hnone st data eq_refl).
  - exists SyntaxError. eexists. split; [reflexivity |].
    split; [right; reflexivity |].
    cbn [state localStorage page requests log_request]. rewrite <- app_assoc. repeat split.
Qed.

(** X27.  A turn sends the action it started with and nothing else.  Every
    call issued during a submission, replays after a refresh included, is
    either the call of the refresh protocol or a POST whose body is the
    action chosen when the submission started; what is typed meanwhile is
    never sent. *)
Theorem handleActionSubmit_sends_only_the_action (fuel : nat) (e : bool)
    (actionText : JsVal) (w : World) :
  exists calls,
    requests (final_world (handleActionSubmit fuel e actionText w)) = requests w ++ calls /\
    Forall (fun r =>
              (exists token, r = refresh_request token) \/
              (method r = Some "POST" /\
               body r = Some (JObj [("action", chosen_action actionText w)])))
           calls.
Proof.
  apply handleActionSubmit_issues.
  - intros token. left. exists token. reflexivity.
  - intros endpoint w0. right. split; reflexivity.
Qed.

End Client.

Arguments Page : clear implicits.
Arguments World : clear implicits.
Arguments Completion : clear implicits.
Arguments JS : clear implicits.
Arguments Normal {StatusPanel A} a w.
Arguments Thrown {StatusPanel A} e w.
Arguments OutOfFuel {StatusPanel A} w.

(** ** Concrete runs *)

Example trim_ascii : trim "  look around	 " = "look around".
Proof. reflexivity. Qed.

Example trim_blank : trim "   " = "".
Proof. reflexivity. Qed.

Example chars_utf8 : chars "a攻b" = ["a"; "攻"; "b"].
Proof. reflexivity. Qed.

Example js_to_string_arr :
  js_to_string (JArr [JNum 7; JNull; JStr "a"; JArr [JNum (-2); JBool true]]) = "7,,a,-2,true".
Proof. vm_compute. reflexivity. Qed.

(** One round of expiry and refresh: one refresh call, one replay of the
    same call. *)
Lemma fetchWithAuth_replays_after_each_refresh_witness :
  exists w' l,
    fetchWithAuth 2 "/sessions" no_options (one_round_world tt) =
      Normal (Some {| status := 200; payload_of := Some (JArr []) |}) w' /\
    requests w' = requests (one_round_world tt) ++ l /\
    count_refresh l = 1%nat /\ count_pipeline l = 2%nat /\
    replay_rounds "/sessions" no_options (refresh_request (JStr "rt")) 1 l.
Proof.
  apply (fetchWithAuth_replays_after_each_refresh 1 2 "/sessions" no_options
           (one_round_world tt) "rt" 200 (Some (JArr [])));
    [reflexivity | discriminate | reflexivity | reflexivity | discriminate | lia].
Defined.

(** C1 fails as stated: when the replay is answered 401 with
    [token_expired] again and the second refresh succeeds too, the run makes
    two refresh calls and three calls of the endpoint. *)
Lemma fetchWithAuth_refreshes_twice :
  ~ single_retry 3 "/sessions" no_options (two_rounds_world tt).
Proof.
  intros H. destruct (H _ eq_refl) as [H1 _]. vm_compute in H1. lia.
Qed.

(** The refresh endpoint refuses the refresh token: the refresh returns
    failure and the session, with the two tokens it had, is torn down. *)
Lemma fetchWithAuth_refresh_failure_witness :
  localStorage (refresh_refused_world tt) !! "refresh_token" = Some "rt" /\
  exists w3,
    fetchWithAuth 1 "/sessions" no_options (refresh_refused_world tt) = Normal None w3 /\
    accessToken (state w3) = JNull /\
    localStorage w3 !! "access_token" = None /\
    localStorage w3 !! "refresh_token" = None /\
    view (page w3) = "auth-view".
Proof.
  split; [reflexivity |].
  apply (proj1 (fetchWithAuth_refresh_failure 0 "/sessions" no_options
                  (refresh_refused_world tt) (JObj [("error", JStr "token_expired")])
                  eq_refl eq_refl)
           (log_request (refresh_request (JStr "rt"))
              (log_request (pipeline_request "/sessions" no_options (refresh_refused_world tt))
                           (refresh_refused_world tt)))).
  reflexivity.
Defined.

(** C2 fails as stated: when the refresh attempt fails because no reply
    comes from the refresh endpoint, the caller does not get [null], the
    call throws, and nothing is cleared: the access token, the two stored
    tokens and the view are still there. *)
Lemma unreachable_refresh_clears_nothing :
  exists w',
    fetchWithAuth 1 "/sessions" no_options (refresh_unreachable_world tt) =
      Thrown NetworkError w' /\
    accessToken (state w') = JStr "tok" /\
    localStorage w' !! "access_token" = Some "tok" /\
    localStorage w' !! "refresh_token" = Some "rt" /\
    view (page w') = "game-view".
Proof.
  eexists. split; [reflexivity |]. repeat split; vm_compute; reflexivity.
Qed.

(** C4 on the code: after a 401 with another error than [token_expired] the
    caller has [null] and the banner is up, but the tokens and the view are
    still there; they go only when the banner's button is clicked. *)
Lemma rejected_401_keeps_session :
  exists w',
    fetchWithAuth 1 "/sessions" no_options (rejected_world tt) = Normal None w' /\
    globalError (page w') = login_expired_banner /\
    accessToken (state w') = JStr "tok" /\
    localStorage w' !! "access_token" = Some "tok" /\
    localStorage w' !! "refresh_token" = Some "rt" /\
    view (page w') = "game-view" /\
    accessToken (state (final_world (banner_retry_click w'))) = JNull /\
    localStorage (final_world (banner_retry_click w')) !! "refresh_token" = None /\
    view (page (final_world (banner_retry_click w'))) = "auth-view".
Proof.
  eexists. split; [reflexivity |]. repeat split; vm_compute; reflexivity.
Qed.

(** C5 fails as stated: an action text of three spaces, passed as the
    argument, is posted and logged. *)
Lemma whitespace_action_text_is_submitted :
  trim "   " = "" /\
  map body (requests (final_world
      (handleActionSubmit plain_render no_numeric 1 false (JStr "   ") (answering_world tt)))) =
    [Some (JObj [("action", JStr "   ")])] /\
  gameLog (page (final_world
      (handleActionSubmit plain_render no_numeric 1 false (JStr "   ") (answering_world tt)))) =
    [Entry (JStr "player") (JStr "   "); Narrative (JStr "A") (JStr "A") (JNum 0) false].
Proof. repeat split; vm_compute; reflexivity. Qed.

(** White space in the input box and no action text: nothing happens. *)
Lemma handleActionSubmit_rejects_empty_witness :
  handleActionSubmit plain_render no_numeric 1 true JUndefined (blank_input_world tt) =
    Normal tt (blank_input_world tt) /\
  requests (final_world
      (handleActionSubmit plain_render no_numeric 1 true JUndefined (blank_input_world tt))) =
    requests (blank_input_world tt) /\
  gameLog (page (final_world
      (handleActionSubmit plain_render no_numeric 1 true JUndefined (blank_input_world tt)))) =
    gameLog (page (blank_input_world tt)).
Proof.
  apply (handleActionSubmit_rejects_empty plain_render no_numeric 1 true JUndefined
           (blank_input_world tt)); reflexivity.
Defined.



(** The two examples of the specification. *)
Lemma renderGameSuggestions_normalizes_witness :
  exists w',
    renderGameSuggestions no_numeric (JArr example_choices) (answering_world tt) = Normal tt w' /\
    map normalized (gameSuggestions (page w')) =
      [ {| displayText := JStr "look around"; actionCommand := JStr "look around";
           details := None |};
        {| displayText := JStr "攻击"; actionCommand := JStr "攻击";
           details := Some [JStr "力量+2"] |} ].
Proof.
  destruct (renderGameSuggestions_normalizes no_numeric example_choices (answering_world tt))
    as (w' & Hrun & Hlen & Hall).
  exists w'. split; [exact Hrun |].
  destruct (Hall 0%nat (JStr "look around") eq_refl) as (b0 & Hb0 & Hspec0 & _).
  destruct (Hall 1%nat (JObj [("display_text", JStr "攻击"); ("details", JArr [JStr "力量+2"])])
              eq_refl) as (b1 & Hb1 & Hspec1 & _).
  destruct (gameSuggestions (page w')) as [|x0 [|x1 [|x2 rest]]]; try discriminate Hlen.
  injection Hb0 as ->. injection Hb1 as ->.
  assert (H0 : normalizes_as_specified (JStr "look around")) by (left; reflexivity).
  assert (H1 : normalizes_as_specified
                 (JObj [("display_text", JStr "攻击"); ("details", JArr [JStr "力量+2"])])).
  { right. split; [reflexivity | discriminate]. }
  apply (proj2 Hspec0) in H0. apply (proj2 Hspec1) in H1.
  cbn [map]. rewrite H0, H1. reflexivity.
Defined.

(** C7 fails as stated: an [action_command] that is JSON null is kept, where
    [??] would give the display text. *)
Lemma null_action_command_is_kept :
  actionCommand (normalized (suggestion_button null_command_choice)) = JNull /\
  actionCommand (spec_normalize null_command_choice) = JStr "攻击" /\
  normalized (suggestion_button null_command_choice) <> spec_normalize null_command_choice.
Proof. repeat split. discriminate. Qed.

(** The other divergence: a display text that is present but empty.  The
    code shows and submits the whole choice, where the specification gives
    the empty text and the command. *)
Lemma unlabelled_choice_is_raw :
  normalized (suggestion_button unlabelled_choice) =
    {| displayText := unlabelled_choice; actionCommand := unlabelled_choice;
       details := None |} /\
  spec_normalize unlabelled_choice =
    {| displayText := JStr ""; actionCommand := JStr "wait"; details := None |}.
Proof. split; reflexivity. Qed.


(** The button of a choice with an empty action command submits the text
    of the input box. *)
Lemma empty_action_command_falls_back_witness :
  suggestion_click plain_render no_numeric 1 0 (empty_command_world tt) =
    handleActionSubmit plain_render no_numeric 1 true JUndefined (empty_command_world tt) /\
  exists r rest,
    requests (final_world (suggestion_click plain_render no_numeric 2 0 (empty_command_world tt))) =
      requests (empty_command_world tt) ++ r :: rest /\
    url r = API_URL +:+ action_endpoint (empty_command_world tt) /\
    sends_action (JStr "go north") r.
Proof.
  pose proof (empty_action_command_falls_back plain_render no_numeric 1 0 wait_choice
                (empty_command_world tt) eq_refl eq_refl eq_refl eq_refl) as H.
  split; [exact (proj1 (proj2 H)) |].
  exact (proj1 (proj2 (proj2 (proj2 H))) ltac:(discriminate)).
Defined.

(** C9 fails as stated: a structured choice whose display text is empty
    too is not structured for the code.  Its button submits the choice
    itself, which is truthy, so the click posts the choice and does not
    fall back to the input box, whose text stays where it is. *)
Lemma blank_choice_is_posted :
  is_object blank_choice = true /\
  field blank_choice "action_command" = JStr "" /\
  btn_submit (suggestion_button blank_choice) = blank_choice /\
  map body (requests (final_world
      (suggestion_click plain_render no_numeric 1 0 (blank_choice_world tt)))) =
    [Some (JObj [("action", blank_choice)])] /\
  actionInput_value (page (final_world
      (suggestion_click plain_render no_numeric 1 0 (blank_choice_world tt)))) =
    "  go north ".
Proof. repeat split; vm_compute; reflexivity. Qed.


(** C3 on the code: after two turns both narrative entries close over
    index 0; the edit of the first one, "A", posts [history_index] 0, while
    in the order of the remote history "A" is at index 1 and index 0 is
    "B". *)
Lemma stale_history_index :
  gameLog (page (after_two_turns plain_render no_numeric tt)) =
    [Entry (JStr "player") (JStr "look around");
     Narrative (JStr "A") (JStr "A") (JNum 0) false;
     Entry (JStr "player") (JStr "go north");
     Narrative (JStr "B") (JStr "B") (JNum 0) false] /\
  body <$> last (requests (after_edit_of_first plain_render no_numeric tt)) =
    Some (Some (JObj [("narrative", JStr "A, corrected"); ("history_index", JNum 0)])) /\
  appendAtHead "B" (appendAtHead "A" []) !! 0%nat = Some "B" /\
  appendAtHead "B" (appendAtHead "A" []) !! 1%nat = Some "A".
Proof. repeat split; vm_compute; reflexivity. Qed.

(** ** Concrete runs, continued *)

(** The stored AI configuration id survives the logout that a failed
    refresh forces. *)
Lemma fetchWithAuth_keeps_other_keys_witness :
  localStorage (final_world (fetchWithAuth 1 "/sessions" no_options (configured_world tt)))
    !! "active_ai_config_id"
  = localStorage (configured_world tt) !! "active_ai_config_id".
Proof.
  apply (fetchWithAuth_keeps_other_keys 1 "/sessions" no_options (configured_world tt)
           "active_ai_config_id"); discriminate.
Defined.

(** One round of expiry and refresh: the caller gets the list of sessions,
    and the replay carries the new token. *)
Lemma fetchWithAuth_transparent_refresh_witness :
  exists w' replay,
    fetchWithAuth 2 "/sessions" no_options (one_round_world tt) =
      Normal (Some {| status := 200; payload_of := Some (JArr []) |}) w' /\
    requests w' =
      requests (one_round_world tt) ++
      [pipeline_request "/sessions" no_options (one_round_world tt);
       refresh_request (JStr "rt"); replay] /\
    url replay = API_URL +:+ "/sessions" /\
    method replay = o_method no_options /\
    body replay = o_body no_options /\
    headers replay !! "Authorization" = Some ("Bearer " +:+ "n1") /\
    accessToken (state w') = JStr "n1" /\
    localStorage w' !! "access_token" = Some "n1" /\
    localStorage w' !! "refresh_token" = Some "rt".
Proof.
  apply (fetchWithAuth_transparent_refresh 0 "/sessions" no_options (one_round_world tt)
           "rt" "n1" (JObj [("error", JStr "token_expired")])
           (JObj [("access_token", JStr "n1")]) 200 200 (Some (JArr [])));
    [reflexivity | discriminate | reflexivity | reflexivity | reflexivity | reflexivity
     | reflexivity | discriminate | reflexivity | discriminate].
Defined.

(** A server error is handed to the caller; the session is untouched. *)
Lemma fetchWithAuth_only_401_touches_session_witness :
  fetchWithAuth 1 "/sessions" no_options (server_error_world tt) =
    Normal (Some {| status := 500; payload_of := Some (JObj [("error", JStr "boom")]) |})
           (log_request (pipeline_request "/sessions" no_options (server_error_world tt))
                        (server_error_world tt)) /\
  state (final_world (fetchWithAuth 1 "/sessions" no_options (server_error_world tt))) =
    state (server_error_world tt) /\
  localStorage (final_world (fetchWithAuth 1 "/sessions" no_options (server_error_world tt))) =
    localStorage (server_error_world tt) /\
  page (final_world (fetchWithAuth 1 "/sessions" no_options (server_error_world tt))) =
    page (server_error_world tt) /\
  requests (final_world (fetchWithAuth 1 "/sessions" no_options (server_error_world tt))) =
    requests (server_error_world tt) ++
    [pipeline_request "/sessions" no_options (server_error_world tt)].
Proof.
  exact (fetchWithAuth_only_401_touches_session 0 "/sessions" no_options
           (server_error_world tt) ltac:(vm_compute; discriminate)).
Defined.

(** A successful refresh leaves the refresh token where it is. *)
Lemma refreshToken_keeps_refresh_token_witness :
  localStorage (final_world (refreshToken (refresh_world tt))) !! "refresh_token" =
    localStorage (refresh_world tt) !! "refresh_token".
Proof.
  apply (refreshToken_keeps_refresh_token (refresh_world tt) "refresh_token"). discriminate.
Defined.

(** The token of the sample world is the bearer token of its calls. *)
Lemma pipeline_request_headers_witness :
  headers (pipeline_request "/sessions" no_options (answering_world tt)) !! "Authorization" =
    Some ("Bearer " +:+ js_to_string (accessToken (state (answering_world tt)))) /\
  headers (pipeline_request "/sessions" no_options (answering_world tt)) !! "Content-Type" =
    Some "application/json".
Proof.
  split.
  - exact (proj1 (pipeline_request_headers "/sessions" no_options (answering_world tt))
             eq_refl).
  - exact (proj2 (proj2 (proj2 (pipeline_request_headers "/sessions" no_options
                                  (answering_world tt)))) eq_refl).
Defined.

(** A rejected session, and the click on the button of the banner. *)
Lemma rejected_then_banner_click_logs_out_witness :
  exists w1 w2,
    fetchWithAuth 1 "/sessions" no_options (rejected_world tt) = Normal None w1 /\
    banner_retry (globalError (page w1)) = Some CbHandleLogout /\
    banner_retry_click w1 = Normal tt w2 /\
    accessToken (state w2) = JNull /\
    localStorage w2 !! "access_token" = None /\
    localStorage w2 !! "refresh_token" = None /\
    view (page w2) = "auth-view" /\
    globalError (page w2) = cleared_banner.
Proof.
  apply (rejected_then_banner_click_logs_out 0 "/sessions" no_options (rejected_world tt)
           (JObj [("error", JStr "invalid_token")])); reflexivity.
Defined.

(** After the failed turn of the sample world the controls are back. *)
Lemma handleActionSubmit_settles_witness :
  actionInput_disabled (page (after_failed_turn plain_render no_numeric tt)) = false /\
  retryAiBtn (page (after_failed_turn plain_render no_numeric tt)) =
    {| retry_display := "inline-block"; retry_disabled := false;
       retry_text := retry_text (retryAiBtn (page (failing_world tt))) |} /\
  existsb is_skeleton (gameLog (page (after_failed_turn plain_render no_numeric tt))) = false /\
  actionInput_value (page (after_failed_turn plain_render no_numeric tt)) =
    (if truthy (JStr "look around") then actionInput_value (page (failing_world tt)) else "").
Proof.
  apply (handleActionSubmit_settles plain_render no_numeric 1 false (JStr "look around")
           (failing_world tt) (after_failed_turn plain_render no_numeric tt));
    [reflexivity | vm_compute; reflexivity].
Defined.

(** The failed turn of the sample world has added to the log. *)
Lemma handleActionSubmit_appends_witness :
  exists added,
    gameLog (page (after_failed_turn plain_render no_numeric tt)) =
      gameLog (page (failing_world tt)) ++
      Entry (JStr "player") (chosen_action (JStr "look around") (failing_world tt)) :: added.
Proof.
  apply (handleActionSubmit_appends plain_render no_numeric 1 false (JStr "look around")
           (failing_world tt) (after_failed_turn plain_render no_numeric tt));
    [reflexivity | reflexivity | vm_compute; reflexivity].
Defined.

(** The narrator fails: the reason given by the server is shown. *)
Lemma handleActionSubmit_server_error_witness :
  exists w1,
    handleActionSubmit plain_render no_numeric 1 false (JStr "look around") (failing_world tt) =
      Normal tt w1 /\
    gameLog (page w1) =
      gameLog (page (failing_world tt)) ++
      [Entry (JStr "player") (chosen_action (JStr "look around") (failing_world tt));
       Entry (JStr "message")
         (JStr ("世界之灵没有回应... (" +:+
                js_to_string
                  (js_or (field (default (JObj [])
                                   (Some (JObj [("error", JStr "narrator unavailable")])))
                                "error")
                         (JStr "请重试")) +:+ ")"))] /\
    gameSuggestions (page w1) =
      (fun b => disable_btn b false) <$> gameSuggestions (page (failing_world tt)) /\
    lastPlayerAction (state w1) = chosen_action (JStr "look around") (failing_world tt) /\
    length (requests w1) = S (length (requests (failing_world tt))).
Proof.
  apply (handleActionSubmit_server_error plain_render no_numeric 0 false (JStr "look around")
           (failing_world tt) 500 (Some (JObj [("error", JStr "narrator unavailable")])));
    [reflexivity | reflexivity | reflexivity | discriminate | reflexivity | reflexivity].
Defined.

(** No reply: the turn ends with the message that the connection is lost. *)
Lemma handleActionSubmit_connection_lost_witness :
  exists w1,
    handleActionSubmit plain_render no_numeric 1 false (JStr "look around") (silent_world tt) =
      Normal tt w1 /\
    gameLog (page w1) =
      gameLog (page (silent_world tt)) ++
      [Entry (JStr "player") (chosen_action (JStr "look around") (silent_world tt));
       Entry (JStr "message") (JStr "与世界之灵的连接中断，请检查网络并重试。")] /\
    gameSuggestions (page w1) =
      (fun b => disable_btn b false) <$> gameSuggestions (page (silent_world tt)) /\
    lastPlayerAction (state w1) = chosen_action (JStr "look around") (silent_world tt) /\
    length (requests w1) = S (length (requests (silent_world tt))).
Proof.
  apply (handleActionSubmit_connection_lost plain_render no_numeric 0 false
           (JStr "look around") (silent_world tt));
    [reflexivity | reflexivity | exact I].
Defined.

(** The narrator answers "A" with no choices. *)
Lemma handleActionSubmit_success_witness :
  exists w1,
    handleActionSubmit plain_render no_numeric 1 false (JStr "look around")
      (answering_world tt) = Normal tt w1 /\
    gameLog (page w1) =
      [Entry (JStr "player") (JStr "look around");
       Narrative (JStr "A") (JStr "A") (JNum 0) false] /\
    gameSuggestions (page w1) = [] /\
    lastPlayerAction (state w1) = JStr "look around" /\
    length (requests w1) = 1%nat.
Proof.
  destruct (handleActionSubmit_success plain_render no_numeric 0 false (JStr "look around")
              (answering_world tt) 200
              (JObj [("description", JStr "A"); ("suggested_choices", JArr [])]) [])
    as (w1 & Hrun & Hlog & Hbtn & _ & _ & Hlast & Hreq);
    [reflexivity | reflexivity | reflexivity | reflexivity | reflexivity
     | intros H; vm_compute in H; discriminate H | reflexivity |].
  exists w1. repeat split; assumption.
Defined.

(** A turn on a rejected session: the unknown error and the banner. *)
Lemma handleActionSubmit_session_rejected_witness :
  exists w1,
    handleActionSubmit plain_render no_numeric 1 false (JStr "look around")
      (rejected_world tt) = Normal tt w1 /\
    gameLog (page w1) =
      gameLog (page (rejected_world tt)) ++
      [Entry (JStr "player") (chosen_action (JStr "look around") (rejected_world tt));
       Entry (JStr "message") (JStr "世界之灵没有回应... (未知错误)")] /\
    globalError (page w1) = login_expired_banner /\
    view (page w1) = view (page (rejected_world tt)) /\
    accessToken (state w1) = accessToken (state (rejected_world tt)) /\
    localStorage w1 = localStorage (rejected_world tt) /\
    gameSuggestions (page w1) =
      (fun b => disable_btn b false) <$> gameSuggestions (page (rejected_world tt)) /\
    length (requests w1) = S (length (requests (rejected_world tt))).
Proof.
  apply (handleActionSubmit_session_rejected plain_render no_numeric 0 false
           (JStr "look around") (rejected_world tt) (JObj [("error", JStr "invalid_token")]));
    reflexivity.
Defined.

(** The server refuses the edit of an entry with index 0. *)
Lemma saveNarrativeEdit_refused_witness :
  exists w1 r,
    saveNarrativeEdit 1 0 (JStr "A") "A, corrected" (JStr "A") (JNum 0) (failing_world tt) =
      Normal tt w1 /\
    page w1 = page (failing_world tt) /\
    alerts w1 =
      alerts (failing_world tt) ++
      ["更新失败: " +:+
       js_to_string (js_or (field (JObj [("error", JStr "narrator unavailable")]) "error")
                           (JStr "未知错误"))] /\
    requests w1 = requests (failing_world tt) ++ [r] /\
    url r = "/api/sessions/" +:+ js_to_string (currentSessionId (state (failing_world tt))) +:+
            "/update_narrative" /\
    method r = Some "POST" /\
    body r = Some (JObj [("narrative", JStr "A, corrected"); ("history_index", JNum 0)]).
Proof.
  apply (saveNarrativeEdit_refused 0 0 (JStr "A") "A, corrected" (JStr "A") (JNum 0)
           (failing_world tt) 500 (JObj [("error", JStr "narrator unavailable")]));
    [vm_compute; discriminate | reflexivity | reflexivity | discriminate | reflexivity
     | reflexivity].
Defined.

(** No reply to the update: the edit holds locally. *)
Lemma saveNarrativeEdit_local_on_failure_witness :
  exists w1,
    saveNarrativeEdit 1 0 (JStr "A") "A, corrected" (JStr "A") (JNum 0) (silent_world tt) =
      Normal tt w1 /\
    gameLog (page w1) =
      <[0%nat := Narrative (JStr "A, corrected") (JStr "A, corrected") (JNum 0)
                   (negb (strict_eq_str (JStr "A") "A, corrected"))]>
        (gameLog (page (silent_world tt))) /\
    alerts w1 = alerts (silent_world tt) ++ ["同步到服务器失败，修改仅在本地生效"] /\
    length (requests w1) = S (length (requests (silent_world tt))).
Proof.
  apply (saveNarrativeEdit_local_on_failure 0 0 (JStr "A") "A, corrected" (JStr "A") (JNum 0)
           (silent_world tt));
    [vm_compute; discriminate | reflexivity | exact I].
Defined.

(** The server accepts the update. *)
Lemma saveNarrativeEdit_applies_witness :
  exists w1,
    saveNarrativeEdit 1 0 (JStr "A") "A, corrected" (JStr "A") (JNum 0) (answering_world tt) =
      Normal tt w1 /\
    gameLog (page w1) =
      <[0%nat := Narrative (JStr "A, corrected") (JStr "A, corrected") (JNum 0)
                   (negb (strict_eq_str (JStr "A") "A, corrected"))]>
        (gameLog (page (answering_world tt))) /\
    alerts w1 = alerts (answering_world tt) /\
    requests w1 =
      (if nullish (JNum 0) then requests (answering_world tt)
       else requests (answering_world tt) ++
            [pipeline_request
               ("/sessions/" +:+ js_to_string (currentSessionId (state (answering_world tt)))
                +:+ "/update_narrative")
               (narrative_options "A, corrected" (JNum 0)) (answering_world tt)]).
Proof.
  apply (saveNarrativeEdit_applies 0 0 (JStr "A") "A, corrected" (JStr "A") (JNum 0)
           (answering_world tt));
    [vm_compute; discriminate
    | intros _;
      exists 200, (Some (JObj [("description", JStr "A"); ("suggested_choices", JArr [])]));
      split; reflexivity].
Defined.

(** After two turns: the first narrative is opened, typed in and left. *)
Lemma edit_cancel_restores_witness :
  edit_then_cancel 1 "typed" (after_two_turns plain_render no_numeric tt) =
    Normal tt (with_page (fun d =>
      set_gameLog (<[1%nat := Narrative (JStr "A") (JStr "A") (JNum 0) false]> (gameLog d)) d)
      (after_two_turns plain_render no_numeric tt)).
Proof.
  apply (edit_cancel_restores 1 "typed" (after_two_turns plain_render no_numeric tt)
           (JStr "A") "A" (JNum 0) false).
  vm_compute. reflexivity.
Defined.

(** A number shown as a narrative cannot be edited. *)
Lemma edit_of_non_string_throws_witness :
  edit_click (length (gameLog (page (answering_world tt))))
    (final_world (appendLog (JNum 5) (JStr "ai") (JNum 0) (answering_world tt))) =
  Thrown TypeError (final_world (appendLog (JNum 5) (JStr "ai") (JNum 0) (answering_world tt))).
Proof.
  apply (edit_of_non_string_throws (JNum 5) (JNum 0) (answering_world tt)
           (final_world (appendLog (JNum 5) (JStr "ai") (JNum 0) (answering_world tt))));
    [intros s; discriminate | reflexivity].
Defined.

(** The saved session is restored, the oldest entry first. *)
Lemma startGame_restores_history_witness :
  exists w1,
    startGame plain_render no_numeric 0 saved_session (answering_world tt) = Normal tt w1 /\
    requests w1 = requests (answering_world tt) /\
    view (page w1) = "game-view" /\
    currentSessionId (state w1) = JNum 9 /\
    gameLog (page w1) =
      [Entry (JStr "user") (JStr "look around");
       Entry (JStr "assistant") (JStr "A dark room.")] /\
    Forall (fun node => submitted_index node = None \/ submitted_index node = Some JNull)
           (gameLog (page w1)).
Proof.
  apply (startGame_restores_history plain_render no_numeric 0 saved_session
           (answering_world tt)
           [JObj [("role", JStr "assistant"); ("content", JStr "A dark room.")];
            JObj [("role", JStr "user"); ("content", JStr "look around")]]);
    [reflexivity | reflexivity | reflexivity | reflexivity | discriminate
     | repeat constructor | left; reflexivity].
Defined.


(** The refresh endpoint cannot be reached: the call throws and the tokens
    stay. *)
Lemma fetchWithAuth_refresh_unreachable_witness :
  exists err w',
    fetchWithAuth 1 "/sessions" no_options (refresh_unreachable_world tt) = Thrown err w' /\
    (err = NetworkError \/ err = SyntaxError) /\
    state w' = state (refresh_unreachable_world tt) /\
    localStorage w' = localStorage (refresh_unreachable_world tt) /\
    page w' = page (refresh_unreachable_world tt) /\
    requests w' =
      requests (refresh_unreachable_world tt) ++
      [pipeline_request "/sessions" no_options (refresh_unreachable_world tt);
       refresh_request (JStr "rt")].
Proof.
  apply (fetchWithAuth_refresh_unreachable 0 "/sessions" no_options
           (refresh_unreachable_world tt) "rt" (JObj [("error", JStr "token_expired")]));
    [reflexivity | reflexivity | reflexivity | discriminate
     | intros st data H; vm_compute in H; discriminate H].
Defined.

(** The failed turn of the sample world does not end with an error. *)
Lemma handleActionSubmit_never_throws_witness :
  handleActionSubmit plain_render no_numeric 1 false (JStr "look around") (silent_world tt) <>
    Thrown NetworkError (silent_world tt).
Proof.
  apply (handleActionSubmit_never_throws plain_render no_numeric 1 false (JStr "look around")
           (silent_world tt) (silent_world tt) NetworkError).
Defined.

(** Nor does the save of an edit that gets no reply. *)
Lemma saveNarrativeEdit_never_throws_witness :
  saveNarrativeEdit 1 0 (JStr "A") "A, corrected" (JStr "A") (JNum 0) (silent_world tt) <>
    Thrown NetworkError (silent_world tt).
Proof.
  apply (saveNarrativeEdit_never_throws 1 0 (JStr "A") "A, corrected" (JStr "A") (JNum 0)
           (silent_world tt) (silent_world tt) NetworkError).
Defined.

(** After two turns, the save of the first narrative leaves the three other
    entries as they are. *)
Lemma saveNarrativeEdit_only_its_entry_witness :
  length (gameLog (page (final_world
    (saveNarrativeEdit 1 1 (JStr "A") "A, corrected" (JStr "A") (JNum 0)
       (editing_first plain_render no_numeric tt))))) =
    length (gameLog (page (editing_first plain_render no_numeric tt))) /\
  (forall j, j <> 1%nat ->
     gameLog (page (final_world
       (saveNarrativeEdit 1 1 (JStr "A") "A, corrected" (JStr "A") (JNum 0)
          (editing_first plain_render no_numeric tt)))) !! j =
     gameLog (page (editing_first plain_render no_numeric tt)) !! j) /\
  gameSuggestions (page (final_world
    (saveNarrativeEdit 1 1 (JStr "A") "A, corrected" (JStr "A") (JNum 0)
       (editing_first plain_render no_numeric tt)))) =
    gameSuggestions (page (editing_first plain_render no_numeric tt)) /\
  actionInput_value (page (final_world
    (saveNarrativeEdit 1 1 (JStr "A") "A, corrected" (JStr "A") (JNum 0)
       (editing_first plain_render no_numeric tt)))) =
    actionInput_value (page (editing_first plain_render no_numeric tt)) /\
  lastPlayerAction (state (final_world
    (saveNarrativeEdit 1 1 (JStr "A") "A, corrected" (JStr "A") (JNum 0)
       (editing_first plain_render no_numeric tt)))) =
    lastPlayerAction (state (editing_first plain_render no_numeric tt)).
Proof.
  exact (saveNarrativeEdit_only_its_entry 1 1 (JStr "A") "A, corrected" (JStr "A") (JNum 0)
           (editing_first plain_render no_numeric tt)).
Defined.
